(** * medicount-bot: a shallow embedding of [main.py] and its verified properties

    The development follows the layout of the program: Python values and
    strings, calendar dates, the MongoDB collection of medicines with its
    unique index, the transliteration helper and the inline search, the
    barcode name selection, the list keyboard, the conversational state
    machine (FSM context, gateway calls, handlers) and the daily reminder.
    Definitions come first; the lemmas and theorems about them follow. *)

From Stdlib Require Import ZArith NArith Lia Bool.
From Stdlib Require Import Strings.String Strings.Ascii Strings.Byte.
From stdpp Require Import base decidable numbers option list sorting gmap strings.

Local Open Scope string_scope.
Local Open Scope list_scope.
Local Open Scope Z_scope.

(** ** Python strings

    A Python [str] is a sequence of Unicode code points; [for char in text],
    [len], [min(..., key=len)] and the comparison used by [sorted] all work on
    code points.  String literals of the source are written as UTF-8 text and
    decoded with [u]. *)

Abbreviation str := (list N) (only parsing).

(** Decoder of the UTF-8 bytes of a literal into code points (one to four
    byte sequences; a stray byte is kept as it is). *)
Fixpoint utf8_decode (fuel : nat) (bs : list N) : str :=
  match fuel with
  | O => []
  | S fuel' =>
    match bs with
    | [] => []
    | b0 :: r0 =>
      if (b0 <? 128)%N then b0 :: utf8_decode fuel' r0
      else if (b0 <? 224)%N then
        match r0 with
        | b1 :: r1 => ((b0 - 192) * 64 + (b1 - 128))%N :: utf8_decode fuel' r1
        | _ => [b0]
        end
      else if (b0 <? 240)%N then
        match r0 with
        | b1 :: b2 :: r2 =>
            ((b0 - 224) * 4096 + (b1 - 128) * 64 + (b2 - 128))%N :: utf8_decode fuel' r2
        | _ => b0 :: r0
        end
      else
        match r0 with
        | b1 :: b2 :: b3 :: r3 =>
            ((b0 - 240) * 262144 + (b1 - 128) * 4096 + (b2 - 128) * 64 + (b3 - 128))%N
              :: utf8_decode fuel' r3
        | _ => b0 :: r0
        end
    end
  end.

Definition u (s : string) : str :=
  let bs := List.map (fun b => N.of_nat (Byte.to_nat b)) (list_byte_of_string s) in
  utf8_decode (List.length bs) bs.

(** [str.lower()] on the alphabets the bot is used with: ASCII, Latin-1 and
    the Cyrillic block.  Other code points are left unchanged. *)
Definition lower_char (c : N) : N :=
  if ((65 <=? c) && (c <=? 90))%N then (c + 32)%N
  else if ((192 <=? c) && (c <=? 222) && negb (c =? 215))%N then (c + 32)%N
  else if ((1040 <=? c) && (c <=? 1071))%N then (c + 32)%N
  else if ((1024 <=? c) && (c <=? 1039))%N then (c + 80)%N
  else c.

Definition lower (s : str) : str := List.map lower_char s.

(** [str.casefold()], which agrees with [lower] on these alphabets. *)
Definition casefold (s : str) : str := lower s.

(** Code points removed by [str.strip()]. *)
Definition is_space (c : N) : bool :=
  ((9 <=? c) && (c <=? 13) || (28 <=? c) && (c <=? 32) || (c =? 133) || (c =? 160)
   || (c =? 5760) || (8192 <=? c) && (c <=? 8202) || (c =? 8232) || (c =? 8233)
   || (c =? 8239) || (c =? 8287) || (c =? 12288))%N.

Fixpoint lstrip (s : str) : str :=
  match s with
  | c :: s' => if is_space c then lstrip s' else s
  | [] => []
  end.

Definition strip (s : str) : str := rev (lstrip (rev (lstrip s))).

(** Comparison of two strings as Python's [<] on [str] and MongoDB's
    comparison of string values do it: code point by code point, a proper
    prefix first. *)
Fixpoint str_compare (a b : str) : comparison :=
  match a, b with
  | [], [] => Eq
  | [], _ :: _ => Lt
  | _ :: _, [] => Gt
  | x :: a', y :: b' =>
      match (x ?= y)%N with
      | Eq => str_compare a' b'
      | c => c
      end
  end.

Definition str_le (a b : str) : Prop := str_compare a b <> Gt.
Definition str_lt (a b : str) : Prop := str_compare a b = Lt.

Definition str_leb (a b : str) : bool :=
  match str_compare a b with Gt => false | _ => true end.
Definition str_ltb (a b : str) : bool :=
  match str_compare a b with Lt => true | _ => false end.

#[global] Instance str_le_dec (a b : str) : Decision (str_le a b).
Proof. unfold str_le. apply _. Defined.

(** [old in s] for strings: [s] contains [old] as a contiguous run. *)
Fixpoint starts_with (p s : str) : bool :=
  match p, s with
  | [], _ => true
  | _ :: _, [] => false
  | x :: p', y :: s' => (x =? y)%N && starts_with p' s'
  end.

Fixpoint contains (sub s : str) : bool :=
  starts_with sub s ||
  match s with
  | [] => false
  | _ :: s' => contains sub s'
  end.

(** [s.replace(old, new)] for a non-empty [old]: occurrences are replaced
    from the left and do not overlap.  [fuel] bounds the number of steps and
    is the length of [s] plus one at every use. *)
Fixpoint replace_go (fuel : nat) (old new s : str) : str :=
  match fuel with
  | O => s
  | S fuel' =>
    match s with
    | [] => []
    | c :: s' =>
      if starts_with old s
      then new ++ replace_go fuel' old new (drop (List.length old) s)
      else c :: replace_go fuel' old new s'
    end
  end.

Definition replace (old new s : str) : str :=
  replace_go (S (List.length s)) old new s.

(** ** Python values

    The values this program keeps in the FSM storage and passes to the
    collection's [$set]: [None], integers, strings and [datetime.date]. *)

Record date := Date { year : Z; month : Z; day : Z }.

Inductive value :=
| VNone
| VInt (z : Z)
| VStr (s : str)
| VDate (d : date).

#[global] Instance date_eq_dec : EqDecision date.
Proof. solve_decision. Defined.
#[global] Instance value_eq_dec : EqDecision value.
Proof. solve_decision. Defined.

(** Truth value of an object in a condition ([if x], [not x], [x and y],
    [all([...])]). *)
Definition truthy (v : value) : bool :=
  match v with
  | VNone => false
  | VInt z => negb (z =? 0)
  | VStr s => negb (bool_decide (s = []))
  | VDate _ => true
  end.

(** ** Calendar dates ([datetime.date]) *)

Definition is_leap (y : Z) : bool :=
  (y mod 4 =? 0) && (negb (y mod 100 =? 0) || (y mod 400 =? 0)).

Definition days_in_month (y m : Z) : Z :=
  if m =? 2 then (if is_leap y then 29 else 28)
  else if (m =? 4) || (m =? 6) || (m =? 9) || (m =? 11) then 30
  else 31.

(** The range checks of the [datetime.date] constructor (MINYEAR = 1,
    MAXYEAR = 9999). *)
Definition valid_date (d : date) : bool :=
  (1 <=? year d) && (year d <=? 9999) && (1 <=? month d) && (month d <=? 12)
  && (1 <=? day d) && (day d <=? days_in_month (year d) (month d)).

(** [datetime.date(year, month, day)]; [None] stands for [ValueError]. *)
Definition mk_date (y m d : Z) : option date :=
  if valid_date (Date y m d) then Some (Date y m d) else None.

(** Comparison of dates ([<] on [datetime.date]): by year, month, day. *)
Definition date_compare (a b : date) : comparison :=
  match year a ?= year b with
  | Eq => match month a ?= month b with
          | Eq => day a ?= day b
          | c => c
          end
  | c => c
  end.

Definition date_ltb (a b : date) : bool :=
  match date_compare a b with Lt => true | _ => false end.
Definition date_leb (a b : date) : bool :=
  match date_compare a b with Gt => false | _ => true end.

(** The day after [d]. *)
Definition next_day (d : date) : date :=
  if day d <? days_in_month (year d) (month d) then Date (year d) (month d) (day d + 1)
  else if month d <? 12 then Date (year d) (month d + 1) 1
  else Date (year d + 1) 1 1.

(** [d + datetime.timedelta(days=n)] for [n >= 0]: the [n]-th day after [d];
    [None] stands for the [OverflowError] past year 9999. *)
Fixpoint add_days (n : nat) (d : date) : option date :=
  match n with
  | O => Some d
  | S n' =>
      let d' := next_day d in
      if valid_date d' then add_days n' d' else None
  end.

Definition digit (n : Z) : N := Z.to_N (48 + n mod 10).
Definition pad4 (n : Z) : str := [digit (n / 1000); digit (n / 100); digit (n / 10); digit n].
Definition pad2 (n : Z) : str := [digit (n / 10); digit n].

(** [d.isoformat()]: YYYY-MM-DD. *)
Definition isoformat (d : date) : str :=
  pad4 (year d) ++ [45%N] ++ pad2 (month d) ++ [45%N] ++ pad2 (day d).

(** [datetime.datetime.strptime(s, "%Y-%m-%d").date()].  The format is
    matched as CPython's [_strptime] does it: [%Y] is four digits, [%m] is
    [1[0-2]|0[1-9]|[1-9]], [%d] is [3[0-1]|[1-2]\d|0[1-9]|[1-9]| [1-9]], the
    first alternative that matches is taken, nothing may remain after the
    day, and the numbers must form a date.  [\d] matches every Unicode
    decimal digit and [int] reads them; the ranges [[1-9]] and the like hold
    ASCII digits only.  [None] stands for [ValueError]. *)
Definition in_range (lo hi : N) (c : N) : bool := ((lo <=? c) && (c <=? hi))%N.

(** The code points of the digit zero of every script with decimal digits
    (category Nd of Unicode 14); the nine other digits follow each of them. *)
Definition decimal_zeros : list N :=
  [48; 1632; 1776; 1984; 2406; 2534; 2662; 2790; 2918; 3046; 3174; 3302; 3430;
   3558; 3664; 3792; 3872; 4160; 4240; 6112; 6160; 6470; 6608; 6784; 6800; 6992;
   7088; 7232; 7248; 42528; 43216; 43264; 43472; 43504; 43600; 44016; 65296;
   66720; 68912; 69734; 69872; 69942; 70096; 70384; 70736; 70864; 71248; 71360;
   71472; 71904; 72016; 72784; 73040; 73120; 92768; 92864; 93008;
   120782; 120792; 120802; 120812; 120822;
   123200; 123632; 125264; 130032]%N.

(** The value of a character that [\d] matches. *)
Definition digit_val (c : N) : option Z :=
  match List.find (fun z => in_range z (z + 9) c) decimal_zeros with
  | Some z => Some (Z.of_N (c - z))
  | None => None
  end.

Definition parse_Y (s : str) : option (Z * str) :=
  match s with
  | a :: b :: c :: d :: r =>
      match digit_val a, digit_val b, digit_val c, digit_val d with
      | Some a, Some b, Some c, Some d => Some (1000 * a + 100 * b + 10 * c + d, r)
      | _, _, _, _ => None
      end
  | _ => None
  end.

Definition parse_m (s : str) : option (Z * str) :=
  match s with
  | a :: r =>
      match r with
      | b :: r' =>
          if (a =? 49)%N && in_range 48 50 b then Some (10 + (Z.of_N b - 48), r')
          else if (a =? 48)%N && in_range 49 57 b then Some (Z.of_N b - 48, r')
          else if in_range 49 57 a then Some (Z.of_N a - 48, r)
          else None
      | [] => if in_range 49 57 a then Some (Z.of_N a - 48, r) else None
      end
  | [] => None
  end.

Definition parse_d (s : str) : option (Z * str) :=
  match s with
  | a :: r =>
      match r with
      | b :: r' =>
          if (a =? 51)%N && in_range 48 49 b then Some (30 + (Z.of_N b - 48), r')
          else if in_range 49 50 a && bool_decide (is_Some (digit_val b))
               then Some (10 * (Z.of_N a - 48) + default 0 (digit_val b), r')
          else if (a =? 48)%N && in_range 49 57 b then Some (Z.of_N b - 48, r')
          else if in_range 49 57 a then Some (Z.of_N a - 48, r)
          else if (a =? 32)%N && in_range 49 57 b then Some (Z.of_N b - 48, r')
          else None
      | [] => if in_range 49 57 a then Some (Z.of_N a - 48, r) else None
      end
  | [] => None
  end.

Definition expect_dash (s : str) : option str :=
  match s with
  | c :: r => if (c =? 45)%N then Some r else None
  | [] => None
  end.

Definition strptime (s : str) : option date :=
  '(y, s1) ← parse_Y s;
  s2 ← expect_dash s1;
  '(m, s3) ← parse_m s2;
  s4 ← expect_dash s3;
  '(d, s5) ← parse_d s4;
  match s5 with
  | [] => mk_date y m d
  | _ :: _ => None
  end.

(** ** The collection of medicines

    [med_collection] is a MongoDB collection.  Its documents are the ones
    [_save_new_medicine] inserts: the six fields of [med_doc] and the [_id]
    the driver assigns.  The collection is modelled as the list of its
    documents in insertion order, with the compound unique index on
    [(added_by, name_lower)] that [create_db_indexes] declares. *)

Record medicine := Medicine {
  _id : N;
  name : str;
  name_lower : str;
  quantity : str;
  notes : str;
  exp_date : str;
  added_by : Z
}.

#[global] Instance medicine_eq_dec : EqDecision medicine.
Proof. solve_decision. Defined.

Definition collection := list medicine.

(** The key of the unique index created by
    [create_index([("added_by", 1), ("name_lower", 1)], unique=True)]. *)
Definition index_key (m : medicine) : Z * str := (added_by m, name_lower m).

(** The document dictionary built at the end of the add flow (no [_id]). *)
Record med_doc := MedDoc {
  doc_name : str;
  doc_name_lower : str;
  doc_quantity : str;
  doc_notes : str;
  doc_exp_date : str;
  doc_added_by : Z
}.

Definition fresh_id (c : collection) : N :=
  (1 + foldr N.max 0 (List.map _id c))%N.

Definition with_id (i : N) (d : med_doc) : medicine :=
  Medicine i (doc_name d) (doc_name_lower d) (doc_quantity d) (doc_notes d)
           (doc_exp_date d) (doc_added_by d).

(** Exceptions the handlers can meet. *)
Inductive exn :=
| DuplicateKeyError
| InvalidDocument      (* bson cannot encode the value given to [$set] *)
| AttributeError       (* [.get] on [None] *)
| ValueError
| InvalidId            (* [ObjectId] of a text that is no object id *)
| OverflowError
| TelegramError.       (* a gateway call outside [safe_edit_message] failed *)

(** [insert_one]: the unique index refuses a document whose key is taken. *)
Definition insert_one (d : med_doc) (c : collection) : exn + collection :=
  if bool_decide (Exists (fun m => index_key m = (doc_added_by d, doc_name_lower d)) c)
  then inl DuplicateKeyError
  else inr (c ++ [with_id (fresh_id c) d]).

(** [find_one(filter)]: the first document that matches. *)
Definition find_one (f : medicine -> bool) (c : collection) : option medicine :=
  List.find f c.

(** Filters of the queries in the source. *)
Definition by_name_lower (n : str) (user : Z) (m : medicine) : bool :=
  bool_decide (name_lower m = n) && bool_decide (added_by m = user).
Definition by_id (oid : N) (user : Z) (m : medicine) : bool :=
  bool_decide (_id m = oid) && bool_decide (added_by m = user).
Definition by_name_lower_ne_id (n : str) (user : Z) (oid : N) (m : medicine) : bool :=
  bool_decide (name_lower m = n) && bool_decide (added_by m = user)
  && negb (bool_decide (_id m = oid)).
Definition by_user (user : Z) (m : medicine) : bool := bool_decide (added_by m = user).

(** [{"$set": upd}] applied to a document.  The documents carry string
    fields only and the keys of [upd] are Python strings; [None] stands for a
    [$set] the collection cannot take as such a document (bson raises
    [InvalidDocument] on a [datetime.date]; no handler passes a key outside
    the five fields or an integer). *)
Definition set_keys : list str :=
  [u "name"; u "name_lower"; u "quantity"; u "notes"; u "exp_date"].

Definition str_of (v : option value) (old : str) : option str :=
  match v with
  | None => Some old
  | Some (VStr s) => Some s
  | Some _ => None
  end.

Definition apply_set (upd : gmap str value) (m : medicine) : option medicine :=
  if bool_decide (dom upd ⊆ list_to_set (C := gset str) set_keys) then
    n ← str_of (upd !! u "name") (name m);
    nl ← str_of (upd !! u "name_lower") (name_lower m);
    q ← str_of (upd !! u "quantity") (quantity m);
    no ← str_of (upd !! u "notes") (notes m);
    e ← str_of (upd !! u "exp_date") (exp_date m);
    Some (Medicine (_id m) n nl q no e (added_by m))
  else None.

(** The result object of [update_one]. *)
Record update_result := UpdateResult { matched_count : nat; modified_count : nat }.

(** Replace the first document that matches [f] by [m']. *)
Fixpoint replace_first (f : medicine -> bool) (m' : medicine) (c : collection) : collection :=
  match c with
  | [] => []
  | m :: c' => if f m then m' :: c' else m :: replace_first f m' c'
  end.

(** [update_one(filter, {"$set": upd})]: the first matching document is
    updated; the unique index refuses an update that would give two
    documents the same key. *)
Definition update_one (f : medicine -> bool) (upd : gmap str value) (c : collection)
  : exn + (update_result * collection) :=
  match find_one f c with
  | None => inr (UpdateResult 0 0, c)
  | Some m =>
      match apply_set upd m with
      | None => inl InvalidDocument
      | Some m' =>
          if bool_decide (m' = m) then inr (UpdateResult 1 0, c)
          else if bool_decide (Exists (fun o => _id o <> _id m /\ index_key o = index_key m') c)
          then inl DuplicateKeyError
          else inr (UpdateResult 1 1, replace_first f m' c)
      end
  end.

(** Remove the first document that matches [f]. *)
Fixpoint remove_first (f : medicine -> bool) (c : collection) : collection :=
  match c with
  | [] => []
  | m :: c' => if f m then c' else m :: remove_first f c'
  end.

(** [delete_one(filter)]: the new collection and [deleted_count]. *)
Definition delete_one (f : medicine -> bool) (c : collection) : nat * collection :=
  match find_one f c with
  | None => (O, c)
  | Some _ => (1%nat, remove_first f c)
  end.

(** [find(filter).sort(key).to_list(None)]: the matching documents in
    ascending order of the string field [key]. *)
Definition find_sorted (f : medicine -> bool) (key : medicine -> str) (c : collection)
  : list medicine :=
  merge_sort (fun a b => str_le (key a) (key b)) (List.filter f c).

(** [distinct("added_by")]. *)
Definition distinct_added_by (c : collection) : list Z :=
  remove_dups (List.map added_by c).

(** [_get_user_medicines]. *)
Definition _get_user_medicines (user_id : Z) (c : collection) : list medicine :=
  find_sorted (by_user user_id) name_lower c.

(** [ObjectId(s)] for the 24 hexadecimal digits [str(ObjectId)] prints;
    [None] stands for [InvalidId]. *)
Definition hex_val (c : N) : option N :=
  if in_range 48 57 c then Some (c - 48)%N
  else if in_range 97 102 c then Some (c - 87)%N
  else if in_range 65 70 c then Some (c - 55)%N
  else None.

Fixpoint hex_parse (acc : N) (s : str) : option N :=
  match s with
  | [] => Some acc
  | c :: s' =>
      match hex_val c with
      | Some v => hex_parse (acc * 16 + v)%N s'
      | None => None
      end
  end.

Definition ObjectId (s : str) : option N :=
  if (List.length s =? 24)%nat then hex_parse 0%N s else None.

(** [ObjectId(v)] for a value read from the FSM storage. *)
Definition ObjectId_of (v : value) : option N :=
  match v with
  | VStr s => ObjectId s
  | _ => None
  end.

Definition hex_digit (v : N) : N := if (v <? 10)%N then (48 + v)%N else (87 + v)%N.

Fixpoint hex_print (digits : nat) (n : N) (acc : str) : str :=
  match digits with
  | O => acc
  | S k => hex_print k (n / 16)%N (hex_digit (n mod 16)%N :: acc)
  end.

(** [str(med['_id'])]. *)
Definition str_of_id (oid : N) : str := hex_print 24 oid [].

(** ** Transliteration and the inline search *)

(** The two dictionaries of [transliterate]. *)
Definition ru_en : gmap str str := list_to_map [
   (u "а", u "a"); (u "б", u "b"); (u "в", u "v"); (u "г", u "g");
   (u "д", u "d"); (u "е", u "e"); (u "ё", u "yo"); (u "ж", u "zh");
   (u "з", u "z"); (u "и", u "i"); (u "й", u "j"); (u "к", u "k");
   (u "л", u "l"); (u "м", u "m"); (u "н", u "n"); (u "о", u "o");
   (u "п", u "p"); (u "р", u "r"); (u "с", u "s"); (u "т", u "t");
   (u "у", u "u"); (u "ф", u "f"); (u "х", u "h"); (u "ц", u "ts");
   (u "ч", u "ch"); (u "ш", u "sh"); (u "щ", u "shch"); (u "ъ", []);
   (u "ы", u "y"); (u "ь", []); (u "э", u "e"); (u "ю", u "yu");
   (u "я", u "ya"); (u "А", u "A"); (u "Б", u "B"); (u "В", u "V");
   (u "Г", u "G"); (u "Д", u "D"); (u "Е", u "E"); (u "Ё", u "Yo");
   (u "Ж", u "Zh"); (u "З", u "Z"); (u "И", u "I"); (u "Й", u "J");
   (u "К", u "K"); (u "Л", u "L"); (u "М", u "M"); (u "Н", u "N");
   (u "О", u "O"); (u "П", u "P"); (u "Р", u "R"); (u "С", u "S");
   (u "Т", u "T"); (u "У", u "U"); (u "Ф", u "F"); (u "Х", u "H");
   (u "Ц", u "Ts"); (u "Ч", u "Ch"); (u "Ш", u "Sh"); (u "Щ", u "Shch");
   (u "Ъ", []); (u "Ы", u "Y"); (u "Ь", []); (u "Э", u "E");
   (u "Ю", u "Yu"); (u "Я", u "Ya") ].

Definition en_ru : gmap str str := list_to_map [
   (u "a", u "а"); (u "b", u "б"); (u "v", u "в"); (u "g", u "г");
   (u "d", u "д"); (u "e", u "е"); (u "yo", u "ё"); (u "zh", u "ж");
   (u "z", u "з"); (u "i", u "и"); (u "j", u "й"); (u "k", u "к");
   (u "l", u "л"); (u "m", u "м"); (u "n", u "н"); (u "o", u "о");
   (u "p", u "п"); (u "r", u "р"); (u "s", u "с"); (u "t", u "т");
   (u "u", u "у"); (u "f", u "ф"); (u "h", u "х"); (u "ts", u "ц");
   (u "ch", u "ч"); (u "sh", u "ш"); (u "shch", u "щ"); (u "y", u "ы");
   (u "yu", u "ю"); (u "ya", u "я"); (u "A", u "А"); (u "B", u "Б");
   (u "V", u "В"); (u "G", u "Г"); (u "D", u "Д"); (u "E", u "Е");
   (u "Yo", u "Ё"); (u "Zh", u "Ж"); (u "Z", u "З"); (u "I", u "И");
   (u "J", u "Й"); (u "K", u "К"); (u "L", u "Л"); (u "M", u "М");
   (u "N", u "Н"); (u "O", u "О"); (u "P", u "П"); (u "R", u "Р");
   (u "S", u "С"); (u "T", u "Т"); (u "U", u "У"); (u "F", u "Ф");
   (u "H", u "Х"); (u "Ts", u "Ц"); (u "Ch", u "Ч"); (u "Sh", u "Ш");
   (u "Shch", u "Щ"); (u "Y", u "Ы"); (u "Yu", u "Ю"); (u "Ya", u "Я") ].

(** [c in dic] for a character [c]. *)
Definition in_dict (dic : gmap str str) (c : N) : bool :=
  bool_decide (is_Some (dic !! [c])).

(** [dic.get(char, char)]. *)
Definition dict_get (dic : gmap str str) (c : N) : str :=
  default [c] (dic !! [c]).

(** The loop [for char in text: result += dic.get(char, char)]. *)
Definition translate (dic : gmap str str) (text : str) : str :=
  concat (List.map (dict_get dic) text).

(** The chain of [replace] calls of the Latin branch, in source order. *)
Definition digraphs (text : str) : str :=
  let text := replace (u "Shch") (u "Щ") (replace (u "shch") (u "щ") text) in
  let text := replace (u "Yo") (u "Ё") (replace (u "yo") (u "ё") text) in
  let text := replace (u "Zh") (u "Ж") (replace (u "zh") (u "ж") text) in
  let text := replace (u "Ts") (u "Ц") (replace (u "ts") (u "ц") text) in
  let text := replace (u "Ch") (u "Ч") (replace (u "ch") (u "ч") text) in
  let text := replace (u "Sh") (u "Ш") (replace (u "sh") (u "ш") text) in
  let text := replace (u "Yu") (u "Ю") (replace (u "yu") (u "ю") text) in
  replace (u "Ya") (u "Я") (replace (u "ya") (u "я") text).

Definition is_ru (text : str) : bool := existsb (in_dict ru_en) text.
Definition is_en (text : str) : bool := existsb (in_dict en_ru) text.

Definition transliterate (text : str) : str :=
  if is_ru text && negb (is_en text) then translate ru_en text
  else if is_en text && negb (is_ru text) then translate en_ru (digraphs text)
  else text.

(** [{"name_lower": {"$regex": re.escape(pattern), "$options": "i"}}]: the
    escaped pattern matches itself anywhere in the field, letter case
    ignored. *)
Definition regex_i (pattern field : str) : bool :=
  contains (casefold pattern) (casefold field).

(** The list [search_conditions] built by [inline_search_handler], as the
    patterns of its regular expressions. *)
Definition search_conditions (query_lower : str) : list str :=
  let translit_query_lower := transliterate query_lower in
  [query_lower] ++
  (if bool_decide (translit_query_lower <> query_lower) then [translit_query_lower] else []).

(** The filter [db_query]: the user's documents that match one of the
    conditions. *)
Definition db_query (user_id : Z) (conds : list str) (m : medicine) : bool :=
  by_user user_id m && existsb (fun p => regex_i p (name_lower m)) conds.

(** What [inline_query.answer] is called with. *)
Inductive inline_answer :=
| AnswerTypeAName                                   (* no results, "Введите название..." *)
| AnswerResults (results : list medicine) (next_offset : option nat).

(** [inline_search_handler]; [offset] is [int(inline_query.offset)] or 0. *)
Definition inline_search_handler (query : str) (user_id : Z) (offset : nat) (c : collection)
  : inline_answer :=
  let query := strip query in
  let limit := 20%nat in
  if (List.length query <? 1)%nat then AnswerTypeAName
  else
    let query_lower := lower query in
    let found_medicines :=
      take limit (drop offset (find_sorted (db_query user_id (search_conditions query_lower))
                                           name_lower c)) in
    AnswerResults found_medicines
      (if (List.length found_medicines =? limit)%nat then Some (offset + limit)%nat else None).

(** ** Names from a barcode *)

(** The page of the lookup site as [parse_barcode_html] reads it: the rows of
    the table of class [randomBarcodes] ([None] when the page has no such
    table), each row as the stripped texts of its [td] cells. *)
Definition html := option (list (list str)).

Definition row_name (cols : list str) : list str :=
  if (3 <=? List.length cols)%nat then
    match cols !! 2%nat with
    | Some name => if truthy (VStr name) then [name] else []
    | None => []
    end
  else [].

(** [sorted(list(set(names)))]. *)
Definition sorted_set (names : list str) : list str :=
  merge_sort str_le (remove_dups names).

Definition parse_barcode_html (html_content : html) : list str :=
  match html_content with
  | None => []
  | Some rows =>
      if (List.length rows <=? 1)%nat then []
      else sorted_set (concat (List.map row_name (drop 1 rows)))
  end.

(** [min(best :: l, key=len)]: the first of the shortest elements. *)
Fixpoint min_by_len (best : str) (l : list str) : str :=
  match l with
  | [] => best
  | x :: l' =>
      if (List.length x <? List.length best)%nat then min_by_len x l' else min_by_len best l'
  end.

(** [min(parsed_names, key=len)]; [None] stands for the [ValueError] on an
    empty list. *)
Definition shortest_name (parsed_names : list str) : option str :=
  match parsed_names with
  | [] => None
  | x :: l => Some (min_by_len x l)
  end.

(** ** Keyboards *)

(** The buttons of the list keyboard. *)
Inductive button :=
| BtnView (med_name med_quantity med_exp_date : str) (item_id : str)
    (* "{name} ({quantity}) | Срок: {exp_date}", action view *)
| BtnEmptyPage                       (* "Список пуст на этой странице" *)
| BtnPrev (page : Z)                 (* "◀️ Пред.", action page *)
| BtnPageInfo (current_page total_pages : Z)
| BtnNext (page : Z)                 (* "След. ▶️", action page *)
| BtnAdd                             (* "➕ Добавить лекарство" *)
| BtnMainMenu.                       (* "🏠 Главное меню" *)

#[global] Instance button_eq_dec : EqDecision button.
Proof. solve_decision. Defined.

Definition MEDS_PER_PAGE : Z := 5.

(** [l[start:stop]] with Python's treatment of negative and out-of-range
    indices. *)
Definition slice_index (n i : Z) : Z :=
  if i <? 0 then Z.max 0 (i + n) else Z.min i n.

Definition py_slice {A} (l : list A) (start stop : Z) : list A :=
  let n := Z.of_nat (List.length l) in
  let a := slice_index n start in
  let b := slice_index n stop in
  take (Z.to_nat (b - a)) (drop (Z.to_nat a) l).

Definition med_button (med : medicine) : button :=
  BtnView (name med) (quantity med) (exp_date med) (str_of_id (_id med)).

(** [get_medicine_list_keyboard]: the rows of buttons. *)
Definition get_medicine_list_keyboard (medicines : list medicine) (current_page : Z)
    (page_size : Z) : list (list button) :=
  let total_items := Z.of_nat (List.length medicines) in
  let total_pages := (total_items + page_size - 1) / page_size in
  let start_index := (current_page - 1) * page_size in
  let end_index := start_index + page_size in
  let paginated_medicines := py_slice medicines start_index end_index in
  let buttons :=
    match paginated_medicines with
    | _ :: _ => List.map (fun med => [med_button med]) paginated_medicines
    | [] => [[BtnEmptyPage]]
    end in
  let page_buttons :=
    (if 1 <? current_page then [BtnPrev (current_page - 1)] else [])
    ++ (if 1 <? total_pages then [BtnPageInfo current_page total_pages] else [])
    ++ (if current_page <? total_pages then [BtnNext (current_page + 1)] else []) in
  buttons
  ++ (match page_buttons with _ :: _ => [page_buttons] | [] => [] end)
  ++ [[BtnAdd]] ++ [[BtnMainMenu]].

Inductive keyboard :=
| main_menu_keyboard
| cancel_keyboard
| medicine_list_keyboard (rows : list (list button))
| medicine_details_keyboard (med_id : value) (is_inline : bool)
| confirm_barcode_update_keyboard (med_name : str)
| calendar_keyboard (year month : Z)
| reply_keyboard_remove.

(** [CallbackData.pack()] of aiogram, which makes the callback data of a
    button: the prefix and the fields as text ([None] as the empty text),
    joined by ":".  [None] stands for the [ValueError] it raises when a field
    contains ":" or when the packed text takes more than 64 bytes of UTF-8
    (a lone surrogate cannot be encoded: [UnicodeEncodeError], which is a
    [ValueError]). *)
Definition utf8_size (c : N) : option nat :=
  if (c <? 128)%N then Some 1%nat
  else if (c <? 2048)%N then Some 2%nat
  else if ((55296 <=? c) && (c <=? 57343))%N then None
  else if (c <? 65536)%N then Some 3%nat
  else Some 4%nat.

Fixpoint utf8_length (s : str) : option nat :=
  match s with
  | [] => Some 0%nat
  | c :: s' =>
      match utf8_size c, utf8_length s' with
      | Some n, Some k => Some (n + k)%nat
      | _, _ => None
      end
  end.

Fixpoint join (sep : str) (parts : list str) : str :=
  match parts with
  | [] => []
  | [p] => p
  | p :: rest => p ++ sep ++ join sep rest
  end.

Definition MAX_CALLBACK_LENGTH : nat := 64.

Definition pack (prefix : str) (fields : list str) : option str :=
  if existsb (contains (u ":")) fields then None
  else
    let callback_data := join (u ":") (prefix :: fields) in
    match utf8_length callback_data with
    | Some n => if (MAX_CALLBACK_LENGTH <? n)%nat then None else Some callback_data
    | None => None
    end.

(** [get_confirm_barcode_update_keyboard(med_name)].  Its buttons carry
    [MedAction(action="confirm_barcode_update", item_name=med_name)] and
    [MedAction(action="add_different_barcode")], packed with the prefix
    "med" and the fields action, item_id, item_name, field, page, confirm. *)
Definition get_confirm_barcode_update_keyboard (med_name : str) : exn + keyboard :=
  match pack (u "med") [u "confirm_barcode_update"; []; med_name; []; []; []],
        pack (u "med") [u "add_different_barcode"; []; []; []; []; []] with
  | Some _, Some _ => inr (confirm_barcode_update_keyboard med_name)
  | _, _ => inl ValueError
  end.

(** ** The conversation: FSM storage, gateway calls, handlers *)

Inductive fsm_state :=
| waiting_for_name
| waiting_for_quantity
| waiting_for_notes
| waiting_for_exp_date          (* the four states of [AddMedicine] *)
| waiting_for_new_value.        (* the state of [EditMedicine] *)

#[global] Instance fsm_state_eq_dec : EqDecision fsm_state.
Proof. solve_decision. Defined.

(** The message a call of [safe_edit_message] addresses: an ordinary message
    by chat and message id, or an inline message by its token. *)
Inductive identity :=
| Ordinary (chat_id message_id : value)
| InlineToken (inline_message_id : value).

(** The reason a validation of the edit flow fails. *)
Inductive edit_error :=
| EmptyName | NameExists (new_value : str) | EmptyQuantity | EmptyNotes
| DateInPast | BadDateFormat.

(** The texts the bot sends, by template. *)
Inductive text :=
| TxtMainMenu                         (* "🏠 Домашняя аптечка ..." *)
| TxtWelcome                          (* text of /start *)
| TxtList (nonempty : bool)           (* "Ваши лекарства:" / "Список лекарств пуст." *)
| TxtListPage (page total_pages : Z)  (* "Ваши лекарства (Страница p/t):" *)
| TxtDetails (med : medicine)         (* "Препарат: ... Количество ... Срок годности ..." *)
| TxtInvalidId                        (* "... (неверный ID лекарства)." *)
| TxtMedNotFound                      (* "Не удалось найти информацию о лекарстве." *)
| TxtIncomplete                       (* "... не все данные собраны ..." *)
| TxtDuplicate (name : value)         (* "Ошибка: Препарат с названием ... уже существует ..." *)
| TxtSaveFailed                       (* "Произошла ошибка при сохранении данных ..." *)
| TxtUpdateNotFound                   (* "Лекарство для обновления не найдено." *)
| TxtDateInPast                       (* "Срок годности не может быть в прошлом ..." *)
| TxtBadDateFormat                    (* "Неверный формат даты. Используйте ГГГГ-ММ-ДД:" *)
| TxtEditStateError                   (* "Произошла ошибка состояния редактирования ..." *)
| TxtTryAgain (why : edit_error)      (* "{error_message}\nПопробуйте ввести значение еще раз ..." *)
| TxtNothingToCancel                  (* "Нет активного действия для отмены." *)
| TxtCancelled                        (* "Действие отменено." *)
| TxtDateError                        (* "Ошибка даты." *)
| TxtPast                             (* "Срок в прошлом." *)
| TxtDateChosen (d : date)            (* "Выбрана дата: ..." *)
| TxtAddStateError                    (* "Произошла ошибка состояния ... (/add)." *)
| TxtPhotoReceived                    (* "📸 Получил фото, распознаю штрихкод..." *)
| TxtDownloadFailed | TxtDecodeFailed
| TxtSearching (barcode : str) | TxtFetchFailed (barcode : str) | TxtNoNames (barcode : str)
| TxtAlreadyHave (shortest_name : str) (* "⚠️ Лекарство ... уже есть в вашей аптечке ..." *)
| TxtBarcodeName (shortest_name : str). (* "✅ Название по штрихкоду: ..." *)

(** Lines written to the log at level info and above by the embedded
    functions. *)
Inductive log_line :=
| LogNoMessageId            (* safe_edit_message called without an id *)
| LogViewNoMessageId        (* view_medicine_details called without an id *)
| LogIncompleteData | LogAdded | LogDuplicateKey | LogInsertFailed
| LogInvalidObjectId | LogNothingToUpdate | LogNotFoundForUpdate | LogUpdated
| LogMatchedNotModified | LogDetailsNotFound | LogEditStateMissing | LogCancelling
| LogNoMessageToEdit | LogMissingIdsForSave | LogMissingMedId | LogWrongFieldForCalendar
| LogUnexpectedState | LogPhotoStateMissing | LogShortest (shortest_name : str)
| LogOfferUpdate | LogAutoSelected.

(** The calls made on the messaging gateway (and the logger), in order. *)
Inductive call :=
| edit_message_text (target : identity) (t : text) (reply_markup : option keyboard)
| send_message (chat_id : value) (t : text) (reply_markup : option keyboard)
| message_reply (t : text)
| message_answer (t : text) (reply_markup : option keyboard)
| message_delete
| callback_answer (t : option text) (show_alert : bool)
| sleep (seconds : Z)
| logger (l : log_line).

(** What Telegram answers to [edit_message_text]. *)
Inductive edit_outcome :=
| Edited
| NotModified          (* "message is not modified" *)
| NotFoundOrInvalid    (* not found, cannot be edited, invalid id *)
| OtherBadRequest
| OtherFailure.

(** The surroundings of one handler run: the clock, the gateway's answers,
    and the writes of other handlers that the event loop runs while
    [_save_edited_medicine] is suspended between its [find_one] and its
    [update_one] (the identity when the handler runs alone). *)
Record env := Env {
  today : date;
  edit_reply : identity -> edit_outcome;
  send_reply : value -> option Z;     (* id of the message sent to a chat, if sent *)
  concurrent : collection -> collection
}.

(** What a handler reads and writes: the collection, the FSM storage of the
    conversation (state and data dictionary) and the calls made so far. *)
Record world := World {
  med_collection : collection;
  state : option fsm_state;
  data : gmap string value;
  calls : list call
}.

(** A handler computes in a state-and-exception monad over [world]. *)
Definition M (A : Type) : Type := world -> (exn + A) * world.

Definition ret {A} (a : A) : M A := fun w => (inr a, w).

Definition bind {A B} (m : M A) (k : A -> M B) : M B :=
  fun w => match m w with
           | (inr a, w') => k a w'
           | (inl e, w') => (inl e, w')
           end.

Definition raise {A} (e : exn) : M A := fun w => (inl e, w).

Definition try_except {A} (m : M A) (handler : exn -> M A) : M A :=
  fun w => match m w with
           | (inl e, w') => handler e w'
           | r => r
           end.

Notation "x <- m ;; k" := (bind m (fun x => k))
  (at level 100, m at next level, right associativity).
Notation "m ;; k" := (bind m (fun _ => k))
  (at level 100, right associativity).

Definition emit (c : call) : M unit :=
  fun w => (inr tt, World (med_collection w) (state w) (data w) (calls w ++ [c])).

(** [state.get_state()], [state.get_data()], [state.set_state(s)],
    [state.update_data(k=v, ...)] and [state.clear()]. *)
Definition get_state : M (option fsm_state) := fun w => (inr (state w), w).
Definition get_data : M (gmap string value) := fun w => (inr (data w), w).
Definition set_state (s : fsm_state) : M unit :=
  fun w => (inr tt, World (med_collection w) (Some s) (data w) (calls w)).
Definition update_data (kvs : list (string * value)) : M unit :=
  fun w => (inr tt, World (med_collection w) (state w)
                          (foldl (fun d kv => <[kv.1 := kv.2]> d) (data w) kvs) (calls w)).
Definition clear : M unit :=
  fun w => (inr tt, World (med_collection w) None ∅ (calls w)).

(** [d.get(k)]. *)
Definition get (d : gmap string value) (k : string) : value := default VNone (d !! k).

(** [a or b] on Python values. *)
Definition py_or (a b : value) : value := if truthy a then a else b.

(** Reads and writes of the collection. *)
Definition db_read {A} (q : collection -> A) : M A := fun w => (inr (q (med_collection w)), w).
Definition db_write (c : collection) : M unit :=
  fun w => (inr tt, World c (state w) (data w) (calls w)).

Definition db_insert_one (d : option med_doc) : M unit :=
  fun w =>
    match d with
    | None => (inl InvalidDocument, w)
    | Some d =>
        match insert_one d (med_collection w) with
        | inl e => (inl e, w)
        | inr c => (inr tt, World c (state w) (data w) (calls w))
        end
    end.

Definition db_update_one (f : medicine -> bool) (upd : gmap str value) : M update_result :=
  fun w =>
    match update_one f upd (med_collection w) with
    | inl e => (inl e, w)
    | inr (r, c) => (inr r, World c (state w) (data w) (calls w))
    end.

(** The document [med_doc] of [_save_new_medicine].  The FSM storage holds
    strings under these keys (each is stored from a stripped message text or
    an [isoformat()]); a value of another type has no document in this model
    and makes the insert fail. *)
Definition med_doc_of (name name_lower quantity notes exp_date : value) (user_id : Z)
  : option med_doc :=
  match name, name_lower, quantity, notes, exp_date with
  | VStr n, VStr nl, VStr q, VStr no, VStr e => Some (MedDoc n nl q no e user_id)
  | _, _, _, _, _ => None
  end.

(** The message [safe_edit_message] edits: the inline one when a token is
    given, the ordinary one otherwise. *)
Definition edit_target (chat_id message_id inline_message_id : value) : identity :=
  if truthy inline_message_id then InlineToken inline_message_id
  else Ordinary chat_id message_id.

Section handlers.

Variable E : env.

(** [safe_edit_message]: edits the inline message when a token is given, the
    ordinary message otherwise; an ordinary message that cannot be edited is
    replaced by a new one.  Returns whether a message now shows the text. *)
Definition safe_edit_message (t : text) (chat_id message_id inline_message_id : value)
    (reply_markup : option keyboard) : M bool :=
  if negb (truthy chat_id && truthy message_id) && negb (truthy inline_message_id) then
    emit (logger LogNoMessageId) ;; ret false
  else
    let target := edit_target chat_id message_id inline_message_id in
    emit (edit_message_text target t reply_markup) ;;
    match edit_reply E target with
    | Edited | NotModified => ret true
    | NotFoundOrInvalid =>
        if truthy chat_id then
          emit (send_message chat_id t reply_markup) ;;
          ret (bool_decide (is_Some (send_reply E chat_id)))
        else ret false
    | OtherBadRequest | OtherFailure => ret false
    end.

Definition show_main_menu_message (chat_id message_id inline_message_id : value) : M unit :=
  _ <- safe_edit_message TxtMainMenu chat_id message_id inline_message_id
         (Some main_menu_keyboard) ;;
  ret tt.

Definition _show_user_medicine_list (user_id : Z) (chat_id message_id : value) (page : Z)
  : M unit :=
  medicines <- db_read (_get_user_medicines user_id) ;;
  let kb := get_medicine_list_keyboard medicines page MEDS_PER_PAGE in
  let total_pages := (Z.of_nat (List.length medicines) + MEDS_PER_PAGE - 1) / MEDS_PER_PAGE in
  let t :=
    if 1 <? total_pages then TxtListPage page total_pages
    else TxtList (negb (bool_decide (medicines = []))) in
  _ <- safe_edit_message t chat_id message_id VNone (Some (medicine_list_keyboard kb)) ;;
  ret tt.

(** [start_handler], as [cancel_handler] calls it. *)
Definition start_handler : M unit :=
  emit (message_answer TxtWelcome (Some main_menu_keyboard)).

Definition view_medicine_details (med_id : value) (user_id : Z)
    (chat_id message_id inline_message_id : value) : M unit :=
  let is_inline := truthy inline_message_id in
  if negb (truthy chat_id && truthy message_id) && negb (truthy inline_message_id) then
    emit (logger LogViewNoMessageId)
  else
    match ObjectId_of med_id with
    | None =>
        emit (logger LogInvalidObjectId) ;;
        _ <- safe_edit_message TxtInvalidId chat_id message_id inline_message_id None ;;
        ret tt
    | Some object_id =>
        medicine <- db_read (find_one (by_id object_id user_id)) ;;
        match medicine with
        | None =>
            emit (logger LogDetailsNotFound) ;;
            if is_inline then
              _ <- safe_edit_message TxtMedNotFound VNone VNone inline_message_id
                     (Some main_menu_keyboard) ;;
              ret tt
            else if truthy chat_id && truthy message_id then
              _ <- safe_edit_message TxtMedNotFound chat_id message_id VNone None ;;
              emit (sleep 2) ;;
              _show_user_medicine_list user_id chat_id message_id 1
            else ret tt
        | Some medicine =>
            _ <- safe_edit_message (TxtDetails medicine) chat_id message_id inline_message_id
                   (Some (medicine_details_keyboard med_id is_inline)) ;;
            ret tt
        end
    end.

Definition _save_new_medicine (user_id : Z) (chat_id message_id : value) : M unit :=
  user_data <- get_data ;;
  let name := get user_data "name" in
  let name_lower := get user_data "name_lower" in
  let quantity := get user_data "quantity" in
  let notes := get user_data "notes" in
  let exp_date_iso := get user_data "exp_date" in
  if negb (forallb truthy [name; name_lower; quantity; notes; exp_date_iso]) then
    emit (logger LogIncompleteData) ;;
    clear ;;
    if truthy chat_id && truthy message_id then
      _ <- safe_edit_message TxtIncomplete chat_id message_id VNone (Some main_menu_keyboard) ;;
      ret tt
    else ret tt
  else
    let med_doc := med_doc_of name name_lower quantity notes exp_date_iso user_id in
    try_except
      (db_insert_one med_doc ;;
       emit (logger LogAdded) ;;
       clear ;;
       if truthy chat_id && truthy message_id then
         _show_user_medicine_list user_id chat_id message_id 1
       else ret tt)
      (fun e =>
         match e with
         | DuplicateKeyError =>
             emit (logger LogDuplicateKey) ;;
             clear ;;
             if truthy chat_id && truthy message_id then
               _ <- safe_edit_message (TxtDuplicate name) chat_id message_id VNone
                      (Some main_menu_keyboard) ;;
               ret tt
             else ret tt
         | _ =>
             emit (logger LogInsertFailed) ;;
             clear ;;
             if truthy chat_id && truthy message_id then
               _ <- safe_edit_message TxtSaveFailed chat_id message_id VNone
                      (Some main_menu_keyboard) ;;
               ret tt
             else ret tt
         end).

(** The two assignments to [update_data_dict] at the head of
    [_save_edited_medicine].  [None] stands for a dictionary with a key that
    is no string, which [update_one] refuses ([InvalidDocument]). *)
Definition completed_update (field_to_edit new_value : value) (update_data_dict : gmap str value)
  : option (gmap str value) :=
  match field_to_edit with
  | VStr f =>
      match new_value with
      | VDate d =>
          if bool_decide (f = u "exp_date") then Some (<[f := VStr (isoformat d)]> update_data_dict)
          else if bool_decide (update_data_dict !! f = None)
               then Some (<[f := new_value]> update_data_dict)
               else Some update_data_dict
      | VNone => Some update_data_dict
      | _ =>
          if bool_decide (update_data_dict !! f = None)
          then Some (<[f := new_value]> update_data_dict)
          else Some update_data_dict
      end
  | _ =>
      match new_value with
      | VNone => Some update_data_dict
      | _ => None
      end
  end.

Definition _save_edited_medicine (user_id : Z) (med_id field_to_edit new_value : value)
    (update_data_dict : gmap str value) (chat_id message_id inline_message_id : value)
  : M unit :=
  match ObjectId_of med_id with
  | None => emit (logger LogInvalidObjectId) ;; clear
  | Some object_id =>
      let find_query := by_id object_id user_id in
      current_med <- db_read (find_one find_query) ;;
      med_name_original <-
        match current_med with
        | None => raise AttributeError      (* [current_med.get] with [current_med] None *)
        | Some m => ret (name m)
        end ;;
      let update_data_dict := completed_update field_to_edit new_value update_data_dict in
      if bool_decide (update_data_dict = Some ∅) then
        emit (logger LogNothingToUpdate) ;;
        clear ;;
        view_medicine_details med_id user_id chat_id message_id inline_message_id
      else
        c <- db_read (concurrent E) ;;
        db_write c ;;
        result <-
          match update_data_dict with
          | None => raise InvalidDocument
          | Some update_data_dict => db_update_one find_query update_data_dict
          end ;;
        clear ;;
        if (matched_count result =? 0)%nat then
          emit (logger LogNotFoundForUpdate) ;;
          if truthy inline_message_id then
            _ <- safe_edit_message TxtUpdateNotFound VNone VNone inline_message_id None ;;
            emit (sleep 2) ;;
            show_main_menu_message VNone VNone inline_message_id
          else if truthy chat_id && truthy message_id then
            _ <- safe_edit_message TxtUpdateNotFound chat_id message_id VNone None ;;
            emit (sleep 2) ;;
            _show_user_medicine_list user_id chat_id message_id 1
          else ret tt
        else if negb (modified_count result =? 0)%nat then
          emit (logger LogUpdated) ;;
          view_medicine_details med_id user_id chat_id message_id inline_message_id
        else
          emit (logger LogMatchedNotModified) ;;
          view_medicine_details med_id user_id chat_id message_id inline_message_id
  end.

(** The validation of [process_new_value_text]: the dictionary for [$set]
    and the validated value, or the reason of the refusal. *)
Definition validate_new_value (field_to_edit med_id : value) (user_id : Z) (new_value_str : str)
  : M (edit_error + (gmap str value * value)) :=
  if bool_decide (field_to_edit = VStr (u "name")) then
    if negb (truthy (VStr new_value_str)) then ret (inl EmptyName)
    else
      let new_value_lower := lower new_value_str in
      match ObjectId_of med_id with
      | None => raise InvalidId
      | Some oid =>
          existing_med_user <-
            db_read (find_one (by_name_lower_ne_id new_value_lower user_id oid)) ;;
          match existing_med_user with
          | Some _ => ret (inl (NameExists new_value_str))
          | None =>
              ret (inr (<[u "name_lower" := VStr new_value_lower]>
                          (<[u "name" := VStr new_value_str]> ∅),
                        VStr new_value_str))
          end
      end
  else if bool_decide (field_to_edit = VStr (u "quantity")) then
    if negb (truthy (VStr new_value_str)) then ret (inl EmptyQuantity)
    else ret (inr (<[u "quantity" := VStr new_value_str]> ∅, VStr new_value_str))
  else if bool_decide (field_to_edit = VStr (u "notes")) then
    if negb (truthy (VStr new_value_str)) then ret (inl EmptyNotes)
    else ret (inr (<[u "notes" := VStr new_value_str]> ∅, VStr new_value_str))
  else if bool_decide (field_to_edit = VStr (u "exp_date")) then
    match strptime new_value_str with
    | None => ret (inl BadDateFormat)
    | Some dt =>
        if date_ltb dt (today E) then ret (inl DateInPast)
        else ret (inr (<[u "exp_date" := VStr (isoformat dt)]> ∅, VDate dt))
    end
  else ret (inr (∅, VNone)).

(** Handler of a text message in the state [waiting_for_new_value]. *)
Definition process_new_value_text (message_text : str) (user_id : Z) : M unit :=
  let new_value_str := strip message_text in
  state_data <- get_data ;;
  let med_id := get state_data "med_id" in
  let med_name_original := get state_data "med_name" in
  let field_to_edit := get state_data "field_to_edit" in
  let prompt_msg_id := get state_data "prompt_message_id" in
  let prompt_chat_id := get state_data "prompt_chat_id" in
  let calendar_msg_id := get state_data "calendar_message_id" in
  let inline_msg_id := get state_data "inline_message_id" in
  let message_id_to_restore := py_or calendar_msg_id prompt_msg_id in
  let chat_id_to_restore := prompt_chat_id in
  if negb (forallb truthy [med_id; med_name_original; field_to_edit])
     || negb (truthy chat_id_to_restore && truthy message_id_to_restore || truthy inline_msg_id)
  then
    emit (logger LogEditStateMissing) ;;
    clear ;;
    emit (message_reply TxtEditStateError) ;;
    if truthy inline_msg_id then show_main_menu_message VNone VNone inline_msg_id
    else if truthy chat_id_to_restore && truthy message_id_to_restore
         then show_main_menu_message chat_id_to_restore message_id_to_restore VNone
         else ret tt
  else
    validated <- validate_new_value field_to_edit med_id user_id new_value_str ;;
    match validated with
    | inl error_message => emit (message_reply (TxtTryAgain error_message))
    | inr (update_data, validated_value) =>
        emit message_delete ;;
        _save_edited_medicine user_id med_id field_to_edit validated_value update_data
          chat_id_to_restore message_id_to_restore inline_msg_id
    end.

(** Handler of a text message in the state [waiting_for_exp_date]. *)
Definition process_medicine_exp_date_text (message_text : str) (user_id : Z) : M unit :=
  let exp_date_str := strip message_text in
  state_data <- get_data ;;
  let calendar_msg_id := get state_data "calendar_message_id" in
  let prompt_chat_id := get state_data "prompt_chat_id" in
  match strptime exp_date_str with
  | None => emit (message_reply TxtBadDateFormat)
  | Some exp_date_obj =>
      if date_ltb exp_date_obj (today E) then emit (message_reply TxtDateInPast)
      else
        update_data [("exp_date", VStr (isoformat exp_date_obj))] ;;
        emit message_delete ;;
        _save_new_medicine user_id prompt_chat_id calendar_msg_id
  end.

(** Handler of the calendar's day buttons (any state).  [callback_message]
    is the chat and message id of the message that carries the button, if it
    is an ordinary one. *)
Definition handle_date_select (year month : Z) (day : option Z) (user_id : Z)
    (callback_message : option (Z * Z)) : M unit :=
  match day with
  | None => emit (callback_answer (Some TxtDateError) true)
  | Some day =>
      match mk_date year month day with
      | None => raise ValueError
      | Some selected_date =>
          if date_ltb selected_date (today E) then emit (callback_answer (Some TxtPast) true)
          else
            emit (callback_answer (Some (TxtDateChosen selected_date)) false) ;;
            update_data [("exp_date", VStr (isoformat selected_date))] ;;
            current_state_str <- get_state ;;
            state_data <- get_data ;;
            let prompt_chat_id := get state_data "prompt_chat_id" in
            let calendar_message_id := get state_data "calendar_message_id" in
            let inline_msg_id := get state_data "inline_message_id" in
            let chat_id_to_use := prompt_chat_id in
            let message_id_to_use :=
              match calendar_message_id with VInt _ => calendar_message_id | _ => VNone end in
            let inline_id_to_use := inline_msg_id in
            match current_state_str with
            | Some waiting_for_exp_date =>
                if truthy chat_id_to_use && truthy message_id_to_use then
                  _save_new_medicine user_id chat_id_to_use message_id_to_use
                else emit (logger LogMissingIdsForSave) ;; clear
            | Some waiting_for_new_value =>
                let med_id := get state_data "med_id" in
                let field_to_edit := get state_data "field_to_edit" in
                if negb (truthy med_id) then emit (logger LogMissingMedId) ;; clear
                else if bool_decide (field_to_edit = VStr (u "exp_date")) then
                  _save_edited_medicine user_id med_id field_to_edit (VDate selected_date)
                    (<[u "exp_date" := VStr (isoformat selected_date)]> ∅)
                    chat_id_to_use message_id_to_use inline_id_to_use
                else
                  emit (logger LogWrongFieldForCalendar) ;;
                  clear ;;
                  if truthy inline_id_to_use then show_main_menu_message VNone VNone inline_id_to_use
                  else if truthy chat_id_to_use && truthy message_id_to_use
                       then show_main_menu_message chat_id_to_use message_id_to_use VNone
                       else ret tt
            | _ =>
                emit (logger LogUnexpectedState) ;;
                clear ;;
                if truthy inline_id_to_use then show_main_menu_message VNone VNone inline_id_to_use
                else match callback_message with
                     | Some (chat, msg) => show_main_menu_message (VInt chat) (VInt msg) VNone
                     | None => ret tt
                     end
            end
      end
  end.

(** [cancel_handler]: the command /cancel, or a text whose case-folded form
    is the cancel keyword.  It is registered for every state, before the
    handlers of the flows, so these messages never reach them. *)
Definition cancel_handler : M unit :=
  current_state <- get_state ;;
  match current_state with
  | None => emit (message_answer TxtNothingToCancel (Some reply_keyboard_remove))
  | Some _ =>
      emit (logger LogCancelling) ;;
      user_data <- get_data ;;
      let message_id_to_edit :=
        py_or (get user_data "calendar_message_id") (get user_data "prompt_message_id") in
      let inline_message_id_to_edit := get user_data "inline_message_id" in
      let chat_id_to_edit := get user_data "prompt_chat_id" in
      clear ;;
      emit message_delete ;;
      if truthy inline_message_id_to_edit then
        show_main_menu_message VNone VNone inline_message_id_to_edit
      else if truthy chat_id_to_edit && truthy message_id_to_edit then
        show_main_menu_message chat_id_to_edit message_id_to_edit VNone
      else
        emit (message_answer TxtCancelled (Some reply_keyboard_remove)) ;;
        start_handler
  end.

(** [cancel_action_callback]: the cancel button. *)
Definition cancel_action_callback (callback_message : option (Z * Z))
    (callback_inline_message_id : option str) : M unit :=
  current_state <- get_state ;;
  match current_state with
  | None =>
      match callback_message, callback_inline_message_id with
      | Some (chat, msg), _ => show_main_menu_message (VInt chat) (VInt msg) VNone
      | None, Some token =>
          if truthy (VStr token) then show_main_menu_message VNone VNone (VStr token) else ret tt
      | None, None => ret tt
      end ;;
      emit (callback_answer None false)
  | Some _ =>
      emit (logger LogCancelling) ;;
      user_data <- get_data ;;
      let chat_id := get user_data "prompt_chat_id" in
      let message_id :=
        py_or (get user_data "calendar_message_id") (get user_data "prompt_message_id") in
      let inline_message_id := get user_data "inline_message_id" in
      clear ;;
      if truthy inline_message_id then
        show_main_menu_message VNone VNone inline_message_id ;;
        emit (callback_answer (Some TxtCancelled) false)
      else if truthy chat_id && truthy message_id then
        show_main_menu_message chat_id message_id VNone ;;
        emit (callback_answer (Some TxtCancelled) false)
      else
        emit (logger LogNoMessageToEdit) ;;
        emit (callback_answer (Some TxtCancelled) false)
  end.

(** [bot.send_message(chat_id, ...)] called by a handler itself: the new
    message, or the gateway's exception. *)
Definition bot_send_message (chat_id : value) (t : text) (reply_markup : option keyboard) : M Z :=
  emit (send_message chat_id t reply_markup) ;;
  match send_reply E chat_id with
  | Some message_id => ret message_id
  | None => raise TelegramError
  end.

(** Handler of a photo in the state [waiting_for_name].  The results of the
    lookup service are given: whether the photo could be downloaded, the
    decoded barcode and the fetched page. *)
Definition process_medicine_name_photo (user_id : Z) (photo_bytes_io : bool)
    (barcode : option str) (html_content : option html) : M unit :=
  state_data <- get_data ;;
  let prompt_msg_id := get state_data "prompt_message_id" in
  let prompt_chat_id := get state_data "prompt_chat_id" in
  if negb (truthy prompt_chat_id) || negb (truthy prompt_msg_id) then
    emit (logger LogPhotoStateMissing) ;;
    emit (message_reply TxtAddStateError) ;;
    clear
  else
    emit message_delete ;;
    _ <- safe_edit_message TxtPhotoReceived prompt_chat_id prompt_msg_id VNone
           (Some cancel_keyboard) ;;
    if negb photo_bytes_io then
      _ <- safe_edit_message TxtDownloadFailed prompt_chat_id prompt_msg_id VNone
             (Some cancel_keyboard) ;;
      ret tt
    else
      match barcode with
      | None =>
          _ <- safe_edit_message TxtDecodeFailed prompt_chat_id prompt_msg_id VNone
                 (Some cancel_keyboard) ;;
          ret tt
      | Some barcode =>
          if negb (truthy (VStr barcode)) then
            _ <- safe_edit_message TxtDecodeFailed prompt_chat_id prompt_msg_id VNone
                   (Some cancel_keyboard) ;;
            ret tt
          else
            _ <- safe_edit_message (TxtSearching barcode) prompt_chat_id prompt_msg_id VNone
                   (Some cancel_keyboard) ;;
            match html_content with
            | None =>
                _ <- safe_edit_message (TxtFetchFailed barcode) prompt_chat_id prompt_msg_id
                       VNone (Some cancel_keyboard) ;;
                ret tt
            | Some page =>
                let parsed_names := parse_barcode_html page in
                match shortest_name parsed_names with
                | None =>
                    _ <- safe_edit_message (TxtNoNames barcode) prompt_chat_id prompt_msg_id
                           VNone (Some cancel_keyboard) ;;
                    ret tt
                | Some shortest_name =>
                    emit (logger (LogShortest shortest_name)) ;;
                    let name_lower := lower shortest_name in
                    existing_med_user <- db_read (find_one (by_name_lower name_lower user_id)) ;;
                    match existing_med_user with
                    | Some _ =>
                        emit (logger LogOfferUpdate) ;;
                        match get_confirm_barcode_update_keyboard shortest_name with
                        | inl e => raise e
                        | inr reply_markup =>
                            _ <- safe_edit_message (TxtAlreadyHave shortest_name) prompt_chat_id
                                   prompt_msg_id VNone (Some reply_markup) ;;
                            update_data [("prompt_chat_id", prompt_chat_id);
                                         ("prompt_message_id", prompt_msg_id)]
                        end
                    | None =>
                        emit (logger LogAutoSelected) ;;
                        update_data [("name", VStr shortest_name);
                                     ("name_lower", VStr name_lower)] ;;
                        set_state waiting_for_quantity ;;
                        edit_successful <-
                          safe_edit_message (TxtBarcodeName shortest_name) prompt_chat_id
                            prompt_msg_id VNone (Some cancel_keyboard) ;;
                        if negb edit_successful then
                          new_msg <- bot_send_message prompt_chat_id (TxtBarcodeName shortest_name)
                                       (Some cancel_keyboard) ;;
                          update_data [("prompt_chat_id", prompt_chat_id);
                                       ("prompt_message_id", VInt new_msg)]
                        else
                          update_data [("prompt_chat_id", prompt_chat_id);
                                       ("prompt_message_id", prompt_msg_id)]
                    end
                end
            end
      end.

End handlers.

(** ** The daily reminder *)

(** The two queries of [daily_reminder] for one user; the dates are compared
    as the stored ISO strings. *)
Definition query_soon (today_iso upcoming_limit_iso : str) (user_id : Z) (m : medicine) : bool :=
  by_user user_id m && str_leb today_iso (exp_date m) && str_leb (exp_date m) upcoming_limit_iso.

Definition query_expired (today_iso : str) (user_id : Z) (m : medicine) : bool :=
  by_user user_id m && str_ltb (exp_date m) today_iso.

(** The sections of the digest of one user: the documents listed under
    "expiring soon" and under "expired", in the order of their lines. *)
Record digest := Digest {
  expiring_soon : list medicine;
  expired : list medicine
}.

Definition user_digest (today upcoming_limit : date) (user_id : Z) (c : collection) : digest :=
  Digest (find_sorted (query_soon (isoformat today) (isoformat upcoming_limit) user_id) exp_date c)
         (find_sorted (query_expired (isoformat today) user_id) exp_date c).

(** [daily_reminder]: the digests sent, one per user who has a non-empty
    section, in the order of [distinct("added_by")].  The collection is only
    read. *)
Definition daily_reminder (today : date) (c : collection) : exn + list (Z * digest) :=
  let days_threshold := 30%nat in
  match add_days days_threshold today with
  | None => inl OverflowError
  | Some upcoming_limit =>
      inr (List.filter
             (fun ud => negb (bool_decide (expiring_soon ud.2 = []))
                        || negb (bool_decide (expired ud.2 = [])))
             (List.map (fun user_id => (user_id, user_digest today upcoming_limit user_id c))
                       (distinct_added_by c)))
  end.

(** ** Notions used in the statements *)

(** The world after the calls [cs] have been made. *)
Definition add_calls (cs : list call) (w : world) : world :=
  World (med_collection w) (state w) (data w) (calls w ++ cs).

(** The text a call shows to the user, if any. *)
Definition call_text (c : call) : option text :=
  match c with
  | edit_message_text _ t _ | send_message _ t _ | message_reply t | message_answer t _ => Some t
  | callback_answer t _ => t
  | message_delete | sleep _ | logger _ => None
  end.

(** The call renders the detail view of a record. *)
Definition shows_details (c : call) : bool :=
  match call_text c with
  | Some (TxtDetails _) => true
  | _ => false
  end.

(** The text heads the user's list of medicines. *)
Definition is_list_text (t : text) : bool :=
  match t with
  | TxtList _ | TxtListPage _ _ => true
  | _ => false
  end.

(** The five values [_save_new_medicine] reads from the FSM data, and the
    document it builds from them. *)
Definition add_values (d : gmap string value) : list value :=
  [get d "name"; get d "name_lower"; get d "quantity"; get d "notes"; get d "exp_date"].

Definition add_doc (d : gmap string value) (user_id : Z) : option med_doc :=
  med_doc_of (get d "name") (get d "name_lower") (get d "quantity") (get d "notes")
             (get d "exp_date") user_id.

(** The writes the program makes on the collection. *)
Inductive write : collection -> collection -> Prop :=
| write_insert (d : med_doc) (c c' : collection) :
    insert_one d c = inr c' -> write c c'
| write_update (f : medicine -> bool) (upd : gmap str value) (r : update_result)
    (c c' : collection) :
    update_one f upd c = inr (r, c') -> write c c'
| write_delete (f : medicine -> bool) (c : collection) :
    write c (delete_one f c).2.

(** A collection that started empty with its indexes in place. *)
Definition reachable (c : collection) : Prop := rtc write [] c.

(** No two documents share an [_id], and none share the key of the unique
    index. *)
Definition unique_index (c : collection) : Prop :=
  NoDup (List.map _id c) /\ NoDup (List.map index_key c).

(** The message a conversation is bound to, as both cancel handlers read it
    from the FSM data: the inline message if there is one, else the calendar
    or prompt message of the chat. *)
Definition bound_identity (d : gmap string value) : option identity :=
  let message_id := py_or (get d "calendar_message_id") (get d "prompt_message_id") in
  if truthy (get d "inline_message_id") then Some (InlineToken (get d "inline_message_id"))
  else if truthy (get d "prompt_chat_id") && truthy message_id
       then Some (Ordinary (get d "prompt_chat_id") message_id)
       else None.

(** The kinds of buttons of the list keyboard. *)
Definition is_view (b : button) : bool :=
  match b with BtnView _ _ _ _ => true | _ => false end.

Definition is_prev (b : button) : bool :=
  match b with BtnPrev _ => true | _ => false end.

Definition is_next (b : button) : bool :=
  match b with BtnNext _ => true | _ => false end.

(** The buttons of the keyboard that show a record, in order. *)
Definition record_buttons (rows : list (list button)) : list button :=
  List.filter is_view (concat rows).

(** A number that orders valid dates as [date_compare] does. *)
Definition date_key (d : date) : Z := year d * 10000 + month d * 100 + day d.

(** A list of documents is in ascending order of expiry date, for the
    documents whose [exp_date] is the ISO string of a date. *)
Definition by_expiry (a b : medicine) : Prop :=
  forall da db, valid_date da = true -> valid_date db = true ->
                exp_date a = isoformat da -> exp_date b = isoformat db ->
                date_leb da db = true.

(** A string without characters of the dictionary [dic]. *)
Definition free_of (dic : gmap str str) (s : str) : bool :=
  forallb (fun c => negb (in_dict dic c)) s.

(** The fields the edit flow offers (the [field] of the edit buttons of
    [get_medicine_details_keyboard]). *)
Definition edit_fields : list value :=
  [VStr (u "name"); VStr (u "quantity"); VStr (u "notes"); VStr (u "exp_date")].

(** The value a document stores under a key of [$set]. *)
Definition stored_value (m : medicine) (k : str) : option value :=
  if bool_decide (k = u "name") then Some (VStr (name m))
  else if bool_decide (k = u "name_lower") then Some (VStr (name_lower m))
  else if bool_decide (k = u "quantity") then Some (VStr (quantity m))
  else if bool_decide (k = u "notes") then Some (VStr (notes m))
  else if bool_decide (k = u "exp_date") then Some (VStr (exp_date m))
  else None.

(** ** Sample data

    The inputs at which the properties are evaluated further down. *)

(** A handler run on 3 November 2026 in which every edit succeeds and no
    other handler interferes. *)
Definition E0 : env :=
  Env (Date 2026 11 3) (fun _ => Edited) (fun _ => Some 100) (fun c => c).

(** The same day, with another handler deleting the user's documents while
    [_save_edited_medicine] waits between its lookup and its update. *)
Definition E_deleted : env :=
  Env (Date 2026 11 3) (fun _ => Edited) (fun _ => Some 100) (fun _ => []).

(** A document of user 1 and the collection that holds it alone. *)
Definition aspirin_doc : med_doc :=
  MedDoc (u "Аспирин") (u "аспирин") (u "10 шт") (u "-") (u "2026-12-02") 1.

Definition aspirin : medicine := with_id 1 aspirin_doc.

(** An add flow of user 1 that has collected everything and waits for the
    expiry date, its prompt being message 20 of chat 10. *)
Definition add_data : gmap string value :=
  list_to_map [("prompt_chat_id", VInt 10); ("prompt_message_id", VInt 20);
               ("calendar_message_id", VInt 20);
               ("name", VStr (u "Аспирин")); ("name_lower", VStr (u "аспирин"));
               ("quantity", VStr (u "10 шт")); ("notes", VStr (u "-"))].

Definition w_add (c : collection) : world :=
  World c (Some waiting_for_exp_date) add_data [].

(** An edit flow of user 1 on the quantity of the document 1. *)
Definition edit_data : gmap string value :=
  list_to_map [("med_id", VStr (str_of_id 1)); ("med_name", VStr (u "Аспирин"));
               ("field_to_edit", VStr (u "quantity")); ("user_id", VInt 1);
               ("prompt_chat_id", VInt 10); ("prompt_message_id", VInt 20);
               ("calendar_message_id", VInt 20)].

Definition w_edit : world := World [aspirin] (Some waiting_for_new_value) edit_data [].

(** A page with three rows after the header; two names have seven letters. *)
Definition page0 : html :=
  Some [[u "Штрих-код"; u "Единица"; u "Наименование"];
        [u "4600000000001"; u "шт"; u "Нурофен"];
        [u "4600000000001"; u "шт"; u "Парацетамол"];
        [u "4600000000001"; u "шт"; u "Аспирин"];
        [u "4600000000001"; u "шт"; u "Нурофен"]].

(** A document of user 1 with the expiry date [iso]. *)
Definition expiring (i : N) (n iso : string) : medicine :=
  Medicine i (u n) (lower (u n)) (u "10 шт") (u "-") (u iso) 1.

(** Documents of user 1 dated, on 3 November 2026, today+31, yesterday,
    today+29 and today. *)
Definition sweep_collection : collection :=
  [expiring 1 "Аспирин" "2026-12-04"; expiring 2 "Нурофен" "2026-11-02";
   expiring 3 "Парацетамол" "2026-12-02"; expiring 4 "Цитрамон" "2026-11-03"].

(** Twelve documents of user 1, in ascending order of [name_lower]. *)
Definition record (i : N) (n : string) : medicine :=
  Medicine i (u n) (lower (u n)) (u "1") (u "-") (u "2027-01-01") 1.

Definition twelve : list medicine :=
  [record 1 "a"; record 2 "b"; record 3 "c"; record 4 "d"; record 5 "e"; record 6 "f";
   record 7 "g"; record 8 "h"; record 9 "i"; record 10 "j"; record 11 "k"; record 12 "l"].

(** The [$set] dictionary of an edit of the quantity. *)
Definition quantity_update (q : string) : gmap str value :=
  <[u "quantity" := VStr (u q)]> ∅.


(** A name of 49 bytes, the page of a barcode that has this name only, and
    an add flow that waits for the name, its prompt being message 20 of
    chat 10. *)
Definition long_name : str := u "Ацетилсалициловая кислота".

Definition page_long : html :=
  Some [[u "Штрих-код"; u "Единица"; u "Наименование"];
        [u "4600000000002"; u "шт"; long_name]].

Definition w_photo (c : collection) : world :=
  World c (Some waiting_for_name)
        (list_to_map [("prompt_chat_id", VInt 10); ("prompt_message_id", VInt 20)]) [].

(** ** The calendar keyboard *)

(** [datetime.date.toordinal] and [weekday] (Monday is 0), as CPython
    computes them. *)
Definition days_before_year (y : Z) : Z :=
  let y1 := y - 1 in y1 * 365 + y1 / 4 - y1 / 100 + y1 / 400.

Definition days_before_month (y m : Z) : Z :=
  foldr Z.add 0 (List.map (fun k => days_in_month y (Z.of_nat k)) (seq 1 (Z.to_nat (m - 1)))).

Definition toordinal (d : date) : Z :=
  days_before_year (year d) + days_before_month (year d) (month d) + day d.

Definition date_weekday (d : date) : Z := (toordinal d + 6) mod 7.

(** [calendar.weekday(year, month, day)]. *)
Definition weekday (year month day : Z) : Z :=
  let year := if (1 <=? year) && (year <=? 9999) then year else 2000 + year mod 400 in
  date_weekday (Date year month day).

(** [calendar.monthrange(year, month)]; [None] stands for
    [IllegalMonthError]. *)
Definition monthrange (year month : Z) : option (Z * Z) :=
  if (1 <=? month) && (month <=? 12)
  then Some (weekday year month 1, days_in_month year month)
  else None.

(** [Calendar(firstweekday=0).itermonthdays(year, month)]: zeros for the
    days of the first and the last week that belong to other months. *)
Definition itermonthdays (year month : Z) : option (list Z) :=
  '(day1, ndays) ← monthrange year month;
  let days_before := (day1 - 0) mod 7 in
  let days_after := (0 - day1 - ndays) mod 7 in
  Some (replicate (Z.to_nat days_before) 0
        ++ List.map Z.of_nat (seq 1 (Z.to_nat ndays))
        ++ replicate (Z.to_nat days_after) 0).

(** [calendar.monthcalendar(year, month)]: the days in rows of seven. *)
Definition monthcalendar (year month : Z) : option (list (list Z)) :=
  days ← itermonthdays year month;
  Some (List.map (fun i => take 7 (drop (7 * i) days))
                 (seq 0 ((List.length days + 6) / 7))).

(** The buttons of the calendar, by callback data. *)
Inductive nav_action := prev_year | prev_month | next_month | next_year.

Inductive cal_button :=
| CalNav (action : nav_action) (year month : Z)  (* "<<", "<", ">", ">>" *)
| CalTitle (year month : Z)                      (* month name and year, action ignore *)
| CalWeekday (i : nat) (year month : Z)          (* "Пн" ... "Вс", action ignore *)
| CalBlank (year month : Z)                      (* " ", action ignore *)
| CalDay (year month day : Z)                    (* the day number, action select_day *)
| CalCancel.                                     (* "❌ Отмена ввода даты", cancel_action *)

#[global] Instance nav_action_eq_dec : EqDecision nav_action.
Proof. solve_decision. Defined.
#[global] Instance cal_button_eq_dec : EqDecision cal_button.
Proof. solve_decision. Defined.

Inductive calendar_error :=
| IndexError           (* [calendar.month_name[month]] out of range *)
| IllegalMonthError.   (* [calendar.monthcalendar] of a month outside 1..12 *)

(** [create_calendar(year, month)]: the rows of the keyboard.  [now] is
    [datetime.datetime.now()], used for an argument that is [None]. *)
Definition create_calendar (now : date) (year month : option Z)
  : calendar_error + list (list cal_button) :=
  let '(Date now_year now_month _) := now in
  let year := default now_year year in
  let month := default now_month month in
  if negb ((-13 <=? month) && (month <=? 12)) then inl IndexError
  else
    let header := [CalNav prev_year year month; CalNav prev_month year month;
                   CalTitle year month;
                   CalNav next_month year month; CalNav next_year year month] in
    let weekdays := List.map (fun i => CalWeekday i year month) (seq 0 7) in
    match monthcalendar year month with
    | None => inl IllegalMonthError
    | Some month_calendar =>
        let weeks :=
          List.map (fun week =>
                      List.map (fun day => if day =? 0 then CalBlank year month
                                           else CalDay year month day) week)
                   month_calendar in
        inr ([header] ++ [weekdays] ++ weeks ++ [[CalCancel]])
    end.

(** The day buttons of a keyboard. *)
Definition is_day (b : cal_button) : bool :=
  match b with CalDay _ _ _ => true | _ => false end.

(** ** The other handlers of the add, edit and delete flows

    These handlers show texts of their own.  They run in the same monad
    with a longer list of calls: the calls of the functions embedded
    above, and calls that carry the texts below. *)

(** The texts these handlers send, by template. *)
Inductive text_x :=
| TxtAddPromptCommand       (* "➕ Добавление нового препарата. ... Введите *точное название* ..." *)
| TxtAddOnlyInChat          (* "Добавить лекарство можно только в личной переписке с ботом." *)
| TxtAddStarting            (* "Начинаем добавление..." *)
| TxtAddPromptButton        (* "➕ Добавление нового препарата. ... Введите *название* ..." *)
| TxtAddStateErrorRetry     (* "Произошла ошибка состояния. ... попробуйте добавить заново /add" *)
| TxtNameEmpty              (* "Название не может быть пустым. ..." *)
| TxtNameTaken (existing_name : str)  (* "⚠️ Препарат '...' уже есть в вашей аптечке. ..." *)
| TxtNameAccepted           (* "Название принято. Укажите количество (например, ...):" *)
| TxtNameAcceptedShort      (* "Название принято. Укажите количество:" *)
| TxtQuantityEmpty          (* "Количество не может быть пустым. Укажите количество:" *)
| TxtQuantityAccepted       (* "Количество принято. Добавьте примечания (дозировка, ...):" *)
| TxtQuantityAcceptedShort  (* "Количество принято. Добавьте примечания:" *)
| TxtNotesEmpty             (* "Заметки не могут быть пустыми. ..." *)
| TxtNotesAccepted          (* "Примечания добавлены. Укажите срок годности (ГГГГ-ММ-ДД) или выберите дату:" *)
| TxtNotesAcceptedShort     (* "Примечания добавлены. Укажите срок годности:" *)
| TxtNoMedId                (* "Ошибка: Не указан ID лекарства." *)
| TxtDeleteRequestError     (* "Ошибка запроса удаления." *)
| TxtDeleteNotFound         (* "Не удалось найти лекарство для удаления." *)
| TxtConfirmDelete (med_name : str)   (* "🗑️ Вы уверены, что хотите удалить препарат *...*?" *)
| TxtDeleteConfirmError     (* "Ошибка подтверждения удаления." *)
| TxtDeleted                (* "Препарат удален." *)
| TxtTrash                  (* "🗑️" *)
| TxtDeleteFailed           (* "Не удалось удалить. Препарат не найден." *)
| TxtDataError              (* "Ошибка данных!" *)
| TxtRequestError           (* "Ошибка запроса!" *)
| TxtEditNotFound           (* "Не удалось найти лекарство!" *)
| TxtEditPrompt (med_name field : str)  (* "✏️ Редактирование '...'. Введите новое значение для поля '...':" *)
| TxtEditDatePrompt (med_name : str)    (* "✏️ Редактирование '...'. Укажите новый срок годности ..." *)
| TxtEnterNewValue          (* "Введите новое значение..." *)
| TxtEditStartFailed        (* "Не удалось начать редактирование." *)
| TxtOnlyNearYears          (* "Доступны только ближайшие годы." *)
| TxtCalendarShowError      (* "Ошибка отображения календаря." *)
| TxtOfMessage              (* the text the message of the callback shows *)
| TxtChooseDate             (* "Выберите дату:" *)
| TxtCalendarMonth (month year : Z)     (* "Календарь: {month name} {year}" *)
| TxtCalendarUpdateError.   (* "Ошибка обновления календаря." *)

Inductive keyboard_x :=
| keyboard_of (k : keyboard)                      (* a keyboard of the functions above *)
| confirm_delete_keyboard (med_id : str)
| calendar_markup (rows : list (list cal_button)).

(** Lines these handlers write to the log at level info and above. *)
Inductive log_x :=
| LogNameStateMissing | LogDuplicateName | LogQuantityPromptFailed
| LogNotesPromptFailed | LogQuantityStateMissing | LogNotesStateMissing
| LogDeleteRequestNoId | LogDeleteNameFailed | LogConfirmDeleteNoId
| LogNameBeforeDeleteFailed | LogDeleted | LogInlineTrash | LogDeletedNoMessage
| LogNotFoundForDelete
| LogEditMissingData | LogEditNoId | LogEditNameFailed | LogEditCalendarFailed
| LogEditPromptFailed
| LogCalendarNoId | LogCalendarUpdateFailed.

Inductive call_x :=
| earlier (c : call)                              (* a call of the functions above *)
| edit_message_text_x (target : identity) (t : text_x) (reply_markup : option keyboard_x)
| send_message_x (chat_id : value) (t : text_x) (reply_markup : option keyboard_x)
| message_reply_x (t : text_x)
| message_answer_x (t : text_x) (reply_markup : option keyboard_x)
| callback_answer_x (t : text_x) (show_alert : bool)
| logger_x (l : log_x).

Inductive exn_x :=
| raised (e : exn)                                (* an exception of the functions above *)
| calendar_raised (e : calendar_error).

Record world_x := WorldX {
  med_collection_x : collection;
  state_x : option fsm_state;
  data_x : gmap string value;
  calls_x : list call_x
}.

Definition MX (A : Type) : Type := world_x -> (exn_x + A) * world_x.

Definition ret_x {A} (a : A) : MX A := fun w => (inr a, w).

Definition bind_x {A B} (m : MX A) (k : A -> MX B) : MX B :=
  fun w => match m w with
           | (inr a, w') => k a w'
           | (inl e, w') => (inl e, w')
           end.

Definition raise_x {A} (e : exn_x) : MX A := fun w => (inl e, w).

Declare Scope mx_scope.
Delimit Scope mx_scope with mx.
Bind Scope mx_scope with MX.
Notation "x <- m ;; k" := (bind_x m (fun x => k))
  (at level 100, m at next level, right associativity) : mx_scope.
Notation "m ;; k" := (bind_x m (fun _ => k))
  (at level 100, right associativity) : mx_scope.

Definition emit_x (c : call_x) : MX unit :=
  fun w => (inr tt, WorldX (med_collection_x w) (state_x w) (data_x w) (calls_x w ++ [c])).

(** A computation of the functions above, run on the same collection and
    FSM storage; its calls and its exception are passed on. *)
Definition lift {A} (m : M A) : MX A :=
  fun w =>
    let '(r, w') := m (World (med_collection_x w) (state_x w) (data_x w) []) in
    (match r with inl e => inl (raised e) | inr a => inr a end,
     WorldX (med_collection w') (state w') (data w')
            (calls_x w ++ List.map earlier (calls w'))).

(** [delete_one] on the collection of the world. *)
Definition db_delete_one (f : medicine -> bool) : M nat :=
  fun w =>
    let '(deleted_count, c) := delete_one f (med_collection w) in
    (inr deleted_count, World c (state w) (data w) (calls w)).


(** The ids of the message a callback query comes from. *)
Definition callback_chat_id (callback_message : option (Z * Z)) : value :=
  match callback_message with Some (chat, _) => VInt chat | None => VNone end.

Definition callback_message_id (callback_message : option (Z * Z)) : value :=
  match callback_message with Some (_, msg) => VInt msg | None => VNone end.

Definition str_value (s : option str) : value :=
  match s with Some s => VStr s | None => VNone end.

Section handlers_x.

Variable E : env.

Local Open Scope mx_scope.

(** [safe_edit_message] called with one of the texts above. *)
Definition safe_edit_message_x (t : text_x) (chat_id message_id inline_message_id : value)
    (reply_markup : option keyboard_x) : MX bool :=
  if negb (truthy chat_id && truthy message_id) && negb (truthy inline_message_id) then
    lift (emit (logger LogNoMessageId)) ;; ret_x false
  else
    let target := edit_target chat_id message_id inline_message_id in
    emit_x (edit_message_text_x target t reply_markup) ;;
    match edit_reply E target with
    | Edited | NotModified => ret_x true
    | NotFoundOrInvalid =>
        if truthy chat_id then
          emit_x (send_message_x chat_id t reply_markup) ;;
          ret_x (bool_decide (is_Some (send_reply E chat_id)))
        else ret_x false
    | OtherBadRequest | OtherFailure => ret_x false
    end.

(** [bot.send_message(chat_id, ...)] and [message.answer(...)] called by a
    handler that uses the message sent: its id, or the gateway's
    exception. *)
Definition bot_send_message_x (chat_id : value) (t : text_x)
    (reply_markup : option keyboard_x) : MX Z :=
  emit_x (send_message_x chat_id t reply_markup) ;;
  match send_reply E chat_id with
  | Some message_id => ret_x message_id
  | None => raise_x (raised TelegramError)
  end.

Definition message_answer_sent (message_chat_id : Z) (t : text_x)
    (reply_markup : option keyboard_x) : MX Z :=
  emit_x (message_answer_x t reply_markup) ;;
  match send_reply E (VInt message_chat_id) with
  | Some message_id => ret_x message_id
  | None => raise_x (raised TelegramError)
  end.

(** *** The add flow up to the expiry date *)

Definition add_medicine_command (message_chat_id : Z) : MX unit :=
  sent_message <- message_answer_sent message_chat_id TxtAddPromptCommand
                    (Some (keyboard_of cancel_keyboard)) ;;
  lift (set_state waiting_for_name) ;;
  lift (update_data [("prompt_chat_id", VInt message_chat_id);
                     ("prompt_message_id", VInt sent_message)]).

Definition add_medicine_callback_start (callback_message : option (Z * Z)) : MX unit :=
  match callback_message with
  | None => emit_x (callback_answer_x TxtAddOnlyInChat true)
  | Some (chat_id, message_id) =>
      emit_x (callback_answer_x TxtAddStarting false) ;;
      _ <- safe_edit_message_x TxtAddPromptButton (VInt chat_id) (VInt message_id) VNone
             (Some (keyboard_of cancel_keyboard)) ;;
      lift (set_state waiting_for_name) ;;
      lift (update_data [("prompt_chat_id", VInt chat_id);
                         ("prompt_message_id", VInt message_id)])
  end.

(** Handler of a text message in the state [waiting_for_name]. *)
Definition process_medicine_name_text (message_text : str) (user_id : Z) : MX unit :=
  let name := strip message_text in
  state_data <- lift get_data ;;
  let prompt_msg_id := get state_data "prompt_message_id" in
  let prompt_chat_id := get state_data "prompt_chat_id" in
  if negb (truthy prompt_chat_id) || negb (truthy prompt_msg_id) then
    emit_x (logger_x LogNameStateMissing) ;;
    emit_x (message_reply_x TxtAddStateErrorRetry) ;;
    lift clear
  else if negb (truthy (VStr name)) then
    _ <- safe_edit_message_x TxtNameEmpty prompt_chat_id prompt_msg_id VNone
           (Some (keyboard_of cancel_keyboard)) ;;
    lift (emit message_delete)
  else
    let name_lower := lower name in
    existing_med_user <- lift (db_read (find_one (by_name_lower name_lower user_id))) ;;
    match existing_med_user with
    | Some (Medicine _ existing_name _ _ _ _ _) =>
        emit_x (logger_x LogDuplicateName) ;;
        _ <- safe_edit_message_x (TxtNameTaken existing_name) prompt_chat_id prompt_msg_id
               VNone (Some (keyboard_of cancel_keyboard)) ;;
        lift (emit message_delete)
    | None =>
        lift (update_data [("name", VStr name); ("name_lower", VStr name_lower)]) ;;
        lift (set_state waiting_for_quantity) ;;
        lift (emit message_delete) ;;
        edit_successful <- safe_edit_message_x TxtNameAccepted prompt_chat_id prompt_msg_id
                             VNone (Some (keyboard_of cancel_keyboard)) ;;
        if negb edit_successful then
          emit_x (logger_x LogQuantityPromptFailed) ;;
          new_msg <- bot_send_message_x prompt_chat_id TxtNameAcceptedShort
                       (Some (keyboard_of cancel_keyboard)) ;;
          lift (update_data [("prompt_message_id", VInt new_msg)])
        else ret_x tt
    end.

(** Handler of a text message in the state [waiting_for_quantity]. *)
Definition process_medicine_quantity (message_text : str) (message_chat_id : Z) : MX unit :=
  let quantity_str := strip message_text in
  state_data <- lift get_data ;;
  let prompt_msg_id := get state_data "prompt_message_id" in
  let prompt_chat_id := get state_data "prompt_chat_id" in
  if negb (truthy (VStr quantity_str)) then emit_x (message_reply_x TxtQuantityEmpty)
  else
    lift (update_data [("quantity", VStr quantity_str)]) ;;
    lift (set_state waiting_for_notes) ;;
    lift (emit message_delete) ;;
    if truthy prompt_chat_id && truthy prompt_msg_id then
      edit_successful <- safe_edit_message_x TxtQuantityAccepted prompt_chat_id prompt_msg_id
                           VNone (Some (keyboard_of cancel_keyboard)) ;;
      if negb edit_successful then
        emit_x (logger_x LogNotesPromptFailed) ;;
        new_msg <- bot_send_message_x prompt_chat_id TxtQuantityAcceptedShort
                     (Some (keyboard_of cancel_keyboard)) ;;
        lift (update_data [("prompt_chat_id", prompt_chat_id);
                           ("prompt_message_id", VInt new_msg)])
      else ret_x tt
    else
      emit_x (logger_x LogQuantityStateMissing) ;;
      new_msg <- bot_send_message_x (VInt message_chat_id) TxtQuantityAcceptedShort
                   (Some (keyboard_of cancel_keyboard)) ;;
      lift (update_data [("prompt_chat_id", VInt message_chat_id);
                         ("prompt_message_id", VInt new_msg)]).

(** [create_calendar(today.year, today.month)] as a handler awaits it. *)
Definition create_calendar_x (year month : Z) : MX (list (list cal_button)) :=
  match create_calendar (today E) (Some year) (Some month) with
  | inl e => raise_x (calendar_raised e)
  | inr rows => ret_x rows
  end.

(** Handler of a text message in the state [waiting_for_notes]. *)
Definition process_medicine_notes (message_text : str) (message_chat_id : Z) : MX unit :=
  let notes := strip message_text in
  state_data <- lift get_data ;;
  let prompt_msg_id := get state_data "prompt_message_id" in
  let prompt_chat_id := get state_data "prompt_chat_id" in
  if negb (truthy (VStr notes)) then emit_x (message_reply_x TxtNotesEmpty)
  else
    lift (update_data [("notes", VStr notes)]) ;;
    lift (set_state waiting_for_exp_date) ;;
    lift (emit message_delete) ;;
    let '(Date today_year today_month _) := today E in
    calendar_rows <- create_calendar_x today_year today_month ;;
    let calendar_markup := Some (calendar_markup calendar_rows) in
    if truthy prompt_chat_id && truthy prompt_msg_id then
      edit_successful <- safe_edit_message_x TxtNotesAccepted prompt_chat_id prompt_msg_id
                           VNone calendar_markup ;;
      if edit_successful then
        lift (update_data [("calendar_message_id", prompt_msg_id);
                           ("calendar_year", VInt today_year);
                           ("calendar_month", VInt today_month)])
      else
        new_cal_msg <- bot_send_message_x prompt_chat_id TxtNotesAcceptedShort
                         calendar_markup ;;
        lift (update_data [("prompt_chat_id", prompt_chat_id);
                           ("prompt_message_id", VInt new_cal_msg);
                           ("calendar_message_id", VInt new_cal_msg);
                           ("calendar_year", VInt today_year);
                           ("calendar_month", VInt today_month)])
    else
      emit_x (logger_x LogNotesStateMissing) ;;
      new_cal_msg <- bot_send_message_x (VInt message_chat_id) TxtNotesAcceptedShort
                       calendar_markup ;;
      lift (update_data [("prompt_chat_id", VInt message_chat_id);
                         ("prompt_message_id", VInt new_cal_msg);
                         ("calendar_message_id", VInt new_cal_msg);
                         ("calendar_year", VInt today_year);
                         ("calendar_month", VInt today_month)]).

(** *** The delete flow *)


Definition delete_medicine_confirm (item_id : option str) (user_id : Z)
    (callback_message : option (Z * Z)) (callback_inline_message_id : option str)
  : MX unit :=
  let med_id := str_value item_id in
  let chat_id := callback_chat_id callback_message in
  let message_id := callback_message_id callback_message in
  let inline_message_id := str_value callback_inline_message_id in
  if negb (truthy med_id) then emit_x (callback_answer_x TxtNoMedId true)
  else if negb ((truthy chat_id && truthy message_id) || truthy inline_message_id) then
    emit_x (logger_x LogConfirmDeleteNoId) ;;
    emit_x (callback_answer_x TxtDeleteConfirmError true)
  else
    (* the lookup of the name: what is left of it is [object_id] *)
    object_id <-
      match ObjectId_of med_id with
      | None => emit_x (logger_x LogNameBeforeDeleteFailed) ;; ret_x None
      | Some object_id =>
          med_to_delete <- lift (db_read (find_one (by_id object_id user_id))) ;;
          match med_to_delete with
          | None => emit_x (logger_x LogNameBeforeDeleteFailed) ;; ret_x None
          | Some _ => ret_x (Some object_id)
          end
      end ;;
    deleted_count <-
      match object_id with
      | Some object_id => lift (db_delete_one (by_id object_id user_id))
      | None => ret_x 0%nat
      end ;;
    if negb (deleted_count =? 0)%nat then
      emit_x (logger_x LogDeleted) ;;
      emit_x (callback_answer_x TxtDeleted false) ;;
      if truthy inline_message_id then
        emit_x (logger_x LogInlineTrash) ;;
        _ <- safe_edit_message_x TxtTrash VNone VNone inline_message_id None ;;
        ret_x tt
      else if truthy chat_id && truthy message_id then
        lift (_show_user_medicine_list E user_id chat_id message_id 1)
      else emit_x (logger_x LogDeletedNoMessage)
    else
      emit_x (logger_x LogNotFoundForDelete) ;;
      emit_x (callback_answer_x TxtDeleteFailed true) ;;
      if truthy inline_message_id then
        lift (view_medicine_details E med_id user_id VNone VNone inline_message_id)
      else if truthy chat_id && truthy message_id then
        lift (_show_user_medicine_list E user_id chat_id message_id 1)
      else ret_x tt.

(** *** The start of an edit *)

Definition field_rus (field : str) : str :=
  if bool_decide (field = u "name") then u "название"
  else if bool_decide (field = u "quantity") then u "количество"
  else if bool_decide (field = u "notes") then u "примечания"
  else if bool_decide (field = u "exp_date") then u "срок годности"
  else field.

Definition edit_medicine_field_start (item_id field : option str) (user_id : Z)
    (callback_message : option (Z * Z)) (callback_inline_message_id : option str)
  : MX unit :=
  let med_id := str_value item_id in
  let chat_id := callback_chat_id callback_message in
  let message_id := callback_message_id callback_message in
  let inline_message_id := str_value callback_inline_message_id in
  if negb (truthy med_id) || negb (truthy (str_value field)) then
    emit_x (logger_x LogEditMissingData) ;;
    emit_x (callback_answer_x TxtDataError true)
  else if negb ((truthy chat_id && truthy message_id) || truthy inline_message_id) then
    emit_x (logger_x LogEditNoId) ;;
    emit_x (callback_answer_x TxtRequestError true)
  else
    let not_found :=
      emit_x (logger_x LogEditNameFailed) ;;
      emit_x (callback_answer_x TxtEditNotFound true) in
    match ObjectId_of med_id with
    | None => not_found
    | Some object_id =>
        medicine <- lift (db_read (find_one (by_id object_id user_id))) ;;
        match medicine with
        | None => not_found
        | Some (Medicine _ med_name _ _ _ _ _) =>
            let field := default [] field in
            let state_update_data :=
              [("med_id", med_id); ("med_name", VStr med_name);
               ("field_to_edit", VStr field); ("user_id", VInt user_id);
               ("prompt_chat_id", chat_id); ("prompt_message_id", message_id);
               ("inline_message_id", inline_message_id);
               ("calendar_message_id",
                if truthy message_id then message_id else inline_message_id)] in
            let '(Date today_year today_month _) := today E in
            calendar_rows <-
              (if bool_decide (field = u "exp_date") then
                 match create_calendar (today E) (Some today_year) (Some today_month) with
                 | inr rows => ret_x (Some rows)
                 | inl _ => emit_x (logger_x LogEditCalendarFailed) ;; ret_x None
                 end
               else ret_x None) ;;
            let prompt_text :=
              if bool_decide (field = u "exp_date") then TxtEditDatePrompt med_name
              else TxtEditPrompt med_name (field_rus field) in
            let reply_markup :=
              match calendar_rows with
              | Some rows => calendar_markup rows
              | None => keyboard_of cancel_keyboard
              end in
            let state_update_data :=
              match calendar_rows with
              | Some _ => state_update_data ++ [("calendar_year", VInt today_year);
                                                ("calendar_month", VInt today_month)]
              | None => state_update_data
              end in
            edit_success <- safe_edit_message_x prompt_text chat_id message_id
                              inline_message_id (Some reply_markup) ;;
            if edit_success then
              lift (set_state waiting_for_new_value) ;;
              lift (update_data state_update_data) ;;
              emit_x (callback_answer_x TxtEnterNewValue false)
            else
              emit_x (logger_x LogEditPromptFailed) ;;
              emit_x (callback_answer_x TxtEditStartFailed true)
        end
    end.

(** *** Turning the calendar *)


End handlers_x.

(** ** Notions used in the statements about these handlers *)

(** The world after the calls [cs] have been made. *)
Definition add_calls_x (cs : list call_x) (w : world_x) : world_x :=
  WorldX (med_collection_x w) (state_x w) (data_x w) (calls_x w ++ cs).

(** The world a handler run leaves, whether it returns or raises. *)
Definition after {A} (m : MX A) (w : world_x) : world_x := (m w).2.

(** The world of the functions above that has the same collection and FSM
    storage, and no call made yet. *)
Definition world_of (w : world_x) : world :=
  World (med_collection_x w) (state_x w) (data_x w) [].

(** The text of this part a call shows to the user, if any. *)
Definition call_text_x (c : call_x) : option text_x :=
  match c with
  | edit_message_text_x _ t _ | send_message_x _ t _ | message_reply_x t
  | message_answer_x t _ | callback_answer_x t _ => Some t
  | earlier _ | logger_x _ => None
  end.


(** A document with its quantity or its notes replaced. *)
Definition with_field (field new_value : str) (m : medicine) : medicine :=
  if bool_decide (field = u "quantity")
  then Medicine (_id m) (name m) (name_lower m) new_value (notes m) (exp_date m) (added_by m)
  else if bool_decide (field = u "notes")
  then Medicine (_id m) (name m) (name_lower m) (quantity m) new_value (exp_date m) (added_by m)
  else m.

(** A conversation that has not begun. *)
Definition w_start (c : collection) : world_x := WorldX c None ∅ [].


(** * Properties *)

Example u_aspirin : u "Аспирин" = [1040; 1089; 1087; 1080; 1088; 1080; 1085]%N.
Proof. reflexivity. Qed.

Example lower_aspirin : lower (u "Аспирин Forte") = u "аспирин forte".
Proof. reflexivity. Qed.

Example strip_example : strip (u "  10 шт ") = u "10 шт".
Proof. reflexivity. Qed.

Example replace_example : replace (u "sh") (u "ш") (u "shshoshs") = u "шшoшs".
Proof. vm_compute. reflexivity. Qed.

Example ObjectId_str_of_id : ObjectId (str_of_id 7) = Some 7%N.
Proof. reflexivity. Qed.

Example transliterate_asp : transliterate (u "asp") = u "асп".
Proof. vm_compute. reflexivity. Qed.

Example transliterate_shch : transliterate (u "щука") = u "shchuka".
Proof. vm_compute. reflexivity. Qed.

Example transliterate_borshch : transliterate (u "borshch") = u "борщ".
Proof. vm_compute. reflexivity. Qed.

(** ** Order on strings *)

Lemma str_compare_refl (a : str) : str_compare a a = Eq.
Proof.
  induction a as [|x a IH]; simpl; [done|].
  by rewrite N.compare_refl.
Qed.

Lemma str_compare_eq (a b : str) : str_compare a b = Eq -> a = b.
Proof.
  revert b. induction a as [|x a IH]; intros [|y b]; simpl; try done.
  destruct (x ?= y)%N eqn:Hxy; try done.
  apply N.compare_eq in Hxy. intros H. f_equal; auto.
Qed.

Lemma str_compare_antisym (a b : str) : str_compare b a = CompOpp (str_compare a b).
Proof.
  revert b. induction a as [|x a IH]; intros [|y b]; simpl; try done.
  rewrite (N.compare_antisym x y).
  destruct (x ?= y)%N; simpl; auto.
Qed.

Lemma str_compare_lt_trans (a b c : str) :
  str_compare a b = Lt -> str_compare b c = Lt -> str_compare a c = Lt.
Proof.
  revert b c. induction a as [|x a IH]; intros [|y b] [|z c]; simpl; try done.
  destruct (x ?= y)%N eqn:Hxy; destruct (y ?= z)%N eqn:Hyz; try done.
  - apply N.compare_eq in Hxy, Hyz. subst. rewrite N.compare_refl. apply IH.
  - apply N.compare_eq in Hxy. subst. by rewrite Hyz.
  - apply N.compare_eq in Hyz. subst. by rewrite Hxy.
  - intros _ _. rewrite N.compare_lt_iff in Hxy, Hyz.
    assert ((x ?= z)%N = Lt) as -> by (apply N.compare_lt_iff; lia). done.
Qed.

#[global] Instance str_le_refl : Reflexive str_le.
Proof. intros a. unfold str_le. by rewrite str_compare_refl. Qed.

#[global] Instance str_le_trans : Transitive str_le.
Proof.
  intros a b c. unfold str_le. intros Hab Hbc.
  destruct (str_compare a b) eqn:H1; [|clear Hab|done].
  - apply str_compare_eq in H1. by subst.
  - destruct (str_compare b c) eqn:H2; [| |done].
    + apply str_compare_eq in H2. subst. by rewrite H1.
    + by rewrite (str_compare_lt_trans a b c).
Qed.

#[global] Instance str_le_total : Total str_le.
Proof.
  intros a b. unfold str_le. rewrite (str_compare_antisym a b).
  destruct (str_compare a b); simpl; auto.
Qed.

#[global] Instance str_le_antisym : AntiSymm (=) str_le.
Proof.
  intros a b. unfold str_le. rewrite (str_compare_antisym a b).
  destruct (str_compare a b) eqn:H; simpl; try done.
  intros _ _. by apply str_compare_eq.
Qed.

Lemma str_leb_le (a b : str) : str_leb a b = true <-> str_le a b.
Proof. unfold str_leb, str_le. destruct (str_compare a b); naive_solver. Qed.

Lemma str_ltb_lt (a b : str) : str_ltb a b = true <-> str_lt a b.
Proof. unfold str_ltb, str_lt. destruct (str_compare a b); naive_solver. Qed.

(** Sorting by a string field: the result is ordered and holds the same
    documents. *)
Section by_key.
Context {A : Type} (key : A -> str).

Definition key_le (a b : A) : Prop := str_le (key a) (key b).

#[local] Instance key_le_trans : Transitive key_le.
Proof. intros a b c. unfold key_le. apply str_le_trans. Qed.

#[local] Instance key_le_total : Total key_le.
Proof. intros a b. unfold key_le. apply str_le_total. Qed.

Lemma sort_by_key_sorted (l : list A) :
  StronglySorted key_le (merge_sort (fun a b => str_le (key a) (key b)) l).
Proof. apply (StronglySorted_merge_sort key_le). Qed.

Lemma sort_by_key_perm (l : list A) :
  merge_sort (fun a b => str_le (key a) (key b)) l ≡ₚ l.
Proof. apply merge_sort_Permutation. Qed.

End by_key.

(** ** Running the handlers

    Calls on the gateway only append to the list of calls; the lemmas of
    this part give the world after each helper. *)

Lemma add_calls_add_calls (cs1 cs2 : list call) (w : world) :
  add_calls cs2 (add_calls cs1 w) = add_calls (cs1 ++ cs2) w.
Proof. unfold add_calls. simpl. by rewrite <- app_assoc. Qed.

Lemma add_calls_nil (w : world) : add_calls [] w = w.
Proof. destruct w. unfold add_calls. simpl. by rewrite app_nil_r. Qed.

Lemma emit_run (c : call) (w : world) : emit c w = (inr tt, add_calls [c] w).
Proof. reflexivity. Qed.

Lemma bind_run {A B} (m : M A) (k : A -> M B) (w : world) :
  bind m k w = match m w with
               | (inr a, w') => k a w'
               | (inl e, w') => (inl e, w')
               end.
Proof. reflexivity. Qed.

Ltac run_step := rewrite bind_run; try rewrite emit_run; cbv beta iota.

Lemma safe_edit_message_run (E : env) (t : text) (chat_id message_id inline_message_id : value)
    (kb : option keyboard) (w : world) :
  exists b cs,
    safe_edit_message E t chat_id message_id inline_message_id kb w = (inr b, add_calls cs w)
    /\ ((truthy chat_id && truthy message_id) || truthy inline_message_id = true ->
        exists rest,
          cs = edit_message_text (edit_target chat_id message_id inline_message_id) t kb :: rest)
    /\ Forall (fun c => call_text c = None \/ call_text c = Some t) cs.
Proof.
  unfold safe_edit_message.
  destruct (truthy chat_id && truthy message_id) eqn:Hcm;
    destruct (truthy inline_message_id) eqn:Hi; simpl;
    try (run_step; destruct (edit_reply E _); simpl;
         try (eexists _, [_]; split; [reflexivity|split;
                [intros _; eexists; reflexivity|repeat constructor; by right]]);
         destruct (truthy chat_id); simpl;
         try (eexists _, [_]; split; [reflexivity|split;
                [intros _; eexists; reflexivity|repeat constructor; by right]]);
         run_step; unfold ret; rewrite add_calls_add_calls;
         eexists _, _; split; [reflexivity|split;
           [intros _; eexists; reflexivity|repeat constructor; by right]]).
  run_step. unfold ret. eexists _, _. split; [reflexivity|]. split; [intros [=]|].
  repeat constructor.
Qed.

(** Replace a call of [safe_edit_message] in the goal by its result. *)
Ltac run_safe_edit b cs Hcs :=
  match goal with
  | |- context [safe_edit_message ?E ?t ?c ?m ?i ?k ?w] =>
      let H := fresh "Hrun" in
      let Ht := fresh "Htxt" in
      destruct (safe_edit_message_run E t c m i k w) as (b & cs & H & Hcs & Ht);
      rewrite H; clear H; cbv beta iota
  end.

(** Step through a handler whose run is described by the hypothesis [H]. *)
Ltac mrun H :=
  repeat first
    [ rewrite bind_run in H
    | rewrite emit_run in H
    | progress (unfold clear, ret, get_data, get_state, set_state, update_data, db_read,
                db_write, raise, try_except, negb in H)
    | progress (cbv beta iota in H)
    | progress (cbn [add_calls med_collection state data calls foldl fst snd] in H) ].

Ltac run_safe_edit_in H b cs Hcs :=
  match type of H with
  | context [safe_edit_message ?E ?t ?c ?m ?i ?k ?w] =>
      let Hr := fresh "Hr" in
      let Ht := fresh "Htxt" in
      destruct (safe_edit_message_run E t c m i k w) as (b & cs & Hr & Hcs & Ht);
      rewrite Hr in H; clear Hr
  end.

Lemma texts_no_details (t : text) (cs : list call) :
  (forall m, t <> TxtDetails m) ->
  Forall (fun c => call_text c = None \/ call_text c = Some t) cs ->
  Forall (fun c => shows_details c = false) cs.
Proof.
  intros Ht Hall. eapply Forall_impl; [exact Hall|].
  intros c [Hc|Hc]; unfold shows_details; rewrite Hc; [done|].
  destruct t; try done. by destruct (Ht med).
Qed.

Lemma show_main_menu_message_run (E : env) (chat_id message_id inline_message_id : value)
    (w : world) :
  exists cs,
    show_main_menu_message E chat_id message_id inline_message_id w = (inr tt, add_calls cs w)
    /\ ((truthy chat_id && truthy message_id) || truthy inline_message_id = true ->
        exists rest,
          cs = edit_message_text (edit_target chat_id message_id inline_message_id)
                 TxtMainMenu (Some main_menu_keyboard) :: rest)
    /\ Forall (fun c => shows_details c = false) cs.
Proof.
  unfold show_main_menu_message. rewrite bind_run.
  run_safe_edit b cs Hcs. exists cs. split; [reflexivity|]. split; [done|].
  by apply (texts_no_details TxtMainMenu).
Qed.

Lemma _show_user_medicine_list_run (E : env) (user_id : Z) (chat_id message_id : value)
    (page : Z) (w : world) :
  exists cs,
    _show_user_medicine_list E user_id chat_id message_id page w = (inr tt, add_calls cs w)
    /\ (truthy chat_id && truthy message_id = true ->
        exists t kb rest,
          cs = edit_message_text (Ordinary chat_id message_id) t (Some kb) :: rest
          /\ is_list_text t = true)
    /\ Forall (fun c => shows_details c = false) cs.
Proof.
  unfold _show_user_medicine_list, db_read. rewrite bind_run. cbv beta iota.
  rewrite bind_run. run_safe_edit b cs Hcs. exists cs. split; [reflexivity|]. split.
  - intros Hcm. destruct Hcs as [rest ->]; [by rewrite Hcm|].
    eexists _, _, rest. split; [reflexivity|]. by destruct (1 <? _).
  - revert Htxt. destruct (1 <? _); by apply texts_no_details.
Qed.

Ltac run_show_list_in H cs :=
  match type of H with
  | context [_show_user_medicine_list ?E ?a ?b ?c ?d ?w] =>
      let Hr := fresh "Hr" in
      let Hfirst := fresh "Hfirst" in
      let Hnd := fresh "Hnd" in
      destruct (_show_user_medicine_list_run E a b c d w) as (cs & Hr & Hfirst & Hnd);
      rewrite Hr in H; clear Hr
  end.

Ltac run_main_menu_in H cs Hcs :=
  match type of H with
  | context [show_main_menu_message ?E ?a ?b ?c ?w] =>
      let Hr := fresh "Hr" in
      let Hnd := fresh "Hnd" in
      destruct (show_main_menu_message_run E a b c w) as (cs & Hr & Hcs & Hnd);
      rewrite Hr in H; clear Hr
  end.

(** ** Names from a barcode *)

Lemma sorted_set_sorted (names : list str) : StronglySorted str_le (sorted_set names).
Proof. unfold sorted_set. apply (StronglySorted_merge_sort str_le). Qed.

Lemma sorted_set_elem (names : list str) (n : str) : n ∈ sorted_set names <-> n ∈ names.
Proof.
  unfold sorted_set. rewrite merge_sort_Permutation. apply elem_of_remove_dups.
Qed.

Lemma sorted_set_NoDup (names : list str) : NoDup (sorted_set names).
Proof.
  unfold sorted_set. rewrite merge_sort_Permutation. apply NoDup_remove_dups.
Qed.

Lemma parse_barcode_html_sorted (page : html) : StronglySorted str_le (parse_barcode_html page).
Proof.
  unfold parse_barcode_html. destruct page as [rows|]; [|constructor].
  destruct (_ <=? _)%nat; [constructor|apply sorted_set_sorted].
Qed.

Lemma parse_barcode_html_NoDup (page : html) : NoDup (parse_barcode_html page).
Proof.
  unfold parse_barcode_html. destruct page as [rows|]; [|constructor].
  destruct (_ <=? _)%nat; [constructor|apply sorted_set_NoDup].
Qed.

(** [min_by_len] returns the first element of least length: the elements
    before it are strictly longer, those after it are not shorter. *)
Lemma min_by_len_split (best : str) (l : list str) :
  exists l1 l2,
    best :: l = l1 ++ min_by_len best l :: l2
    /\ Forall (fun n => (List.length (min_by_len best l) < List.length n)%nat) l1
    /\ Forall (fun n => (List.length (min_by_len best l) <= List.length n)%nat) l2.
Proof.
  revert best. induction l as [|x l IH]; intros best; simpl.
  - exists [], []. repeat split; constructor.
  - destruct (List.length x <? List.length best)%nat eqn:Hlt.
    + apply Nat.ltb_lt in Hlt.
      destruct (IH x) as (l1 & l2 & Heq & H1 & H2).
      exists (best :: l1), l2. rewrite Heq. repeat split; [|done].
      constructor; [|done].
      assert (x ∈ l1 ++ min_by_len x l :: l2) as Hx by (rewrite <- Heq; left).
      apply elem_of_app in Hx as [Hx|Hx].
      * rewrite Forall_forall in H1. specialize (H1 _ Hx). lia.
      * apply elem_of_cons in Hx as [Hx|Hx]; [rewrite <- Hx; lia|].
        rewrite Forall_forall in H2. specialize (H2 _ Hx). lia.
    + apply Nat.ltb_ge in Hlt.
      destruct (IH best) as (l1 & l2 & Heq & H1 & H2).
      destruct l1 as [|b l1]; simpl in Heq.
      * injection Heq as Hb Hl. exists [], (x :: l2). simpl.
        split; [congruence|]. split; [constructor|].
        constructor; [rewrite <- Hb; lia|done].
      * injection Heq as Hb Hl. subst b. exists (best :: x :: l1), l2. simpl.
        split; [congruence|]. split; [|done].
        apply Forall_cons in H1 as [Hb H1].
        constructor; [done|]. constructor; [lia|done].
Qed.


(** ** The commit step of the add flow *)

Lemma truthy_VStr (v : value) (s : str) : v = VStr s -> truthy v = true -> s <> [].
Proof. intros -> H. simpl in H. by destruct (bool_decide_reflect (s = [])). Qed.

Lemma med_doc_of_Some (n nl q no e : value) (user_id : Z) (d : med_doc) :
  med_doc_of n nl q no e user_id = Some d ->
  n = VStr (doc_name d) /\ nl = VStr (doc_name_lower d) /\ q = VStr (doc_quantity d)
  /\ no = VStr (doc_notes d) /\ e = VStr (doc_exp_date d) /\ doc_added_by d = user_id.
Proof.
  unfold med_doc_of. destruct n, nl, q, no, e; try done. intros [= <-]. done.
Qed.

(** The four ways [_save_new_medicine] ends. *)
Lemma _save_new_medicine_run (E : env) (user_id : Z) (chat_id message_id : value) (w : world) :
  exists cs,
    (forallb truthy (add_values (data w)) = false
     /\ _save_new_medicine E user_id chat_id message_id w
        = (inr tt, World (med_collection w) None ∅ (calls w ++ logger LogIncompleteData :: cs)))
    \/ (forallb truthy (add_values (data w)) = true
        /\ exists doc c',
             add_doc (data w) user_id = Some doc
             /\ insert_one doc (med_collection w) = inr c'
             /\ _save_new_medicine E user_id chat_id message_id w
                = (inr tt, World c' None ∅ (calls w ++ logger LogAdded :: cs)))
    \/ (forallb truthy (add_values (data w)) = true
        /\ exists doc,
             add_doc (data w) user_id = Some doc
             /\ insert_one doc (med_collection w) = inl DuplicateKeyError
             /\ _save_new_medicine E user_id chat_id message_id w
                = (inr tt, World (med_collection w) None ∅
                                 (calls w ++ logger LogDuplicateKey :: cs))
             /\ (truthy chat_id && truthy message_id = true ->
                 exists rest,
                   cs = edit_message_text (Ordinary chat_id message_id)
                          (TxtDuplicate (get (data w) "name")) (Some main_menu_keyboard)
                        :: rest))
    \/ (forallb truthy (add_values (data w)) = true
        /\ add_doc (data w) user_id = None
        /\ _save_new_medicine E user_id chat_id message_id w
           = (inr tt, World (med_collection w) None ∅ (calls w ++ logger LogInsertFailed :: cs))).
Proof.
  destruct (_save_new_medicine E user_id chat_id message_id w) as [r w'] eqn:Hrun.
  unfold _save_new_medicine in Hrun. unfold add_values, add_doc.
  mrun Hrun.
  destruct (forallb truthy _) eqn:Hall; mrun Hrun.
  - unfold db_insert_one in Hrun.
    destruct (med_doc_of _ _ _ _ _ _) as [doc|] eqn:Hdoc.
    + destruct (insert_one doc (med_collection w)) as [e|c'] eqn:Hins; mrun Hrun.
      * assert (e = DuplicateKeyError) as ->.
        { unfold insert_one in Hins. by case_bool_decide; simplify_eq. }
        mrun Hrun.
        destruct (truthy chat_id && truthy message_id) eqn:Hcm; mrun Hrun.
        -- run_safe_edit_in Hrun b cs Hcs. mrun Hrun. simplify_eq.
           exists cs. right. right. left. split; [done|]. exists doc.
           repeat split; try done.
           ++ unfold add_calls. simpl. by rewrite <- app_assoc.
           ++ intros _. destruct Hcs as [rest ->]; [by rewrite Hcm|].
              exists rest. unfold edit_target. reflexivity.
        -- simplify_eq. exists []. right. right. left. split; [done|]. exists doc.
           repeat split; try done.
      * destruct (truthy chat_id && truthy message_id) eqn:Hcm; mrun Hrun.
        -- run_show_list_in Hrun cs. simplify_eq.
           exists cs. right. left. split; [done|]. exists doc, c'.
           repeat split; try done. unfold add_calls. simpl. by rewrite <- app_assoc.
        -- simplify_eq. exists []. right. left. split; [done|]. exists doc, c'. done.
    + mrun Hrun.
      destruct (truthy chat_id && truthy message_id) eqn:Hcm; mrun Hrun.
      * run_safe_edit_in Hrun b cs Hcs. mrun Hrun. simplify_eq.
        exists cs. right. right. right. repeat split; try done.
        unfold add_calls. simpl. by rewrite <- app_assoc.
      * simplify_eq. exists []. right. right. right. done.
  - destruct (truthy chat_id && truthy message_id) eqn:Hcm; mrun Hrun.
    + run_safe_edit_in Hrun b cs Hcs. mrun Hrun. simplify_eq.
      exists cs. left. split; [done|]. unfold add_calls. simpl. by rewrite <- app_assoc.
    + simplify_eq. exists []. left. done.
Qed.

Lemma insert_one_inr (doc : med_doc) (c c' : collection) :
  insert_one doc c = inr c' ->
  c' = c ++ [with_id (fresh_id c) doc]
  /\ Forall (fun m => index_key m <> (doc_added_by doc, doc_name_lower doc)) c.
Proof.
  unfold insert_one. case_bool_decide as Hex; [done|]. intros [= <-]. split; [done|].
  apply Forall_forall. intros m Hm Hkey. apply Hex. apply Exists_exists. eauto.
Qed.

(** C10.  The commit step of the add flow always clears the conversation
    context; when one of the five accumulated values is missing or empty it
    leaves the collection as it was; and whenever it changes the collection,
    it adds exactly one document, whose five fields are the accumulated values
    and are all non-empty. *)
Theorem save_new_medicine_complete_only (E : env) (user_id : Z) (chat_id message_id : value)
    (w : world) :
  let w' := (_save_new_medicine E user_id chat_id message_id w).2 in
  let d := data w in
  (state w' = None /\ data w' = ∅)
  /\ (forallb truthy [get d "name"; get d "name_lower"; get d "quantity"; get d "notes";
                      get d "exp_date"] = false ->
      med_collection w' = med_collection w)
  /\ (med_collection w' = med_collection w
      \/ exists m,
           med_collection w' = med_collection w ++ [m]
           /\ get d "name" = VStr (name m) /\ name m <> []
           /\ get d "name_lower" = VStr (name_lower m) /\ name_lower m <> []
           /\ get d "quantity" = VStr (quantity m) /\ quantity m <> []
           /\ get d "notes" = VStr (notes m) /\ notes m <> []
           /\ get d "exp_date" = VStr (exp_date m) /\ exp_date m <> []
           /\ added_by m = user_id).
Proof.
  cbv zeta.
  destruct (_save_new_medicine_run E user_id chat_id message_id w) as
    (cs & [(Hall & ->)|[(Hall & doc & c' & Hdoc & Hins & ->)
          |[(Hall & doc & Hdoc & Hins & -> & _)|(Hall & Hdoc & ->)]]]); simpl.
  - split; [done|]. split; [done|]. by left.
  - split; [done|]. unfold add_values in Hall. simpl in Hall. split; [congruence|]. right.
    apply insert_one_inr in Hins as [-> _].
    apply med_doc_of_Some in Hdoc as (Hn & Hnl & Hq & Hno & He & Hu).
    exists (with_id (fresh_id (med_collection w)) doc). simpl in Hall.
    repeat (apply andb_prop in Hall as [? Hall]).
    split; [done|]. simpl.
    repeat split; try done; eauto using truthy_VStr.
  - split; [done|]. split; [done|]. by left.
  - split; [done|]. split; [done|]. by left.
Qed.

(** ** The unique index *)

Lemma fresh_id_above (c : collection) (m : medicine) : m ∈ c -> (_id m < fresh_id c)%N.
Proof.
  unfold fresh_id. induction c as [|a c IH]; [by intros ?%elem_of_nil|].
  intros [->|Hm]%elem_of_cons; simpl; [lia|]. specialize (IH Hm). lia.
Qed.

Lemma elem_of_map_1 {A B} (f : A -> B) (l : list A) (y : B) :
  y ∈ List.map f l -> exists x, y = f x /\ x ∈ l.
Proof.
  induction l as [|a l IH]; simpl; [by intros ?%elem_of_nil|].
  intros [->|H]%elem_of_cons; [exists a; split; [done|left]|].
  destruct (IH H) as (x & -> & Hx). exists x. split; [done|by right].
Qed.

Lemma elem_of_map_2 {A B} (f : A -> B) (l : list A) (x : A) : x ∈ l -> f x ∈ List.map f l.
Proof.
  induction 1; simpl; [left|by right].
Qed.

Lemma insert_one_unique (d : med_doc) (c c' : collection) :
  unique_index c -> insert_one d c = inr c' -> unique_index c'.
Proof.
  intros [Hid Hkey] Hins. apply insert_one_inr in Hins as [-> Hfresh].
  unfold unique_index. rewrite !map_app. simpl. split.
  - apply NoDup_app. split; [done|]. split; [|apply NoDup_singleton].
    intros i Hi ->%list_elem_of_singleton.
    apply elem_of_map_1 in Hi as (m & Heq & Hm).
    apply fresh_id_above in Hm. lia.
  - apply NoDup_app. split; [done|]. split; [|apply NoDup_singleton].
    intros k Hk ->%list_elem_of_singleton.
    apply elem_of_map_1 in Hk as (m & Heq & Hm).
    rewrite Forall_forall in Hfresh. by apply (Hfresh m Hm).
Qed.

Lemma find_one_Some (f : medicine -> bool) (c : collection) (m : medicine) :
  find_one f c = Some m -> m ∈ c /\ f m = true.
Proof.
  unfold find_one. intros H. apply find_some in H as [Hin Hf].
  split; [by apply list_elem_of_In|done].
Qed.

Lemma find_one_None (f : medicine -> bool) (c : collection) (m : medicine) :
  find_one f c = None -> m ∈ c -> f m = false.
Proof.
  unfold find_one. intros H Hm. apply (find_none f c H). by apply list_elem_of_In.
Qed.

Lemma replace_first_elem (f : medicine -> bool) (m' : medicine) (c : collection) (x : medicine) :
  x ∈ replace_first f m' c -> x = m' \/ x ∈ c.
Proof.
  induction c as [|a c IH]; simpl; [by intros ?%elem_of_nil|].
  destruct (f a).
  - intros [->|H]%elem_of_cons; [by left|right; by right].
  - intros [->|H]%elem_of_cons; [right; left|].
    destruct (IH H) as [->|?]; [by left|right; by right].
Qed.

Lemma replace_first_unique (f : medicine -> bool) (m m' : medicine) (c : collection) :
  unique_index c ->
  find_one f c = Some m ->
  _id m' = _id m ->
  Forall (fun o => _id o <> _id m -> index_key o <> index_key m') c ->
  unique_index (replace_first f m' c).
Proof.
  unfold unique_index, find_one.
  induction c as [|a c IH]; simpl; [done|].
  intros [Hid Hkey] Hfind Hm' Hother.
  apply NoDup_cons in Hid as [Hida Hid]. apply NoDup_cons in Hkey as [Hkeya Hkey].
  apply Forall_cons in Hother as [Ha Hother].
  destruct (f a) eqn:Hfa.
  - injection Hfind as <-. simpl. split; apply NoDup_cons; (split; [|done]).
    + by rewrite Hm'.
    + intros Hin. apply elem_of_map_1 in Hin as (o & Heq & Ho).
      rewrite Forall_forall in Hother. apply (Hother o Ho); [|done].
      intros Hsame. apply Hida. rewrite <- Hsame. by apply elem_of_map_2.
  - assert (m ∈ c) as Hmc.
    { apply find_some in Hfind as [Hin _]. by apply list_elem_of_In. }
    assert (_id a <> _id m) as Hne.
    { intros Hsame. apply Hida. rewrite Hsame. by apply elem_of_map_2. }
    destruct (IH (conj Hid Hkey) Hfind Hm' Hother) as [IHid IHkey].
    simpl. split; apply NoDup_cons; (split; [|done]).
    + intros Hin. apply elem_of_map_1 in Hin as (o & Heq & Ho).
      apply replace_first_elem in Ho as [->|Ho]; [congruence|].
      apply Hida. rewrite Heq. by apply elem_of_map_2.
    + intros Hin. apply elem_of_map_1 in Hin as (o & Heq & Ho).
      apply replace_first_elem in Ho as [->|Ho]; [by apply Ha|].
      apply Hkeya. rewrite Heq. by apply elem_of_map_2.
Qed.

Lemma apply_set_id (upd : gmap str value) (m m' : medicine) :
  apply_set upd m = Some m' -> _id m' = _id m /\ added_by m' = added_by m.
Proof.
  unfold apply_set. case_bool_decide as Hdom; [|done].
  intros Hs. repeat (apply bind_Some in Hs as (? & ? & Hs)). by injection Hs as <-.
Qed.

Lemma update_one_unique (f : medicine -> bool) (upd : gmap str value) (r : update_result)
    (c c' : collection) :
  unique_index c -> update_one f upd c = inr (r, c') -> unique_index c'.
Proof.
  intros Hu. unfold update_one.
  destruct (find_one f c) as [m|] eqn:Hfind; [|by intros [= _ <-]].
  destruct (apply_set upd m) as [m'|] eqn:Hset; [|done].
  case_bool_decide; [by intros [= _ <-]|].
  case_bool_decide as Hex; [done|]. intros [= _ <-].
  apply apply_set_id in Hset as [Hid _].
  apply (replace_first_unique f m m'); try done.
  apply Forall_forall. intros o Ho Hne Hk. apply Hex. apply Exists_exists. eauto.
Qed.

Lemma remove_first_sublist (f : medicine -> bool) (c : collection) :
  sublist (remove_first f c) c.
Proof.
  induction c as [|a c IH]; simpl; [constructor|].
  destruct (f a); [by constructor|by constructor].
Qed.

Lemma sublist_map {A B} (f : A -> B) (l1 l2 : list A) :
  sublist l1 l2 -> sublist (List.map f l1) (List.map f l2).
Proof. induction 1; simpl; by constructor. Qed.

Lemma delete_one_unique (f : medicine -> bool) (c : collection) :
  unique_index c -> unique_index (delete_one f c).2.
Proof.
  intros [Hid Hkey]. unfold delete_one. destruct (find_one f c); [|done]. simpl.
  pose proof (remove_first_sublist f c) as Hsub.
  split; eapply sublist_NoDup; eauto using sublist_map.
Qed.

Lemma reachable_unique (c : collection) : reachable c -> unique_index c.
Proof.
  unfold reachable. revert c. apply rtc_ind_r.
  - split; constructor.
  - intros c1 c2 _ Hw IH. destruct Hw as [d c1 c2 Hins|f upd r c1 c2 Hupd|f c1].
    + by apply (insert_one_unique d c1).
    + by apply (update_one_unique f upd r c1).
    + by apply delete_one_unique.
Qed.

Lemma key_filter_le_1 (c : collection) (n : str) (user : Z) :
  NoDup (List.map index_key c) -> (List.length (List.filter (by_name_lower n user) c) <= 1)%nat.
Proof.
  induction c as [|a c IH]; simpl; [lia|].
  intros [Ha Hc]%NoDup_cons. specialize (IH Hc).
  destruct (by_name_lower n user a) eqn:Hm; [|done]. simpl.
  assert (List.filter (by_name_lower n user) c = []) as ->; [|simpl; lia].
  destruct (List.filter (by_name_lower n user) c) as [|b l] eqn:Hf; [done|].
  exfalso. apply Ha.
  assert (In b (List.filter (by_name_lower n user) c)) as Hb by (rewrite Hf; left; done).
  apply filter_In in Hb as [Hb Hbm].
  unfold by_name_lower in Hm, Hbm.
  apply andb_prop in Hm as [?%bool_decide_eq_true ?%bool_decide_eq_true].
  apply andb_prop in Hbm as [?%bool_decide_eq_true ?%bool_decide_eq_true].
  replace (index_key a) with (index_key b) by (unfold index_key; congruence).
  apply elem_of_map_2. by apply list_elem_of_In.
Qed.

Lemma insert_one_taken (d : med_doc) (c : collection) (m : medicine) :
  m ∈ c -> index_key m = (doc_added_by d, doc_name_lower d) ->
  insert_one d c = inl DuplicateKeyError.
Proof.
  intros Hm Hk. unfold insert_one. case_bool_decide as Hex; [done|].
  exfalso. apply Hex. apply Exists_exists. eauto.
Qed.

(** C1.  In every collection the program can reach from an empty one, at
    most one document has a given owner and lower-cased name; an insert whose
    key [(added_by, name_lower)] is taken fails with [DuplicateKeyError], so
    a second insert of a key just inserted fails; and the commit step of the
    add flow, meeting such a key, leaves the collection as it is, clears the
    conversation and reports the duplicate. *)
Theorem unique_owner_and_name (c : collection) :
  reachable c ->
  (forall (U : Z) (N : str),
     (List.length (List.filter (by_name_lower (lower N) U) c) <= 1)%nat)
  /\ (forall (d : med_doc) (m : medicine),
        m ∈ c -> index_key m = (doc_added_by d, doc_name_lower d) ->
        insert_one d c = inl DuplicateKeyError)
  /\ (forall (d d' : med_doc) (c' : collection),
        insert_one d c = inr c' ->
        doc_added_by d' = doc_added_by d -> doc_name_lower d' = doc_name_lower d ->
        reachable c' /\ insert_one d' c' = inl DuplicateKeyError)
  /\ (forall (E : env) (user_id : Z) (chat_id message_id : value) (w : world)
             (n nl q no e : str) (m : medicine),
        med_collection w = c ->
        get (data w) "name" = VStr n -> get (data w) "name_lower" = VStr nl ->
        get (data w) "quantity" = VStr q -> get (data w) "notes" = VStr no ->
        get (data w) "exp_date" = VStr e ->
        n <> [] -> nl <> [] -> q <> [] -> no <> [] -> e <> [] ->
        m ∈ c -> added_by m = user_id -> name_lower m = nl ->
        let w' := (_save_new_medicine E user_id chat_id message_id w).2 in
        med_collection w' = c /\ state w' = None /\ data w' = ∅
        /\ logger LogDuplicateKey ∈ calls w'
        /\ (truthy chat_id && truthy message_id = true ->
            edit_message_text (Ordinary chat_id message_id) (TxtDuplicate (VStr n))
              (Some main_menu_keyboard) ∈ calls w')).
Proof.
  intros Hreach. pose proof (reachable_unique c Hreach) as [Hid Hkey].
  split; [|split; [|split]].
  - intros U N. by apply key_filter_le_1.
  - intros d m. apply insert_one_taken.
  - intros d d' c' Hins Hu Hn. split.
    + eapply rtc_r; [exact Hreach|]. by apply (write_insert d).
    + apply insert_one_inr in Hins as [-> _].
      apply (insert_one_taken d' _ (with_id (fresh_id c) d)).
      * apply elem_of_app. right. left.
      * unfold index_key. simpl. congruence.
  - intros E user_id chat_id message_id w n nl q no e m Hc Hn Hnl Hq Hno He
      Hn0 Hnl0 Hq0 Hno0 He0 Hm Huser Hname. cbv zeta.
    assert (forall s, s <> [] -> truthy (VStr s) = true) as Htr.
    { intros s Hs. simpl. by rewrite bool_decide_eq_false_2. }
    destruct (_save_new_medicine_run E user_id chat_id message_id w) as
      (cs & [(Hall & _)|[(Hall & doc & c' & Hdoc & Hins & _)
            |[(Hall & doc & Hdoc & Hins & -> & Hcs)|(Hall & Hdoc & _)]]]).
    + unfold add_values in Hall. rewrite Hn, Hnl, Hq, Hno, He in Hall. simpl in Hall.
      rewrite !bool_decide_eq_false_2 in Hall by done. done.
    + unfold add_doc in Hdoc. rewrite Hn, Hnl, Hq, Hno, He in Hdoc. injection Hdoc as <-.
      rewrite (insert_one_taken _ _ m) in Hins; [done|by rewrite Hc|].
      unfold index_key. simpl. congruence.
    + simpl. repeat split; try done.
      * apply elem_of_app. right. left.
      * intros Hcm. destruct (Hcs Hcm) as [rest ->]. rewrite Hn.
        apply elem_of_app. right. right. left.
    + unfold add_doc in Hdoc. by rewrite Hn, Hnl, Hq, Hno, He in Hdoc.
Qed.

(** ** Cancellation *)

Lemma edit_target_inline (c m i : value) : truthy i = true -> edit_target c m i = InlineToken i.
Proof. unfold edit_target. by intros ->. Qed.

Lemma edit_target_ordinary (c m : value) : edit_target c m VNone = Ordinary c m.
Proof. reflexivity. Qed.

(** C9.  In every state of the add and edit flows, both cancel handlers (the
    command or typed keyword, and the button) clear the conversation context
    and leave the collection untouched; when the conversation is bound to a
    message they render the main menu on it, and when it is bound to none the
    command sends the menu as a new message and the button only acknowledges. *)
Theorem cancel_clears_conversation (E : env) (w : world) (s : fsm_state)
    (callback_message : option (Z * Z)) (callback_inline_message_id : option str) :
  state w = Some s ->
  let r1 := cancel_handler E w in
  let r2 := cancel_action_callback E callback_message callback_inline_message_id w in
  (r1.1 = inr tt /\ med_collection r1.2 = med_collection w /\ state r1.2 = None /\ data r1.2 = ∅)
  /\ (r2.1 = inr tt /\ med_collection r2.2 = med_collection w /\ state r2.2 = None
      /\ data r2.2 = ∅)
  /\ match bound_identity (data w) with
     | Some target =>
         edit_message_text target TxtMainMenu (Some main_menu_keyboard) ∈ calls r1.2
         /\ edit_message_text target TxtMainMenu (Some main_menu_keyboard) ∈ calls r2.2
     | None =>
         message_answer TxtWelcome (Some main_menu_keyboard) ∈ calls r1.2
         /\ callback_answer (Some TxtCancelled) false ∈ calls r2.2
     end.
Proof.
  intros Hs. cbv zeta.
  destruct (cancel_handler E w) as [r1 w1] eqn:H1.
  destruct (cancel_action_callback E callback_message callback_inline_message_id w)
    as [r2 w2] eqn:H2.
  unfold cancel_handler in H1. unfold cancel_action_callback in H2.
  mrun H1. mrun H2. rewrite Hs in H1, H2. mrun H1. mrun H2.
  unfold bound_identity.
  destruct (truthy (get (data w) "inline_message_id")) eqn:Hi.
  - mrun H2. run_main_menu_in H1 cs1 Hcs1. run_main_menu_in H2 cs2 Hcs2. mrun H2.
    simplify_eq. simpl.
    destruct Hcs1 as [rest1 ->]; [by rewrite Hi, orb_true_r|].
    destruct Hcs2 as [rest2 ->]; [by rewrite Hi, orb_true_r|].
    rewrite edit_target_inline by done.
    repeat split; try done.
    + apply elem_of_app. right. left.
    + rewrite <- app_assoc. apply elem_of_app. right. left.
  - destruct (truthy (get (data w) "prompt_chat_id") && truthy _) eqn:Hcm.
    + mrun H2. run_main_menu_in H1 cs1 Hcs1. run_main_menu_in H2 cs2 Hcs2. mrun H2.
      simplify_eq. simpl.
      destruct Hcs1 as [rest1 ->]; [by rewrite Hcm|].
      destruct Hcs2 as [rest2 ->]; [by rewrite Hcm|].
      rewrite edit_target_ordinary.
      repeat split; try done.
      * apply elem_of_app. right. left.
      * rewrite <- app_assoc. apply elem_of_app. right. left.
    + unfold start_handler in H1. mrun H1. mrun H2. simplify_eq. simpl.
      repeat split; try done.
      * apply elem_of_app. right. left.
      * apply elem_of_app. right. left.
Qed.

(** ** Expiry dates of the add flow *)

Lemma date_compare_refl (d : date) : date_compare d d = Eq.
Proof. unfold date_compare. by rewrite !Z.compare_refl. Qed.

Lemma date_ltb_irrefl (d : date) : date_ltb d d = false.
Proof. unfold date_ltb. by rewrite date_compare_refl. Qed.

Lemma get_insert_ne (d : gmap string value) (k k' : string) (v : value) :
  k <> k' -> get (<[k := v]> d) k' = get d k'.
Proof. intros Hne. unfold get. by rewrite lookup_insert_ne. Qed.

Lemma get_insert_eq (d : gmap string value) (k : string) (v : value) :
  get (<[k := v]> d) k = v.
Proof. unfold get. by rewrite lookup_insert_eq. Qed.

(** C7.  In the add flow's expiry step, a typed text that is no date and a
    typed date before today are answered with a reply, and a calendar day
    before today with a notice; in all three cases the state, the data and
    the collection stay as they were.  A typed or selected date equal to
    today passes the check: it is stored in the context and the commit step
    runs. *)
Theorem past_or_malformed_expiry_rejected (E : env) (w : world) (message_text : str)
    (user_id : Z) (year month day : Z) (callback_message : option (Z * Z)) :
  (strptime (strip message_text) = None ->
   process_medicine_exp_date_text E message_text user_id w
   = (inr tt, World (med_collection w) (state w) (data w)
                    (calls w ++ [message_reply TxtBadDateFormat])))
  /\ (forall d, strptime (strip message_text) = Some d -> date_ltb d (today E) = true ->
      process_medicine_exp_date_text E message_text user_id w
      = (inr tt, World (med_collection w) (state w) (data w)
                       (calls w ++ [message_reply TxtDateInPast])))
  /\ (forall d, mk_date year month day = Some d -> date_ltb d (today E) = true ->
      handle_date_select E year month (Some day) user_id callback_message w
      = (inr tt, World (med_collection w) (state w) (data w)
                       (calls w ++ [callback_answer (Some TxtPast) true])))
  /\ (strptime (strip message_text) = Some (today E) ->
      process_medicine_exp_date_text E message_text user_id w
      = _save_new_medicine E user_id (get (data w) "prompt_chat_id")
          (get (data w) "calendar_message_id")
          (World (med_collection w) (state w)
                 (<["exp_date" := VStr (isoformat (today E))]> (data w))
                 (calls w ++ [message_delete])))
  /\ (forall message_id,
      mk_date year month day = Some (today E) ->
      state w = Some waiting_for_exp_date ->
      truthy (get (data w) "prompt_chat_id") = true ->
      get (data w) "calendar_message_id" = VInt message_id -> message_id <> 0 ->
      handle_date_select E year month (Some day) user_id callback_message w
      = _save_new_medicine E user_id (get (data w) "prompt_chat_id") (VInt message_id)
          (World (med_collection w) (state w)
                 (<["exp_date" := VStr (isoformat (today E))]> (data w))
                 (calls w ++ [callback_answer (Some (TxtDateChosen (today E))) false]))).
Proof.
  repeat split.
  - intros Hparse. unfold process_medicine_exp_date_text.
    rewrite bind_run. unfold get_data. cbv beta iota. by rewrite Hparse.
  - intros d Hparse Hpast. unfold process_medicine_exp_date_text.
    rewrite bind_run. unfold get_data. cbv beta iota. by rewrite Hparse, Hpast.
  - intros d Hdate Hpast. unfold handle_date_select. by rewrite Hdate, Hpast.
  - intros Hparse. unfold process_medicine_exp_date_text.
    rewrite bind_run. unfold get_data. cbv beta iota.
    rewrite Hparse, date_ltb_irrefl. reflexivity.
  - intros message_id Hdate Hs Hchat Hcal Hne. unfold handle_date_select.
    rewrite Hdate, date_ltb_irrefl.
    rewrite bind_run, emit_run. cbv beta iota.
    rewrite bind_run. unfold update_data at 1. cbv beta iota.
    rewrite bind_run. unfold get_state at 1. cbv beta iota.
    rewrite bind_run. unfold get_data at 1. cbv beta iota.
    cbn [add_calls med_collection state data calls foldl fst snd].
    rewrite Hs. rewrite !get_insert_ne by done. rewrite Hcal, Hchat. simpl.
    destruct (message_id =? 0) eqn:H0; [lia|]. reflexivity.
Qed.

(** ** The list keyboard *)

Lemma py_slice_page {A} (l : list A) (start : Z) (k : nat) :
  0 <= start -> py_slice l start (start + Z.of_nat k) = take k (drop (Z.to_nat start) l).
Proof.
  intros Hstart. unfold py_slice, slice_index.
  destruct (Z.ltb_spec start 0) as [?|_]; [lia|].
  destruct (Z.ltb_spec (start + Z.of_nat k) 0) as [?|_]; [lia|].
  destruct (decide (Z.of_nat (List.length l) <= start)) as [Hge|Hlt].
  - rewrite !Z.min_r by lia. rewrite Z.sub_diag. simpl.
    rewrite (drop_ge l (Z.to_nat start)) by lia. by rewrite take_nil.
  - rewrite (Z.min_l start) by lia.
    destruct (decide (start + Z.of_nat k <= Z.of_nat (List.length l))) as [Hin|Hout].
    + rewrite Z.min_l by lia. f_equal. lia.
    + rewrite Z.min_r by lia.
      rewrite !take_ge; [done| |]; rewrite length_drop; lia.
Qed.

Lemma filter_view_map (meds : list medicine) :
  List.filter is_view (concat (List.map (fun med => [med_button med]) meds))
  = List.map med_button meds.
Proof. induction meds as [|m meds IH]; simpl; [done|by rewrite IH]. Qed.

Lemma no_nav_in_records (meds : list medicine) (f : button -> bool) :
  (forall m, f (med_button m) = false) ->
  existsb f (concat (List.map (fun med => [med_button med]) meds)) = false.
Proof.
  intros Hf. induction meds as [|m meds IH]; simpl; [done|]. by rewrite Hf, IH.
Qed.

(** The shape of the keyboard on a page [p >= 1]. *)
Lemma get_medicine_list_keyboard_shape (medicines : list medicine) (p : Z) :
  1 <= p ->
  let total_pages := (Z.of_nat (List.length medicines) + 5 - 1) / 5 in
  let items := take 5 (drop (Z.to_nat ((p - 1) * 5)) medicines) in
  get_medicine_list_keyboard medicines p MEDS_PER_PAGE
  = (match items with
     | _ :: _ => List.map (fun med => [med_button med]) items
     | [] => [[BtnEmptyPage]]
     end)
    ++ (let page_buttons :=
          (if 1 <? p then [BtnPrev (p - 1)] else [])
          ++ (if 1 <? total_pages then [BtnPageInfo p total_pages] else [])
          ++ (if p <? total_pages then [BtnNext (p + 1)] else []) in
        match page_buttons with
        | _ :: _ => [page_buttons]
        | [] => []
        end)
    ++ [[BtnAdd]] ++ [[BtnMainMenu]].
Proof.
  intros Hp. cbv zeta. unfold get_medicine_list_keyboard, MEDS_PER_PAGE.
  pose proof (py_slice_page medicines ((p - 1) * 5) 5) as Hslice.
  change (Z.of_nat 5) with 5 in Hslice. rewrite Hslice by lia. reflexivity.
Qed.

Lemma records_of_keyboard (medicines : list medicine) (p : Z) :
  1 <= p ->
  record_buttons (get_medicine_list_keyboard medicines p MEDS_PER_PAGE)
  = List.map med_button (take 5 (drop (Z.to_nat ((p - 1) * 5)) medicines)).
Proof.
  intros Hp. unfold record_buttons. rewrite get_medicine_list_keyboard_shape by done.
  cbv zeta. rewrite concat_app, List.filter_app.
  assert (forall l, List.filter is_view (concat (l ++ [[BtnAdd]] ++ [[BtnMainMenu]]))
                    = List.filter is_view (concat l)) as Htail.
  { intros l. rewrite concat_app, List.filter_app. simpl. by rewrite app_nil_r. }
  rewrite Htail.
  match goal with |- _ ++ ?nav = _ => assert (nav = []) as -> end.
  { destruct (1 <? p), (1 <? _), (p <? _); reflexivity. }
  rewrite app_nil_r.
  destruct (take 5 _) as [|m items] eqn:Hitems; [done|].
  by rewrite filter_view_map.
Qed.

(** C6.  For every list of records and every page number [p >= 1] with page
    size 5, the list keyboard shows the records number [(p-1)*5+1] to
    [min(p*5, total)] of the list, in order; it has a "prev" button exactly
    when [p > 1] and a "next" button exactly when [p] is less than the number
    of pages, the least whole number of fives that holds [total] records.  The
    list the bot shows is the user's records in ascending order of
    [name_lower]. *)
Theorem list_keyboard_pagination (medicines : list medicine) (p : Z) (c : collection)
    (user_id : Z) :
  1 <= p ->
  let total := Z.of_nat (List.length medicines) in
  let rows := get_medicine_list_keyboard medicines p MEDS_PER_PAGE in
  List.length (record_buttons rows) = Z.to_nat (Z.max 0 (Z.min (p * 5) total - (p - 1) * 5))
  /\ (forall k : Z,
        (p - 1) * 5 + 1 <= k <= Z.min (p * 5) total ->
        record_buttons rows !! Z.to_nat (k - ((p - 1) * 5 + 1))
        = med_button <$> medicines !! Z.to_nat (k - 1))
  /\ existsb is_prev (concat rows) = (1 <? p)
  /\ (exists total_pages,
        5 * (total_pages - 1) < total <= 5 * total_pages
        /\ existsb is_next (concat rows) = (p <? total_pages))
  /\ StronglySorted (fun a b => str_le (name_lower a) (name_lower b))
                    (_get_user_medicines user_id c)
  /\ _get_user_medicines user_id c ≡ₚ List.filter (by_user user_id) c.
Proof.
  intros Hp. cbv zeta. split; [|split; [|split; [|split; [|split]]]].
  - rewrite records_of_keyboard by done.
    rewrite length_map, length_take, length_drop. lia.
  - intros k Hk. rewrite records_of_keyboard by done.
    assert (List.map med_button (take 5 (drop (Z.to_nat ((p - 1) * 5)) medicines))
            = med_button <$> take 5 (drop (Z.to_nat ((p - 1) * 5)) medicines)) as -> by done.
    rewrite list_lookup_fmap. f_equal.
    rewrite lookup_take_lt by lia. rewrite lookup_drop. f_equal. lia.
  - rewrite get_medicine_list_keyboard_shape by done. cbv zeta.
    rewrite concat_app, existsb_app.
    assert (forall items, existsb is_prev
              (concat match items with
                      | [] => [[BtnEmptyPage]]
                      | _ :: _ => List.map (fun med => [med_button med]) items
                      end) = false) as ->.
    { intros [|m items]; [done|]. by apply no_nav_in_records. }
    destruct (1 <? p), (1 <? _), (p <? _); reflexivity.
  - exists ((Z.of_nat (List.length medicines) + 5 - 1) / 5). split.
    + pose proof (Z.div_mod (Z.of_nat (List.length medicines) + 5 - 1) 5 ltac:(lia)).
      pose proof (Z.mod_pos_bound (Z.of_nat (List.length medicines) + 5 - 1) 5 ltac:(lia)).
      lia.
    + rewrite get_medicine_list_keyboard_shape by done. cbv zeta.
      rewrite concat_app, existsb_app.
      assert (forall items, existsb is_next
                (concat match items with
                        | [] => [[BtnEmptyPage]]
                        | _ :: _ => List.map (fun med => [med_button med]) items
                        end) = false) as ->.
      { intros [|m items]; [done|]. by apply no_nav_in_records. }
      destruct (1 <? p), (1 <? _), (p <? _); reflexivity.
  - apply (sort_by_key_sorted name_lower).
  - apply (sort_by_key_perm name_lower).
Qed.

(** ** Dates and their ISO strings *)

Lemma digit_compare (x y : Z) :
  (digit x ?= digit y)%N = (x mod 10 ?= y mod 10).
Proof.
  unfold digit.
  pose proof (Z.mod_pos_bound x 10 ltac:(lia)).
  pose proof (Z.mod_pos_bound y 10 ltac:(lia)).
  rewrite Z2N.inj_compare by lia. apply Z.add_compare_mono_l.
Qed.

Ltac compare_cases :=
  repeat match goal with
         | |- context [?a ?= ?b] =>
             lazymatch a with
             | context [_ mod 10] => destruct (Z.compare_spec a b)
             end
         end.

Lemma pad2_compare (a b : Z) :
  0 <= a <= 99 -> 0 <= b <= 99 -> str_compare (pad2 a) (pad2 b) = (a ?= b).
Proof.
  intros Ha Hb. unfold pad2. simpl. rewrite !digit_compare.
  compare_cases; symmetry;
    first [apply Z.compare_eq_iff|apply Z.compare_lt_iff|apply Z.compare_gt_iff];
    Z.to_euclidean_division_equations; lia.
Qed.

Lemma pad4_compare (a b : Z) :
  0 <= a <= 9999 -> 0 <= b <= 9999 -> str_compare (pad4 a) (pad4 b) = (a ?= b).
Proof.
  intros Ha Hb. unfold pad4. simpl. rewrite !digit_compare.
  compare_cases; symmetry;
    first [apply Z.compare_eq_iff|apply Z.compare_lt_iff|apply Z.compare_gt_iff];
    Z.to_euclidean_division_equations; lia.
Qed.

Lemma str_compare_app (a1 a2 b1 b2 : str) :
  List.length a1 = List.length a2 ->
  str_compare (a1 ++ b1) (a2 ++ b2)
  = match str_compare a1 a2 with Eq => str_compare b1 b2 | c => c end.
Proof.
  revert a2. induction a1 as [|x a1 IH]; intros [|y a2] Hlen; simpl in *; try done.
  destruct (x ?= y)%N; try done. apply IH. lia.
Qed.

Lemma valid_date_bounds (d : date) :
  valid_date d = true ->
  1 <= year d <= 9999 /\ 1 <= month d <= 12 /\ 1 <= day d <= days_in_month (year d) (month d).
Proof. unfold valid_date. intros H. repeat (apply andb_prop in H as [H ?]). lia. Qed.

Lemma days_in_month_le_31 (y m : Z) : 28 <= days_in_month y m <= 31.
Proof.
  unfold days_in_month. destruct (m =? 2); [destruct (is_leap y); lia|].
  destruct (_ || _); lia.
Qed.

(** The stored strings compare as the dates they print. *)
Lemma isoformat_compare (a b : date) :
  valid_date a = true -> valid_date b = true ->
  str_compare (isoformat a) (isoformat b) = date_compare a b.
Proof.
  intros [Hya [Hma Hda]]%valid_date_bounds [Hyb [Hmb Hdb]]%valid_date_bounds.
  pose proof (days_in_month_le_31 (year a) (month a)).
  pose proof (days_in_month_le_31 (year b) (month b)).
  unfold isoformat, date_compare.
  rewrite str_compare_app by done. rewrite pad4_compare by lia.
  destruct (year a ?= year b); try done.
  rewrite (str_compare_app [45%N] [45%N]) by done. simpl str_compare at 1.
  rewrite str_compare_app by done. rewrite pad2_compare by lia.
  destruct (month a ?= month b); try done.
  rewrite (str_compare_app [45%N] [45%N]) by done. simpl str_compare at 1.
  apply pad2_compare; lia.
Qed.

Lemma date_compare_key (a b : date) :
  valid_date a = true -> valid_date b = true ->
  date_compare a b = (date_key a ?= date_key b).
Proof.
  intros [Hya [Hma Hda]]%valid_date_bounds [Hyb [Hmb Hdb]]%valid_date_bounds.
  pose proof (days_in_month_le_31 (year a) (month a)).
  pose proof (days_in_month_le_31 (year b) (month b)).
  unfold date_compare, date_key.
  destruct (Z.compare_spec (year a) (year b));
    [destruct (Z.compare_spec (month a) (month b));
       [destruct (Z.compare_spec (day a) (day b))| |]| |];
    symmetry;
    first [apply Z.compare_eq_iff|apply Z.compare_lt_iff|apply Z.compare_gt_iff]; lia.
Qed.

Lemma date_leb_key (a b : date) :
  valid_date a = true -> valid_date b = true ->
  date_leb a b = true <-> date_key a <= date_key b.
Proof.
  intros Ha Hb. unfold date_leb. rewrite date_compare_key by done.
  destruct (Z.compare_spec (date_key a) (date_key b)); split; intros; try done; lia.
Qed.

Lemma date_ltb_key (a b : date) :
  valid_date a = true -> valid_date b = true ->
  date_ltb a b = true <-> date_key a < date_key b.
Proof.
  intros Ha Hb. unfold date_ltb. rewrite date_compare_key by done.
  destruct (Z.compare_spec (date_key a) (date_key b)); split; intros; try done; lia.
Qed.

Lemma str_leb_iso (a b : date) :
  valid_date a = true -> valid_date b = true ->
  str_leb (isoformat a) (isoformat b) = date_leb a b.
Proof. intros Ha Hb. unfold str_leb, date_leb. by rewrite isoformat_compare. Qed.

Lemma str_ltb_iso (a b : date) :
  valid_date a = true -> valid_date b = true ->
  str_ltb (isoformat a) (isoformat b) = date_ltb a b.
Proof. intros Ha Hb. unfold str_ltb, date_ltb. by rewrite isoformat_compare. Qed.

Lemma next_day_key (d : date) :
  valid_date d = true -> date_key d < date_key (next_day d).
Proof.
  intros [Hy [Hm Hd]]%valid_date_bounds.
  pose proof (days_in_month_le_31 (year d) (month d)).
  unfold next_day, date_key.
  destruct (Z.ltb_spec (day d) (days_in_month (year d) (month d))); simpl; [lia|].
  destruct (Z.ltb_spec (month d) 12); simpl; lia.
Qed.

Lemma add_days_key (n : nat) (d d' : date) :
  valid_date d = true -> add_days n d = Some d' ->
  valid_date d' = true /\ date_key d + Z.of_nat n <= date_key d'.
Proof.
  revert d. induction n as [|n IH]; intros d Hv; simpl.
  - intros [= <-]. split; [done|lia].
  - destruct (valid_date (next_day d)) eqn:Hv'; [|done]. intros Hadd.
    destruct (IH _ Hv' Hadd) as [Hvd Hk]. split; [done|].
    pose proof (next_day_key d Hv). lia.
Qed.

Lemma add_days_add (n k : nat) (d : date) :
  add_days (n + k) d = (add_days n d) ≫= add_days k.
Proof.
  revert d. induction n as [|n IH]; intros d; simpl; [done|].
  destruct (valid_date (next_day d)); [apply IH|done].
Qed.

(** Membership in the result of a sorted query. *)
Lemma elem_of_find_sorted (f : medicine -> bool) (key : medicine -> str) (c : collection)
    (m : medicine) :
  m ∈ find_sorted f key c <-> m ∈ c /\ f m = true.
Proof.
  unfold find_sorted. rewrite merge_sort_Permutation.
  rewrite list_elem_of_In, filter_In, <- list_elem_of_In. done.
Qed.

(** ** The daily reminder *)

Lemma sorted_by_expiry (l : list medicine) :
  StronglySorted (fun a b => str_le (exp_date a) (exp_date b)) l ->
  StronglySorted by_expiry l.
Proof.
  induction 1 as [|a l Hl IH Ha]; constructor; [done|].
  eapply Forall_impl; [exact Ha|]. intros b Hab da db Hda Hdb Ea Eb.
  rewrite Ea, Eb in Hab. apply str_leb_le in Hab. by rewrite str_leb_iso in Hab.
Qed.

Lemma query_soon_iso (today limit d : date) (user_id : Z) (m : medicine) :
  valid_date today = true -> valid_date limit = true -> valid_date d = true ->
  exp_date m = isoformat d ->
  query_soon (isoformat today) (isoformat limit) user_id m = true
  <-> added_by m = user_id /\ date_leb today d = true /\ date_leb d limit = true.
Proof.
  intros Ht Hl Hd He. unfold query_soon, by_user. rewrite He, !str_leb_iso by done.
  rewrite !andb_true_iff, bool_decide_eq_true. tauto.
Qed.

Lemma query_expired_iso (today d : date) (user_id : Z) (m : medicine) :
  valid_date today = true -> valid_date d = true -> exp_date m = isoformat d ->
  query_expired (isoformat today) user_id m = true
  <-> added_by m = user_id /\ date_ltb d today = true.
Proof.
  intros Ht Hd He. unfold query_expired, by_user. rewrite He, str_ltb_iso by done.
  rewrite andb_true_iff, bool_decide_eq_true. tauto.
Qed.

Lemma map_fst_filter_pairs {A B} (f : A -> B) (P : A * B -> bool) (l : list A) :
  List.map fst (List.filter P (List.map (fun a => (a, f a)) l))
  = List.filter (fun a => P (a, f a)) l.
Proof.
  induction l as [|a l IH]; simpl; [done|].
  destruct (P (a, f a)); simpl; by rewrite IH.
Qed.

Lemma NoDup_List_filter {A} (P : A -> bool) (l : list A) : NoDup l -> NoDup (List.filter P l).
Proof.
  induction 1 as [|a l Ha Hl IH]; simpl; [constructor|].
  destruct (P a); [|done]. constructor; [|done].
  intros Hin. apply Ha. apply list_elem_of_In in Hin. apply filter_In in Hin as [Hin _].
  by apply list_elem_of_In.
Qed.

(** A user with a document in one of the two sections is one of the users
    the sweep goes through. *)
Lemma digest_owner_distinct (today limit : date) (user_id : Z) (c : collection) :
  expiring_soon (user_digest today limit user_id c) <> []
  \/ expired (user_digest today limit user_id c) <> [] ->
  user_id ∈ distinct_added_by c.
Proof.
  assert (forall (f : medicine -> bool) l,
            (forall m, f m = true -> by_user user_id m = true) ->
            find_sorted f exp_date c = l -> l <> [] -> user_id ∈ distinct_added_by c) as H.
  { intros f l Hf Hl Hne. destruct l as [|m l]; [done|].
    assert (m ∈ find_sorted f exp_date c) as Hm by (rewrite Hl; left).
    apply elem_of_find_sorted in Hm as [Hm Hq]. apply Hf in Hq.
    unfold by_user in Hq. apply bool_decide_eq_true in Hq as <-.
    unfold distinct_added_by. apply elem_of_remove_dups. by apply elem_of_map_2. }
  unfold user_digest. cbn [expiring_soon expired]. intros [Hne|Hne].
  - eapply H; [|reflexivity|exact Hne]. intros m Hq. unfold query_soon in Hq.
    apply andb_prop in Hq as [Hq _]. by apply andb_prop in Hq as [Hq _].
  - eapply H; [|reflexivity|exact Hne]. intros m Hq. unfold query_expired in Hq.
    by apply andb_prop in Hq as [Hq _].
Qed.

(** C5.  For every collection and user, on a day [today] whose thirtieth
    successor is [limit]: a document with an ISO expiry date is listed under
    "expiring soon" exactly when it is the user's and its date lies between
    [today] and [limit], both included, and under "expired" exactly when it is
    the user's and its date is before [today]; both sections are in ascending
    order of date and list each stored document once.  So the user's documents
    dated today and today+29 are expiring soon, one dated yesterday is
    expired and not expiring soon, and one dated today+31 is in neither
    section.  [daily_reminder] sends exactly these digests: one to every user
    for whom one of the two sections is not empty, and nothing else. *)
Theorem reminder_sections (today limit : date) (user_id : Z) (c : collection) :
  valid_date today = true ->
  add_days 30 today = Some limit ->
  let dg := user_digest today limit user_id c in
  (forall m d, valid_date d = true -> exp_date m = isoformat d ->
     (m ∈ expiring_soon dg
      <-> m ∈ c /\ added_by m = user_id /\ date_leb today d = true /\ date_leb d limit = true)
     /\ (m ∈ expired dg <-> m ∈ c /\ added_by m = user_id /\ date_ltb d today = true))
  /\ StronglySorted by_expiry (expiring_soon dg)
  /\ StronglySorted by_expiry (expired dg)
  /\ expiring_soon dg
     ≡ₚ List.filter (query_soon (isoformat today) (isoformat limit) user_id) c
  /\ expired dg ≡ₚ List.filter (query_expired (isoformat today) user_id) c
  /\ (forall m, m ∈ c -> added_by m = user_id ->
        (exp_date m = isoformat today -> m ∈ expiring_soon dg)
        /\ (forall d29, add_days 29 today = Some d29 -> exp_date m = isoformat d29 ->
              m ∈ expiring_soon dg)
        /\ (forall yesterday, valid_date yesterday = true ->
              add_days 1 yesterday = Some today -> exp_date m = isoformat yesterday ->
              m ∈ expired dg /\ (m ∉ expiring_soon dg))
        /\ (forall d31, add_days 31 today = Some d31 -> exp_date m = isoformat d31 ->
              (m ∉ expiring_soon dg) /\ (m ∉ expired dg)))
  /\ (exists sent, daily_reminder today c = inr sent
        /\ NoDup (List.map fst sent)
        /\ forall u d, (u, d) ∈ sent
             <-> d = user_digest today limit u c
                 /\ (expiring_soon d <> [] \/ expired d <> [])).
Proof.
  intros Ht Hlimit. cbv zeta.
  destruct (add_days_key 30 today limit Ht Hlimit) as [Hl Hkl].
  assert (forall m d, valid_date d = true -> exp_date m = isoformat d ->
     (m ∈ expiring_soon (user_digest today limit user_id c)
      <-> m ∈ c /\ added_by m = user_id /\ date_leb today d = true /\ date_leb d limit = true)
     /\ (m ∈ expired (user_digest today limit user_id c)
         <-> m ∈ c /\ added_by m = user_id /\ date_ltb d today = true)) as Hiff.
  { intros m d Hd He. unfold user_digest. simpl. rewrite !elem_of_find_sorted.
    rewrite (query_soon_iso today limit d) by done.
    rewrite (query_expired_iso today d) by done. tauto. }
  split; [exact Hiff|].
  split; [apply sorted_by_expiry, (sort_by_key_sorted exp_date)|].
  split; [apply sorted_by_expiry, (sort_by_key_sorted exp_date)|].
  split; [apply (sort_by_key_perm exp_date)|].
  split; [apply (sort_by_key_perm exp_date)|].
  split.
  - intros m Hm Hu. split; [|split; [|split]].
    + intros He. apply (Hiff m today Ht He). repeat split; try done.
      * apply date_leb_key; [done..|lia].
      * apply date_leb_key; [done..|lia].
    + intros d29 H29 He.
      destruct (add_days_key 29 today d29 Ht H29) as [Hv29 Hk29].
      apply (Hiff m d29 Hv29 He). repeat split; try done.
      * apply date_leb_key; [done..|lia].
      * pose proof (add_days_add 29 1 today) as Hadd. simpl Nat.add in Hadd.
        rewrite Hlimit, H29 in Hadd. simpl in Hadd. symmetry in Hadd.
        destruct (add_days_key 1 d29 limit Hv29 Hadd) as [_ Hk].
        apply date_leb_key; [done..|lia].
    + intros yesterday Hvy Hy He.
      destruct (add_days_key 1 yesterday today Hvy Hy) as [_ Hk]. split.
      * apply (Hiff m yesterday Hvy He). repeat split; try done.
        apply date_ltb_key; [done..|lia].
      * intros [_ (_ & Hge & _)]%(Hiff m yesterday Hvy He).
        apply date_leb_key in Hge; [lia|done..].
    + intros d31 H31 He.
      destruct (add_days_key 31 today d31 Ht H31) as [Hv31 Hk31]. split.
      * intros [_ (_ & _ & Hle)]%(Hiff m d31 Hv31 He).
        pose proof (add_days_add 30 1 today) as Hadd. simpl Nat.add in Hadd.
        rewrite Hlimit, H31 in Hadd. simpl in Hadd. symmetry in Hadd.
        destruct (add_days_key 1 limit d31 Hl Hadd) as [_ Hk].
        apply date_leb_key in Hle; [lia|done..].
      * intros [_ (_ & Hlt)]%(Hiff m d31 Hv31 He).
        apply date_ltb_key in Hlt; [lia|done..].
  - unfold daily_reminder. rewrite Hlimit. eexists. split; [reflexivity|].
    set (P := fun ud : Z * digest =>
                negb (bool_decide (expiring_soon ud.2 = []))
                || negb (bool_decide (expired ud.2 = []))).
    assert (forall u d, P (u, d) = true <-> expiring_soon d <> [] \/ expired d <> []) as HP.
    { intros u d. unfold P. cbn [snd].
      rewrite orb_true_iff, !negb_true_iff, !bool_decide_eq_false. tauto. }
    split.
    + rewrite map_fst_filter_pairs. apply NoDup_List_filter.
      unfold distinct_added_by. apply NoDup_remove_dups.
    + intros u d. rewrite list_elem_of_In, filter_In, in_map_iff, HP. split.
      * intros [(u' & [= <- <-] & _) Hne]. done.
      * intros [-> Hne]. split; [|done]. exists u. split; [done|].
        apply list_elem_of_In. by apply (digest_owner_distinct today limit).
Qed.

(** ** Transliteration and the inline search *)

(** No value of either dictionary contains a character that is a key of the
    same dictionary. *)
Lemma ru_en_values_free : map_Forall (fun _ v => free_of ru_en v = true) ru_en.
Proof. refine (bool_decide_unpack _ _). vm_compute. exact I. Qed.

Lemma en_ru_values_free : map_Forall (fun _ v => free_of en_ru v = true) en_ru.
Proof. refine (bool_decide_unpack _ _). vm_compute. exact I. Qed.

Lemma free_of_app (dic : gmap str str) (a b : str) :
  free_of dic (a ++ b) = free_of dic a && free_of dic b.
Proof. unfold free_of. apply forallb_app. Qed.

Lemma translate_free (dic : gmap str str) (text : str) :
  map_Forall (fun _ v => free_of dic v = true) dic ->
  free_of dic (translate dic text) = true.
Proof.
  intros Hvalues. unfold translate.
  induction text as [|c text IH]; simpl; [done|].
  rewrite free_of_app, IH, andb_true_r.
  unfold dict_get. destruct (dic !! [c]) as [v|] eqn:Hc; cbn [default].
  - by apply (Hvalues [c]).
  - unfold free_of, in_dict. cbn [forallb]. rewrite Hc.
    rewrite bool_decide_eq_false_2; [done|]. by intros [? ?].
Qed.

Lemma free_of_no_script (dic : gmap str str) (s : str) :
  free_of dic s = true -> existsb (in_dict dic) s = false.
Proof.
  unfold free_of. induction s as [|c s IH]; simpl; [done|].
  intros [Hc Hs]%andb_prop. rewrite (IH Hs). by destruct (in_dict dic c).
Qed.

Lemma translate_ru_changes (text : str) :
  is_ru text = true -> translate ru_en text <> text.
Proof.
  intros Hru Heq.
  pose proof (translate_free ru_en text ru_en_values_free) as Hfree.
  rewrite Heq in Hfree. apply free_of_no_script in Hfree.
  unfold is_ru in Hru. rewrite Hfree in Hru. discriminate.
Qed.

Lemma translate_en_changes (text : str) :
  is_en text = true -> translate en_ru (digraphs text) <> text.
Proof.
  intros Hen Heq.
  pose proof (translate_free en_ru (digraphs text) en_ru_values_free) as Hfree.
  rewrite Heq in Hfree. apply free_of_no_script in Hfree.
  unfold is_en in Hen. rewrite Hfree in Hen. discriminate.
Qed.

Lemma transliterate_changes (text : str) :
  is_ru text <> is_en text -> transliterate text <> text.
Proof.
  intros Hne. unfold transliterate.
  destruct (is_ru text) eqn:Hru; destruct (is_en text) eqn:Hen; try done;
    cbn [andb negb].
  - by apply translate_ru_changes.
  - by apply translate_en_changes.
Qed.

Lemma transliterate_same (text : str) :
  is_ru text = is_en text -> transliterate text = text.
Proof.
  intros Heq. unfold transliterate. rewrite Heq. by destruct (is_en text).
Qed.

Lemma search_conditions_match (q : str) (field : str) :
  existsb (fun p => regex_i p field) (search_conditions q) = true
  <-> regex_i q field = true \/ regex_i (transliterate q) field = true.
Proof.
  unfold search_conditions. case_bool_decide as Ht; simpl.
  - rewrite orb_false_r, orb_true_iff. done.
  - rewrite orb_false_r, Ht. tauto.
Qed.

(** C2, as the code has it.  The lower-cased query gets a second candidate
    exactly when it contains characters of one of the two alphabets of the
    transliteration table and none of the other: then the transliteration
    differs from the query and both are searched.  A query that mixes the two
    alphabets, or has characters of neither, is returned unchanged by
    [transliterate] and is searched alone.  The search returns, in ascending
    order of [name_lower] and by pages of 20, the requesting user's documents
    whose [name_lower] contains the query or its transliteration, letter case
    ignored. *)
Theorem inline_search_candidates (query : str) (user_id : Z) (offset : nat) (c : collection) :
  let q := lower (strip query) in
  let t := transliterate q in
  (is_ru q <> is_en q -> t <> q /\ search_conditions q = [q; t])
  /\ (is_ru q = is_en q -> t = q /\ search_conditions q = [q])
  /\ (strip query <> [] ->
      exists found,
        inline_search_handler query user_id offset c
        = AnswerResults (take 20 (drop offset found))
            (if (List.length (take 20 (drop offset found)) =? 20)%nat
             then Some (offset + 20)%nat else None)
        /\ StronglySorted (fun a b => str_le (name_lower a) (name_lower b)) found
        /\ forall m,
             m ∈ found
             <-> m ∈ c /\ added_by m = user_id
                 /\ (regex_i q (name_lower m) = true \/ regex_i t (name_lower m) = true)).
Proof.
  cbv zeta. split; [|split].
  - intros Hne. pose proof (transliterate_changes _ Hne) as Hch. split; [done|].
    unfold search_conditions. by rewrite bool_decide_eq_true_2.
  - intros Heq. pose proof (transliterate_same _ Heq) as Hsame. split; [done|].
    unfold search_conditions. rewrite bool_decide_eq_false_2; [done|]. by intros ?.
  - intros Hne.
    exists (find_sorted (db_query user_id (search_conditions (lower (strip query))))
                        name_lower c).
    split; [|split].
    + unfold inline_search_handler. cbv zeta.
      destruct (strip query) as [|x s] eqn:Hs; [done|]. reflexivity.
    + apply (sort_by_key_sorted name_lower).
    + intros m. rewrite elem_of_find_sorted. unfold db_query, by_user.
      rewrite andb_true_iff, bool_decide_eq_true, search_conditions_match. tauto.
Qed.

(** A query that mixes the alphabets (a Latin a followed by Cyrillic letters)
    has no second candidate, and does not find the all-Cyrillic name. *)
Lemma mixed_script_query_searched_alone :
  is_ru (u "a" ++ u "спирин") = true
  /\ is_en (u "a" ++ u "спирин") = true
  /\ lower (u "a" ++ u "спирин") = u "a" ++ u "спирин"
  /\ transliterate (u "a" ++ u "спирин") = u "a" ++ u "спирин"
  /\ search_conditions (u "a" ++ u "спирин") = [u "a" ++ u "спирин"]
  /\ inline_search_handler (u "a" ++ u "спирин") 1 0
       [Medicine 1 (u "Аспирин") (u "аспирин") (u "10 шт") (u "-") (u "2030-01-01") 1]
     = AnswerResults [] None.
Proof. vm_compute. repeat split; reflexivity. Qed.

(** ** Saving an edited field *)

Lemma view_medicine_details_found (E : env) (med_id : value) (user_id : Z)
    (chat_id message_id inline_message_id : value) (w : world) (oid : N) (m : medicine) :
  ObjectId_of med_id = Some oid ->
  find_one (by_id oid user_id) (med_collection w) = Some m ->
  (truthy chat_id && truthy message_id) || truthy inline_message_id = true ->
  exists rest,
    view_medicine_details E med_id user_id chat_id message_id inline_message_id w
    = (inr tt,
       add_calls (edit_message_text (edit_target chat_id message_id inline_message_id)
                    (TxtDetails m)
                    (Some (medicine_details_keyboard med_id (truthy inline_message_id)))
                  :: rest) w).
Proof.
  intros Hid Hfind Hbound.
  destruct (view_medicine_details E med_id user_id chat_id message_id inline_message_id w)
    as [r w'] eqn:Hrun.
  unfold view_medicine_details in Hrun. rewrite Hid in Hrun.
  assert (negb (truthy chat_id && truthy message_id) && negb (truthy inline_message_id)
          = false) as Hnb.
  { destruct (truthy chat_id && truthy message_id), (truthy inline_message_id); done. }
  rewrite Hnb in Hrun. mrun Hrun. rewrite Hfind in Hrun. mrun Hrun.
  run_safe_edit_in Hrun b cs Hcs. mrun Hrun. simplify_eq.
  destruct (Hcs Hbound) as [rest ->]. by exists rest.
Qed.

Lemma find_replace_first (f : medicine -> bool) (m m' : medicine) (c : collection) :
  find_one f c = Some m -> f m' = true -> find_one f (replace_first f m' c) = Some m'.
Proof.
  unfold find_one. induction c as [|a c IH]; simpl; [done|].
  destruct (f a) eqn:Hfa; simpl.
  - intros _ Hm'. by rewrite Hm'.
  - intros Hfind Hm'. rewrite Hfa. by apply IH.
Qed.

(** The three results of [update_one]. *)
Lemma update_one_result (f : medicine -> bool) (upd : gmap str value) (c c' : collection)
    (r : update_result) :
  update_one f upd c = inr (r, c') ->
  (find_one f c = None /\ r = UpdateResult 0 0 /\ c' = c)
  \/ (exists m, find_one f c = Some m /\ apply_set upd m = Some m
                /\ r = UpdateResult 1 0 /\ c' = c)
  \/ (exists m m', find_one f c = Some m /\ apply_set upd m = Some m' /\ m' <> m
                   /\ r = UpdateResult 1 1 /\ c' = replace_first f m' c).
Proof.
  unfold update_one. destruct (find_one f c) as [m|] eqn:Hfind.
  - destruct (apply_set upd m) as [m'|] eqn:Hset; [|done].
    case_bool_decide as Hsame.
    + intros [= <- <-]. right. left. exists m. by subst.
    + case_bool_decide; [done|]. intros [= <- <-]. right. right. by exists m, m'.
  - intros [= <- <-]. by left.
Qed.

Lemma by_id_apply_set (oid : N) (user_id : Z) (upd : gmap str value) (m m' : medicine) :
  by_id oid user_id m = true -> apply_set upd m = Some m' -> by_id oid user_id m' = true.
Proof.
  intros Hm [Hid Hu]%apply_set_id. unfold by_id in *. by rewrite Hid, Hu.
Qed.

(** The run of [_save_edited_medicine] once the record has been found and
    [update_one] has answered. *)
Lemma _save_edited_medicine_run (E : env) (user_id : Z) (med_id field_to_edit new_value : value)
    (update_data_dict upd : gmap str value) (chat_id message_id inline_message_id : value)
    (w : world) (oid : N) (current_med : medicine) (r : update_result) (c' : collection) :
  ObjectId_of med_id = Some oid ->
  find_one (by_id oid user_id) (med_collection w) = Some current_med ->
  completed_update field_to_edit new_value update_data_dict = Some upd ->
  upd <> ∅ ->
  update_one (by_id oid user_id) upd (concurrent E (med_collection w)) = inr (r, c') ->
  (truthy chat_id && truthy message_id) || truthy inline_message_id = true ->
  let target := edit_target chat_id message_id inline_message_id in
  exists cs,
    _save_edited_medicine E user_id med_id field_to_edit new_value update_data_dict
      chat_id message_id inline_message_id w
    = (inr tt, World c' None ∅ (calls w ++ cs))
    /\ (matched_count r = 0%nat ->
        exists cs1 cs2,
          cs = logger LogNotFoundForUpdate :: cs1 ++ sleep 2 :: cs2
          /\ (exists rest, cs1 = edit_message_text target TxtUpdateNotFound None :: rest)
          /\ (exists t kb rest,
                cs2 = edit_message_text target t (Some kb) :: rest
                /\ (if truthy inline_message_id then t = TxtMainMenu
                    else is_list_text t = true))
          /\ Forall (fun c => shows_details c = false) cs)
    /\ (matched_count r <> 0%nat ->
        exists m' rest,
          find_one (by_id oid user_id) c' = Some m'
          /\ cs = logger (if (modified_count r =? 0)%nat then LogMatchedNotModified
                          else LogUpdated)
                  :: edit_message_text target (TxtDetails m')
                       (Some (medicine_details_keyboard med_id (truthy inline_message_id)))
                  :: rest).
Proof.
  intros Hid Hfind Hcompl Hne Hupd Hbound. cbv zeta.
  destruct (_save_edited_medicine E user_id med_id field_to_edit new_value update_data_dict
              chat_id message_id inline_message_id w) as [res w'] eqn:Hrun.
  unfold _save_edited_medicine in Hrun. rewrite Hid in Hrun. mrun Hrun.
  rewrite Hfind in Hrun. mrun Hrun. rewrite Hcompl in Hrun.
  rewrite bool_decide_eq_false_2 in Hrun by (by intros [= ?]).
  mrun Hrun. unfold db_update_one in Hrun. mrun Hrun. rewrite Hupd in Hrun. mrun Hrun.
  apply update_one_result in Hupd
    as [(Hnone & -> & ->)|[(m & Hm & Hset & -> & ->)|(m & m' & Hm & Hset & Hdiff & -> & ->)]];
    cbn [matched_count modified_count Nat.eqb] in Hrun |- *; mrun Hrun.
  - destruct (truthy inline_message_id) eqn:Hi; mrun Hrun.
    + run_safe_edit_in Hrun b cs1 Hcs1. mrun Hrun.
      run_main_menu_in Hrun cs2 Hcs2. simplify_eq.
      rewrite Hi, orb_true_r in Hcs1, Hcs2.
      destruct (Hcs1 eq_refl) as [rest1 Hrest1]. destruct (Hcs2 eq_refl) as [rest2 Hrest2].
      exists (logger LogNotFoundForUpdate :: cs1 ++ sleep 2 :: cs2).
      split; [|split; [|done]].
      * unfold add_calls. simpl. f_equal. f_equal.
        repeat rewrite <- app_assoc. reflexivity.
      * intros _. exists cs1, cs2. split; [done|].
        rewrite !edit_target_inline in * by done.
        split; [by exists rest1|]. split; [by exists TxtMainMenu, main_menu_keyboard, rest2|].
        constructor; [done|]. apply Forall_app. split.
        -- by apply (texts_no_details TxtUpdateNotFound).
        -- by constructor.
    + rewrite orb_false_r in Hbound. rewrite Hbound in Hrun. mrun Hrun.
      run_safe_edit_in Hrun b cs1 Hcs1. mrun Hrun.
      run_show_list_in Hrun cs2. simplify_eq.
      rewrite orb_false_r in Hcs1.
      destruct (Hcs1 Hbound) as [rest1 Hrest1].
      destruct (Hfirst Hbound) as (t & kb & rest2 & Hrest2 & Ht).
      exists (logger LogNotFoundForUpdate :: cs1 ++ sleep 2 :: cs2).
      split; [|split; [|done]].
      * unfold add_calls. simpl. f_equal. f_equal.
        repeat rewrite <- app_assoc. reflexivity.
      * intros _. exists cs1, cs2. split; [done|].
        unfold edit_target in *. rewrite Hi. simpl in Hrest1.
        split; [by exists rest1|]. split; [by exists t, kb, rest2|].
        constructor; [done|]. apply Forall_app. split.
        -- by apply (texts_no_details TxtUpdateNotFound).
        -- by constructor.
  - destruct (view_medicine_details_found E med_id user_id chat_id message_id
                inline_message_id
                (add_calls [logger LogMatchedNotModified]
                   (World (concurrent E (med_collection w)) None ∅ (calls w)))
                oid m Hid Hm Hbound) as [rest Hview].
    cbn [add_calls med_collection state data calls] in Hview.
    rewrite Hview in Hrun. simplify_eq.
    eexists. split; [|split; [done|]].
    + unfold add_calls. simpl. f_equal. f_equal. rewrite <- app_assoc. reflexivity.
    + intros _. by exists m, rest.
  - assert (find_one (by_id oid user_id)
              (replace_first (by_id oid user_id) m' (concurrent E (med_collection w)))
            = Some m') as Hm'.
    { apply (find_replace_first _ m); [done|].
      apply find_one_Some in Hm as [_ Hby]. by apply (by_id_apply_set _ _ upd m). }
    destruct (view_medicine_details_found E med_id user_id chat_id message_id
                inline_message_id
                (add_calls [logger LogUpdated]
                   (World (replace_first (by_id oid user_id) m'
                             (concurrent E (med_collection w))) None ∅ (calls w)))
                oid m' Hid Hm' Hbound) as [rest Hview].
    cbn [add_calls med_collection state data calls] in Hview.
    rewrite Hview in Hrun. simplify_eq.
    eexists. split; [|split; [done|]].
    + unfold add_calls. simpl. f_equal. f_equal. rewrite <- app_assoc. reflexivity.
    + intros _. by exists m', rest.
Qed.

Lemma stored_value_key (m : medicine) (k : str) (v : value) :
  stored_value m k = Some v -> k ∈ set_keys.
Proof.
  unfold stored_value, set_keys.
  repeat (case_bool_decide; [subst k; intros _; set_solver|]). done.
Qed.

Lemma str_of_stored (upd : gmap str value) (m : medicine) (k : str) (old : str) :
  map_Forall (fun k v => stored_value m k = Some v) upd ->
  stored_value m k = Some (VStr old) ->
  str_of (upd !! k) old = Some old.
Proof.
  intros Hall Hk. destruct (upd !! k) as [v|] eqn:Hv; [|done].
  apply Hall in Hv. rewrite Hk in Hv. by injection Hv as <-.
Qed.

(** A [$set] of the values a document already stores leaves it as it is. *)
Lemma apply_set_same (upd : gmap str value) (m : medicine) :
  map_Forall (fun k v => stored_value m k = Some v) upd -> apply_set upd m = Some m.
Proof.
  intros Hall. unfold apply_set. rewrite bool_decide_eq_true_2.
  - rewrite !(str_of_stored upd m) by done. simpl. by destruct m.
  - intros k [v Hv]%elem_of_dom. apply Hall in Hv.
    apply elem_of_list_to_set. by apply (stored_value_key m k v).
Qed.

Lemma update_one_same (f : medicine -> bool) (upd : gmap str value) (c : collection)
    (m : medicine) :
  find_one f c = Some m ->
  map_Forall (fun k v => stored_value m k = Some v) upd ->
  update_one f upd c = inr (UpdateResult 1 0, c).
Proof.
  intros Hfind Hall. unfold update_one. rewrite Hfind, (apply_set_same upd m Hall).
  by rewrite bool_decide_eq_true_2.
Qed.

(** The validation only reads the collection. *)
Lemma validate_new_value_world (E : env) (field_to_edit med_id : value) (user_id : Z)
    (new_value_str : str) (w : world) :
  (validate_new_value E field_to_edit med_id user_id new_value_str w).2 = w.
Proof.
  unfold validate_new_value, ret, raise, bind, db_read.
  repeat case_bool_decide.
  - destruct (negb _); [done|]. destruct (ObjectId_of med_id); [|done].
    by destruct (find_one _ _).
  - by destruct (negb _).
  - by destruct (negb _).
  - destruct (strptime _); [|done]. by destruct (date_ltb _ _).
  - done.
Qed.

(** What the validation hands over: for a field of the edit flow a
    dictionary that is not empty, which the head of [_save_edited_medicine]
    leaves as it is. *)
Lemma validated_update (E : env) (field_to_edit med_id : value) (user_id : Z)
    (new_value_str : str) (w : world) (upd : gmap str value) (v : value) :
  (validate_new_value E field_to_edit med_id user_id new_value_str w).1 = inr (inr (upd, v)) ->
  completed_update field_to_edit v upd = Some upd
  /\ (field_to_edit ∈ edit_fields -> upd <> ∅).
Proof.
  unfold validate_new_value, ret, raise, bind, db_read.
  case_bool_decide as Hname; [|case_bool_decide as Hq; [|case_bool_decide as Hn;
    [|case_bool_decide as He]]]; subst.
  - destruct (negb _); [done|]. destruct (ObjectId_of med_id); [|done].
    destruct (find_one _ _); [done|]. simpl. intros [= <- <-]. split.
    + unfold completed_update. rewrite bool_decide_eq_false_2; [done|].
      rewrite lookup_insert_ne by done. by rewrite lookup_insert_eq.
    + intros _. apply insert_non_empty.
  - destruct (negb _); [done|]. simpl. intros [= <- <-]. split.
    + unfold completed_update. rewrite bool_decide_eq_false_2; [done|].
      by rewrite lookup_insert_eq.
    + intros _. apply insert_non_empty.
  - destruct (negb _); [done|]. simpl. intros [= <- <-]. split.
    + unfold completed_update. rewrite bool_decide_eq_false_2; [done|].
      by rewrite lookup_insert_eq.
    + intros _. apply insert_non_empty.
  - destruct (strptime _) as [dt|]; [|done]. destruct (date_ltb _ _); [done|].
    simpl. intros [= <- <-]. split.
    + unfold completed_update. simpl. by rewrite insert_insert_eq.
    + intros _. apply insert_non_empty.
  - simpl. intros [= <- <-]. split.
    + by destruct field_to_edit.
    + unfold edit_fields. intros Hin.
      repeat (apply elem_of_cons in Hin as [->|Hin]; [done|]).
      by apply elem_of_nil in Hin.
Qed.

(** After a successful validation [process_new_value_text] deletes the
    user's message and calls [_save_edited_medicine] with the validated
    value, on the message the conversation is bound to. *)
Lemma process_new_value_text_validated (E : env) (message_text : str) (user_id : Z) (w : world)
    (upd : gmap str value) (v : value) :
  let d := data w in
  let message_id := py_or (get d "calendar_message_id") (get d "prompt_message_id") in
  forallb truthy [get d "med_id"; get d "med_name"; get d "field_to_edit"] = true ->
  truthy (get d "prompt_chat_id") && truthy message_id || truthy (get d "inline_message_id")
  = true ->
  (validate_new_value E (get d "field_to_edit") (get d "med_id") user_id (strip message_text)
     w).1 = inr (inr (upd, v)) ->
  process_new_value_text E message_text user_id w
  = _save_edited_medicine E user_id (get d "med_id") (get d "field_to_edit") v upd
      (get d "prompt_chat_id") message_id (get d "inline_message_id")
      (add_calls [message_delete] w).
Proof.
  cbv zeta. intros Hall Hbound Hval.
  pose proof (validate_new_value_world E (get (data w) "field_to_edit") (get (data w) "med_id")
                user_id (strip message_text) w) as Hw.
  unfold process_new_value_text. rewrite bind_run. unfold get_data. cbv beta iota.
  rewrite Hall, Hbound. cbn [negb orb]. rewrite bind_run.
  destruct (validate_new_value E _ _ user_id (strip message_text) w) as [res w'].
  simpl in Hw, Hval. subst w' res. cbv beta iota.
  rewrite bind_run, emit_run. reflexivity.
Qed.

(** C3, as the code has it.  After a successful validation
    [process_new_value_text] hands the validated value to
    [_save_edited_medicine], with a dictionary that is not empty when the
    field is one of the edit flow.  When the record was there at the lookup,
    [_save_edited_medicine] calls [update_one] and clears the conversation
    context whatever the outcome.  When the update matched the record
    (changed or not), the record's detail view is rendered on the bound
    message.  When it matched nothing, the error text is rendered on the
    bound message, and after it the main menu (inline message) or the user's
    list (ordinary message); no detail view is rendered. *)
Theorem edited_value_saved (E : env) (user_id : Z) (med_id field_to_edit new_value : value)
    (update_data_dict upd : gmap str value) (chat_id message_id inline_message_id : value)
    (w : world) (oid : N) (current_med : medicine) (r : update_result) (c' : collection) :
  (forall (message_text : str) (w0 : world) (upd0 : gmap str value) (v : value),
     let d := data w0 in
     let message_id := py_or (get d "calendar_message_id") (get d "prompt_message_id") in
     forallb truthy [get d "med_id"; get d "med_name"; get d "field_to_edit"] = true ->
     truthy (get d "prompt_chat_id") && truthy message_id || truthy (get d "inline_message_id")
     = true ->
     (validate_new_value E (get d "field_to_edit") (get d "med_id") user_id
        (strip message_text) w0).1 = inr (inr (upd0, v)) ->
     process_new_value_text E message_text user_id w0
     = _save_edited_medicine E user_id (get d "med_id") (get d "field_to_edit") v upd0
         (get d "prompt_chat_id") message_id (get d "inline_message_id")
         (add_calls [message_delete] w0)
     /\ completed_update (get d "field_to_edit") v upd0 = Some upd0
     /\ (get d "field_to_edit" ∈ edit_fields -> upd0 <> ∅))
  /\ (ObjectId_of med_id = Some oid ->
      find_one (by_id oid user_id) (med_collection w) = Some current_med ->
      completed_update field_to_edit new_value update_data_dict = Some upd ->
      upd <> ∅ ->
      update_one (by_id oid user_id) upd (concurrent E (med_collection w)) = inr (r, c') ->
      (truthy chat_id && truthy message_id) || truthy inline_message_id = true ->
      let res := _save_edited_medicine E user_id med_id field_to_edit new_value
                   update_data_dict chat_id message_id inline_message_id w in
      let target := edit_target chat_id message_id inline_message_id in
      res.1 = inr tt /\ med_collection res.2 = c' /\ state res.2 = None /\ data res.2 = ∅
      /\ exists cs,
           calls res.2 = calls w ++ cs
           /\ (matched_count r = 0%nat ->
               exists cs1 cs2,
                 cs = logger LogNotFoundForUpdate :: cs1 ++ sleep 2 :: cs2
                 /\ (exists rest, cs1 = edit_message_text target TxtUpdateNotFound None :: rest)
                 /\ (exists t kb rest,
                       cs2 = edit_message_text target t (Some kb) :: rest
                       /\ (if truthy inline_message_id then t = TxtMainMenu
                           else is_list_text t = true))
                 /\ Forall (fun c => shows_details c = false) cs)
           /\ (matched_count r <> 0%nat ->
               exists m' rest,
                 find_one (by_id oid user_id) c' = Some m'
                 /\ cs = logger (if (modified_count r =? 0)%nat then LogMatchedNotModified
                                 else LogUpdated)
                         :: edit_message_text target (TxtDetails m')
                              (Some (medicine_details_keyboard med_id
                                       (truthy inline_message_id)))
                         :: rest)).
Proof.
  split.
  - intros message_text w0 upd0 v d message_id0 Hall Hbound Hval.
    split; [by apply process_new_value_text_validated|].
    by apply (validated_update E _ (get d "med_id") user_id (strip message_text) w0).
  - intros Hid Hfind Hcompl Hne Hupd Hbound. cbv zeta.
    destruct (_save_edited_medicine_run E user_id med_id field_to_edit new_value
                update_data_dict upd chat_id message_id inline_message_id w oid current_med
                r c' Hid Hfind Hcompl Hne Hupd Hbound) as (cs & -> & H0 & H1).
    simpl. repeat split; try done. by exists cs.
Qed.

(** C8.  An edit whose validated values are the ones the record already
    stores is no error: [update_one] matches the record and changes nothing,
    the handler does not change the collection, logs that nothing was
    modified, clears the conversation context and renders the record's
    detail view on the bound message. *)
Theorem same_value_edit_is_no_change (E : env) (user_id : Z)
    (med_id field_to_edit new_value : value) (update_data_dict upd : gmap str value)
    (chat_id message_id inline_message_id : value) (w : world) (oid : N)
    (current_med m : medicine) :
  ObjectId_of med_id = Some oid ->
  find_one (by_id oid user_id) (med_collection w) = Some current_med ->
  find_one (by_id oid user_id) (concurrent E (med_collection w)) = Some m ->
  completed_update field_to_edit new_value update_data_dict = Some upd ->
  upd <> ∅ ->
  map_Forall (fun k v => stored_value m k = Some v) upd ->
  (truthy chat_id && truthy message_id) || truthy inline_message_id = true ->
  let res := _save_edited_medicine E user_id med_id field_to_edit new_value update_data_dict
               chat_id message_id inline_message_id w in
  update_one (by_id oid user_id) upd (concurrent E (med_collection w))
  = inr (UpdateResult 1 0, concurrent E (med_collection w))
  /\ res.1 = inr tt
  /\ med_collection res.2 = concurrent E (med_collection w)
  /\ state res.2 = None /\ data res.2 = ∅
  /\ exists rest,
       calls res.2
       = calls w ++ logger LogMatchedNotModified
                 :: edit_message_text (edit_target chat_id message_id inline_message_id)
                      (TxtDetails m)
                      (Some (medicine_details_keyboard med_id (truthy inline_message_id)))
                 :: rest.
Proof.
  intros Hid Hfind Hm Hcompl Hne Hsame Hbound. cbv zeta.
  pose proof (update_one_same _ upd _ m Hm Hsame) as Hupd.
  destruct (_save_edited_medicine_run E user_id med_id field_to_edit new_value
              update_data_dict upd chat_id message_id inline_message_id w oid current_med
              _ _ Hid Hfind Hcompl Hne Hupd Hbound) as (cs & -> & _ & H1).
  destruct H1 as (m' & rest & Hm' & ->); [done|].
  rewrite Hm in Hm'. injection Hm' as <-. simpl.
  repeat split; try done. by exists rest.
Qed.

(** ** The properties at concrete inputs *)

Lemma reachable_aspirin : reachable [aspirin].
Proof. apply rtc_once. by apply (write_insert aspirin_doc). Qed.

Lemma unique_owner_and_name_witness :
  reachable [aspirin] /\ insert_one aspirin_doc [aspirin] = inl DuplicateKeyError.
Proof.
  split; [exact reachable_aspirin|].
  destruct (unique_owner_and_name [aspirin] reachable_aspirin) as (_ & Htaken & _).
  apply (Htaken aspirin_doc aspirin); [left|reflexivity].
Defined.

Example parse_page0 :
  parse_barcode_html page0 = [u "Аспирин"; u "Нурофен"; u "Парацетамол"]
  /\ shortest_name (parse_barcode_html page0) = Some (u "Аспирин").
Proof. vm_compute. split; reflexivity. Qed.


(** The callback data of the "update" button: the 31 bytes of
    "med:confirm_barcode_update::" and ":::" around the name. *)
Lemma utf8_length_app (a b : str) :
  utf8_length (a ++ b)
  = match utf8_length a, utf8_length b with
    | Some n, Some k => Some (n + k)%nat
    | _, _ => None
    end.
Proof.
  induction a as [|c a IH]; simpl.
  - by destruct (utf8_length b).
  - rewrite IH. destruct (utf8_size c), (utf8_length a), (utf8_length b); try done.
    f_equal. lia.
Qed.

Lemma get_confirm_barcode_update_keyboard_cases (med_name : str) :
  get_confirm_barcode_update_keyboard med_name
  = if negb (contains (u ":") med_name)
       && match utf8_length med_name with
          | Some n => (n <=? 33)%nat
          | None => false
          end
    then inr (confirm_barcode_update_keyboard med_name)
    else inl ValueError.
Proof.
  unfold get_confirm_barcode_update_keyboard.
  assert (pack (u "med") [u "add_different_barcode"; []; []; []; []; []]
          = Some (u "med:add_different_barcode:::::")) as -> by (vm_compute; reflexivity).
  unfold pack.
  assert (existsb (contains (u ":")) [u "confirm_barcode_update"; []; med_name; []; []; []]
          = contains (u ":") med_name) as ->.
  { cbn [existsb].
    assert (contains (u ":") (u "confirm_barcode_update") = false) as ->
      by (vm_compute; reflexivity).
    assert (contains (u ":") [] = false) as -> by (vm_compute; reflexivity).
    cbn [orb]. by rewrite orb_false_r. }
  destruct (contains (u ":") med_name); [done|]. cbn [negb andb].
  assert (join (u ":") [u "med"; u "confirm_barcode_update"; []; med_name; []; []; []]
          = u "med:confirm_barcode_update::" ++ med_name ++ u ":::") as ->.
  { cbn [join]. rewrite !app_nil_r. cbn [app].
    assert (u "med" ++ u ":" ++ u "confirm_barcode_update" ++ u ":" ++ u ":" ++ med_name
                   ++ u ":" ++ u ":" ++ u ":"
            = (u "med" ++ u ":" ++ u "confirm_barcode_update" ++ u ":" ++ u ":")
                ++ med_name ++ (u ":" ++ u ":" ++ u ":")) as Hassoc
      by (rewrite <- !app_assoc; reflexivity).
    etransitivity; [exact Hassoc|]. f_equal. }
  rewrite !utf8_length_app.
  assert (utf8_length (u "med:confirm_barcode_update::") = Some 28%nat) as ->
    by (vm_compute; reflexivity).
  assert (utf8_length (u ":::") = Some 3%nat) as -> by (vm_compute; reflexivity).
  destruct (utf8_length med_name) as [n|]; [|done].
  unfold MAX_CALLBACK_LENGTH.
  destruct (Nat.ltb_spec 64 (28 + (n + 3))), (Nat.leb_spec n 33); try done; lia.
Qed.

(** The photo handler selects the name [shortest_name] returns: it logs it
    and goes on with it.  When the user has a medicine of this name it offers
    to update that one, unless the keyboard of the offer cannot be built for
    this name: then it raises [ValueError] with the conversation as it was.
    Otherwise it stores the name in the FSM data and moves to the quantity
    step. *)
Lemma photo_handler_uses_shortest (E : env) (user_id : Z) (barcode : str) (page : html)
    (w : world) (s : str) :
  truthy (get (data w) "prompt_chat_id") = true ->
  truthy (get (data w) "prompt_message_id") = true ->
  barcode <> [] ->
  shortest_name (parse_barcode_html page) = Some s ->
  let r := process_medicine_name_photo E user_id true (Some barcode) (Some page) w in
  let w' := r.2 in
  logger (LogShortest s) ∈ calls w'
  /\ med_collection w' = med_collection w
  /\ match find_one (by_name_lower (lower s) user_id) (med_collection w) with
     | Some _ =>
         state w' = state w
         /\ match get_confirm_barcode_update_keyboard s with
            | inr reply_markup =>
                r.1 = inr tt
                /\ edit_message_text
                     (Ordinary (get (data w) "prompt_chat_id") (get (data w) "prompt_message_id"))
                     (TxtAlreadyHave s) (Some reply_markup) ∈ calls w'
            | inl e =>
                r.1 = inl e /\ data w' = data w
                /\ exists cs, calls w' = calls w ++ cs
                              /\ Forall (fun c => call_text c <> Some (TxtAlreadyHave s)) cs
            end
     | None =>
         state w' = Some waiting_for_quantity
         /\ get (data w') "name" = VStr s /\ get (data w') "name_lower" = VStr (lower s)
     end.
Proof.
  intros Hchat Hmsg Hbar Hs. cbv zeta.
  destruct (process_medicine_name_photo E user_id true (Some barcode) (Some page) w)
    as [r w'] eqn:Hrun.
  unfold process_medicine_name_photo in Hrun. mrun Hrun.
  rewrite Hchat, Hmsg in Hrun. cbn [negb orb] in Hrun. mrun Hrun.
  run_safe_edit_in Hrun b1 cs1 Hcs1. mrun Hrun.
  assert (truthy (VStr barcode) = true) as Hb.
  { simpl. by rewrite bool_decide_eq_false_2. }
  rewrite Hb in Hrun. mrun Hrun.
  run_safe_edit_in Hrun b2 cs2 Hcs2. mrun Hrun.
  rewrite Hs in Hrun. mrun Hrun.
  destruct (find_one _ _) as [existing|]; mrun Hrun.
  - destruct (get_confirm_barcode_update_keyboard s) as [e|reply_markup]; mrun Hrun.
    + simplify_eq. simpl. split; [set_solver|]. split; [done|]. split; [done|].
      split; [done|]. split; [done|]. eexists. split; [by rewrite <- !app_assoc|].
      repeat (apply Forall_app; split); repeat (apply Forall_cons; split);
        try apply Forall_nil; try done;
        (eapply Forall_impl; [eassumption|]; by intros c [-> | ->]).
    + run_safe_edit_in Hrun b3 cs3 Hcs3. mrun Hrun. simplify_eq. simpl.
      destruct Hcs3 as [rest ->]; [by rewrite Hchat, Hmsg|].
      rewrite edit_target_ordinary. split; [set_solver|]. split; [done|].
      split; [done|]. split; [done|]. set_solver.
  - run_safe_edit_in Hrun b3 cs3 Hcs3. mrun Hrun.
    destruct b3; mrun Hrun.
    + simplify_eq. simpl. split; [set_solver|]. split; [done|]. split; [done|].
      rewrite !get_insert_ne by done. rewrite get_insert_eq.
      rewrite !get_insert_ne by done. by rewrite get_insert_eq.
    + unfold bot_send_message in Hrun. mrun Hrun.
      destruct (send_reply E _); mrun Hrun; simplify_eq; simpl;
        (split; [set_solver|]; split; [done|]; split; [done|]);
        rewrite ?get_insert_ne by done; rewrite get_insert_eq;
        rewrite ?get_insert_ne by done; by rewrite ?get_insert_eq.
Qed.

(** C4.  For every page on which the parser finds names, the photo handler's
    selection [min(parsed_names, key=len)] is one of the parsed names, no
    parsed name is shorter, and among the parsed names of the same length it
    is the first in the order of [sorted]; the parsed list is sorted and has
    no duplicates.  The handler logs exactly this name as its selection and
    goes on with it: when the user has a medicine of this name it offers to
    update it, or raises [ValueError] when the keyboard of the offer cannot
    be built, which is when the name contains ":" or takes more than 33
    bytes of UTF-8; otherwise it stores the name in the FSM data and moves to
    the quantity step. *)
Theorem barcode_shortest_name_first (page : html) :
  parse_barcode_html page <> [] ->
  exists s,
    shortest_name (parse_barcode_html page) = Some s
    /\ s ∈ parse_barcode_html page
    /\ (forall n, n ∈ parse_barcode_html page -> (List.length s <= List.length n)%nat)
    /\ (forall n, n ∈ parse_barcode_html page -> List.length n = List.length s -> str_le s n)
    /\ StronglySorted str_le (parse_barcode_html page)
    /\ NoDup (parse_barcode_html page)
    /\ (get_confirm_barcode_update_keyboard s
        = if negb (contains (u ":") s)
             && match utf8_length s with
                | Some n => (n <=? 33)%nat
                | None => false
                end
          then inr (confirm_barcode_update_keyboard s)
          else inl ValueError)
    /\ (forall (E : env) (user_id : Z) (barcode : str) (w : world),
          truthy (get (data w) "prompt_chat_id") = true ->
          truthy (get (data w) "prompt_message_id") = true ->
          barcode <> [] ->
          let r := process_medicine_name_photo E user_id true (Some barcode) (Some page) w in
          let w' := r.2 in
          logger (LogShortest s) ∈ calls w'
          /\ med_collection w' = med_collection w
          /\ match find_one (by_name_lower (lower s) user_id) (med_collection w) with
             | Some _ =>
                 state w' = state w
                 /\ match get_confirm_barcode_update_keyboard s with
                    | inr reply_markup =>
                        r.1 = inr tt
                        /\ edit_message_text
                             (Ordinary (get (data w) "prompt_chat_id")
                                       (get (data w) "prompt_message_id"))
                             (TxtAlreadyHave s) (Some reply_markup)
                           ∈ calls w'
                    | inl e =>
                        r.1 = inl e /\ data w' = data w
                        /\ exists cs,
                             calls w' = calls w ++ cs
                             /\ Forall (fun c => call_text c <> Some (TxtAlreadyHave s)) cs
                    end
             | None =>
                 state w' = Some waiting_for_quantity
                 /\ get (data w') "name" = VStr s
                 /\ get (data w') "name_lower" = VStr (lower s)
             end).
Proof.
  intros Hne.
  pose proof (parse_barcode_html_sorted page) as Hsorted.
  pose proof (parse_barcode_html_NoDup page) as Hnodup.
  pose proof (fun s Hs E user_id barcode w Hc Hm Hb =>
                photo_handler_uses_shortest E user_id barcode page w s Hc Hm Hb Hs)
    as Hhandler.
  destruct (parse_barcode_html page) as [|x l] eqn:Hparse; [done|].
  specialize (Hhandler (min_by_len x l) eq_refl).
  simpl. exists (min_by_len x l).
  destruct (min_by_len_split x l) as (l1 & l2 & Heq & H1 & H2).
  set (s := min_by_len x l) in *.
  rewrite Forall_forall in H1. rewrite Forall_forall in H2.
  assert (forall n, n ∈ x :: l -> n ∈ l1 \/ n = s \/ n ∈ l2) as Hcases.
  { intros n. rewrite Heq, elem_of_app, elem_of_cons. tauto. }
  split; [done|].
  split; [|split; [|split; [|split; [done|split; [done|split; [|exact Hhandler]]]]]];
    [| | |apply get_confirm_barcode_update_keyboard_cases].
  - rewrite Heq, elem_of_app, elem_of_cons. tauto.
  - intros n Hn. destruct (Hcases n Hn) as [Hn1|[->|Hn2]].
    + specialize (H1 _ Hn1). lia.
    + done.
    + by apply H2.
  - intros n Hn Hlen. destruct (Hcases n Hn) as [Hn1|[->|Hn2]].
    + specialize (H1 _ Hn1). lia.
    + reflexivity.
    + rewrite Heq in Hsorted.
      apply StronglySorted_app_1_r in Hsorted as Htail.
      apply StronglySorted_inv in Htail as [_ Hall].
      rewrite Forall_forall in Hall. by apply Hall.
Qed.

Example photo_long_name_raises :
  let c := [with_id 1 (MedDoc long_name (lower long_name) (u "10 шт") (u "-")
                         (u "2026-12-02") 1)] in
  let r := process_medicine_name_photo E0 1 true (Some (u "4600000000002"))
             (Some page_long) (w_photo c) in
  utf8_length long_name = Some 49%nat
  /\ r.1 = inl ValueError
  /\ state r.2 = Some waiting_for_name /\ data r.2 = data (w_photo c)
  /\ (process_medicine_name_photo E0 1 true (Some (u "4600000000001"))
        (Some page0) (w_photo [aspirin])).1 = inr tt.
Proof. vm_compute. repeat split; reflexivity. Qed.

Lemma barcode_shortest_name_first_witness :
  parse_barcode_html page0 <> []
  /\ exists s, shortest_name (parse_barcode_html page0) = Some s
               /\ s ∈ parse_barcode_html page0.
Proof.
  assert (parse_barcode_html page0 <> []) as Hne by (vm_compute; discriminate).
  split; [exact Hne|].
  destruct (barcode_shortest_name_first page0 Hne) as (s & Hs & Hin & _).
  exists s. split; assumption.
Defined.

(** *** The reminder on 3 November 2026 *)

Example sweep_sections :
  add_days 29 (Date 2026 11 3) = Some (Date 2026 12 2)
  /\ add_days 31 (Date 2026 11 3) = Some (Date 2026 12 4)
  /\ add_days 1 (Date 2026 11 2) = Some (Date 2026 11 3)
  /\ daily_reminder (Date 2026 11 3) sweep_collection
     = inr [(1, Digest [expiring 4 "Цитрамон" "2026-11-03";
                        expiring 3 "Парацетамол" "2026-12-02"]
                       [expiring 2 "Нурофен" "2026-11-02"])].
Proof. vm_compute. repeat split; reflexivity. Qed.

Lemma reminder_sections_witness :
  valid_date (Date 2026 11 3) = true
  /\ add_days 30 (Date 2026 11 3) = Some (Date 2026 12 3)
  /\ expiring 4 "Цитрамон" "2026-11-03"
     ∈ expiring_soon (user_digest (Date 2026 11 3) (Date 2026 12 3) 1 sweep_collection).
Proof.
  split; [reflexivity|]. split; [reflexivity|].
  destruct (reminder_sections (Date 2026 11 3) (Date 2026 12 3) 1 sweep_collection
              eq_refl eq_refl) as (_ & _ & _ & _ & _ & Hpart & _).
  apply (Hpart (expiring 4 "Цитрамон" "2026-11-03")); [|reflexivity|reflexivity].
  do 3 right. left.
Defined.

(** *** Twelve records, five to a page *)

Example twelve_records_three_pages :
  let page p := get_medicine_list_keyboard twelve p MEDS_PER_PAGE in
  record_buttons (page 1) = List.map med_button (take 5 twelve)
  /\ existsb is_prev (concat (page 1)) = false /\ existsb is_next (concat (page 1)) = true
  /\ record_buttons (page 2) = List.map med_button (take 5 (drop 5 twelve))
  /\ existsb is_prev (concat (page 2)) = true /\ existsb is_next (concat (page 2)) = true
  /\ record_buttons (page 3) = List.map med_button (drop 10 twelve)
  /\ existsb is_prev (concat (page 3)) = true /\ existsb is_next (concat (page 3)) = false.
Proof. vm_compute. repeat split; reflexivity. Qed.

Lemma list_keyboard_pagination_witness :
  1 <= 3
  /\ List.length (record_buttons (get_medicine_list_keyboard twelve 3 MEDS_PER_PAGE)) = 2%nat
  /\ existsb is_prev (concat (get_medicine_list_keyboard twelve 3 MEDS_PER_PAGE)) = true.
Proof.
  split; [lia|].
  destruct (list_keyboard_pagination twelve 3 [] 1 ltac:(lia)) as (Hlen & _ & Hprev & _).
  split; [exact Hlen|exact Hprev].
Defined.

(** *** The expiry step *)

Example strptime_examples :
  strptime (u "2020-01-01") = Some (Date 2020 1 1)
  /\ strptime (u "2026-2-9") = Some (Date 2026 2 9)
  /\ strptime (u "2026-02-30") = None
  /\ strptime (u "01.02.2026") = None
  /\ strptime (u "2026-11-031") = None
  /\ strptime (u "２０２６-12-02") = Some (Date 2026 12 2).
Proof. vm_compute. repeat split; reflexivity. Qed.

Lemma past_or_malformed_expiry_rejected_witness :
  strptime (strip (u "2020-01-01")) = Some (Date 2020 1 1)
  /\ date_ltb (Date 2020 1 1) (today E0) = true
  /\ process_medicine_exp_date_text E0 (u "2020-01-01") 1 (w_add [])
     = (inr tt, World [] (Some waiting_for_exp_date) add_data [message_reply TxtDateInPast]).
Proof.
  split; [reflexivity|]. split; [reflexivity|].
  destruct (past_or_malformed_expiry_rejected E0 (w_add []) (u "2020-01-01") 1 2020 1 1 None)
    as (_ & Hpast & _).
  apply (Hpast (Date 2020 1 1)); reflexivity.
Defined.

(** Today is accepted: the record is inserted and the list is shown. *)
Example today_is_accepted :
  process_medicine_exp_date_text E0 (u "2026-11-03") 1 (w_add [])
  = (inr tt,
     World [Medicine 1 (u "Аспирин") (u "аспирин") (u "10 шт") (u "-") (u "2026-11-03") 1]
           None ∅
           [message_delete; logger LogAdded;
            edit_message_text (Ordinary (VInt 10) (VInt 20)) (TxtList true)
              (Some (medicine_list_keyboard
                       [[BtnView (u "Аспирин") (u "10 шт") (u "2026-11-03") (str_of_id 1)];
                        [BtnAdd]; [BtnMainMenu]]))]).
Proof. vm_compute. reflexivity. Qed.

(** *** Cancelling *)

Lemma cancel_clears_conversation_witness :
  state (World [aspirin] (Some waiting_for_quantity) add_data []) = Some waiting_for_quantity
  /\ state (cancel_handler E0 (World [aspirin] (Some waiting_for_quantity) add_data [])).2 = None
  /\ med_collection
       (cancel_handler E0 (World [aspirin] (Some waiting_for_quantity) add_data [])).2
     = [aspirin].
Proof.
  split; [reflexivity|].
  destruct (cancel_clears_conversation E0
              (World [aspirin] (Some waiting_for_quantity) add_data [])
              waiting_for_quantity None None eq_refl) as ((_ & Hc & Hs & _) & _).
  split; [exact Hs|exact Hc].
Defined.

Example cancel_edit_flow :
  cancel_action_callback E0 (Some (10, 20)) None w_edit
  = (inr tt,
     World [aspirin] None ∅
           [logger LogCancelling;
            edit_message_text (Ordinary (VInt 10) (VInt 20)) TxtMainMenu
              (Some main_menu_keyboard);
            callback_answer (Some TxtCancelled) false]).
Proof. vm_compute. reflexivity. Qed.

(** *** The commit step *)

Lemma save_new_medicine_complete_only_witness :
  forallb truthy [get add_data "name"; get add_data "name_lower"; get add_data "quantity";
                  get add_data "notes"; get add_data "exp_date"] = false
  /\ med_collection (_save_new_medicine E0 1 (VInt 10) (VInt 20) (w_add [aspirin])).2
     = [aspirin].
Proof.
  split; [reflexivity|].
  destruct (save_new_medicine_complete_only E0 1 (VInt 10) (VInt 20) (w_add [aspirin]))
    as (_ & Hmissing & _).
  apply Hmissing. reflexivity.
Defined.

(** *** Editing *)

Lemma quantity_update_nonempty (q : string) : quantity_update q <> ∅.
Proof. apply insert_non_empty. Qed.

(** The record is deleted by another handler between the lookup and the
    update: the error text is shown, then the list, and no detail view. *)
Lemma not_found_shows_list_not_details :
  _save_edited_medicine E_deleted 1 (VStr (str_of_id 1)) (VStr (u "quantity"))
    (VStr (u "20 шт")) (quantity_update "20 шт") (VInt 10) (VInt 20) VNone w_edit
  = (inr tt,
     World [] None ∅
           [logger LogNotFoundForUpdate;
            edit_message_text (Ordinary (VInt 10) (VInt 20)) TxtUpdateNotFound None;
            sleep 2;
            edit_message_text (Ordinary (VInt 10) (VInt 20)) (TxtList false)
              (Some (medicine_list_keyboard [[BtnEmptyPage]; [BtnAdd]; [BtnMainMenu]]))])
  /\ _save_edited_medicine E_deleted 1 (VStr (str_of_id 1)) (VStr (u "quantity"))
       (VStr (u "20 шт")) (quantity_update "20 шт") VNone VNone (VStr (u "token")) w_edit
     = (inr tt,
        World [] None ∅
              [logger LogNotFoundForUpdate;
               edit_message_text (InlineToken (VStr (u "token"))) TxtUpdateNotFound None;
               sleep 2;
               edit_message_text (InlineToken (VStr (u "token"))) TxtMainMenu
                 (Some main_menu_keyboard)]).
Proof. vm_compute. split; reflexivity. Qed.

Lemma edited_value_saved_witness :
  ObjectId_of (VStr (str_of_id 1)) = Some 1%N
  /\ find_one (by_id 1 1) (med_collection w_edit) = Some aspirin
  /\ state (_save_edited_medicine E0 1 (VStr (str_of_id 1)) (VStr (u "quantity"))
              (VStr (u "20 шт")) (quantity_update "20 шт") (VInt 10) (VInt 20) VNone
              w_edit).2 = None.
Proof.
  split; [reflexivity|]. split; [reflexivity|].
  destruct (edited_value_saved E0 1 (VStr (str_of_id 1)) (VStr (u "quantity"))
              (VStr (u "20 шт")) (quantity_update "20 шт") (quantity_update "20 шт")
              (VInt 10) (VInt 20) VNone w_edit 1 aspirin (UpdateResult 1 1)
              [Medicine 1 (u "Аспирин") (u "аспирин") (u "20 шт") (u "-") (u "2026-12-02") 1])
    as [_ Hsave].
  eapply Hsave.
  - reflexivity.
  - reflexivity.
  - vm_compute. reflexivity.
  - apply quantity_update_nonempty.
  - vm_compute. reflexivity.
  - reflexivity.
Defined.

Example edit_changes_quantity :
  _save_edited_medicine E0 1 (VStr (str_of_id 1)) (VStr (u "quantity"))
    (VStr (u "20 шт")) (quantity_update "20 шт") (VInt 10) (VInt 20) VNone w_edit
  = (inr tt,
     World [Medicine 1 (u "Аспирин") (u "аспирин") (u "20 шт") (u "-") (u "2026-12-02") 1]
           None ∅
           [logger LogUpdated;
            edit_message_text (Ordinary (VInt 10) (VInt 20))
              (TxtDetails (Medicine 1 (u "Аспирин") (u "аспирин") (u "20 шт") (u "-")
                                    (u "2026-12-02") 1))
              (Some (medicine_details_keyboard (VStr (str_of_id 1)) false))]).
Proof. vm_compute. reflexivity. Qed.

Lemma same_value_edit_is_no_change_witness :
  find_one (by_id 1 1) (concurrent E0 (med_collection w_edit)) = Some aspirin
  /\ map_Forall (fun k v => stored_value aspirin k = Some v) (quantity_update "10 шт")
  /\ med_collection
       (_save_edited_medicine E0 1 (VStr (str_of_id 1)) (VStr (u "quantity"))
          (VStr (u "10 шт")) (quantity_update "10 шт") (VInt 10) (VInt 20) VNone w_edit).2
     = [aspirin].
Proof.
  assert (map_Forall (fun k v => stored_value aspirin k = Some v) (quantity_update "10 шт"))
    as Hsame.
  { apply map_Forall_insert_2; [reflexivity|apply map_Forall_empty]. }
  split; [reflexivity|]. split; [exact Hsame|].
  eapply (same_value_edit_is_no_change E0 1 (VStr (str_of_id 1)) (VStr (u "quantity"))
            (VStr (u "10 шт")) (quantity_update "10 шт") (quantity_update "10 шт")
            (VInt 10) (VInt 20) VNone w_edit 1 aspirin aspirin).
  - reflexivity.
  - reflexivity.
  - reflexivity.
  - vm_compute. reflexivity.
  - apply quantity_update_nonempty.
  - exact Hsame.
  - reflexivity.
Defined.

(** *** Searching *)

Lemma inline_search_candidates_witness :
  is_ru (lower (strip (u "Asp"))) <> is_en (lower (strip (u "Asp")))
  /\ search_conditions (lower (strip (u "Asp")))
     = [lower (strip (u "Asp")); transliterate (lower (strip (u "Asp")))].
Proof.
  assert (is_ru (lower (strip (u "Asp"))) <> is_en (lower (strip (u "Asp")))) as Hne
    by (vm_compute; discriminate).
  split; [exact Hne|].
  destruct (inline_search_candidates (u "Asp") 1 0 [aspirin]) as (Hone & _).
  exact (proj2 (Hone Hne)).
Defined.

(** A Latin query finds a Cyrillic name through the transliteration, and a
    Cyrillic query finds it directly; another user's record is not found. *)
Example cross_script_search :
  search_conditions (u "asp") = [u "asp"; u "асп"]
  /\ inline_search_handler (u "Asp") 1 0 [aspirin] = AnswerResults [aspirin] None
  /\ inline_search_handler (u "асп") 1 0 [aspirin] = AnswerResults [aspirin] None
  /\ inline_search_handler (u "asp") 2 0 [aspirin] = AnswerResults [] None
  /\ inline_search_handler (u "  ") 1 0 [aspirin] = AnswerTypeAName.
Proof. vm_compute. repeat split; reflexivity. Qed.

(** The whole handler of the edit flow: a new quantity is saved and the
    detail view is shown; typing the stored quantity again changes nothing
    and shows the detail view as well; so does typing the record's own name
    while editing the name, or its own expiry date while editing the date.
    An empty quantity is refused and the conversation goes on. *)
Example process_new_value_text_examples :
  process_new_value_text E0 (u " 20 шт ") 1 w_edit
  = (inr tt,
     World [Medicine 1 (u "Аспирин") (u "аспирин") (u "20 шт") (u "-") (u "2026-12-02") 1]
           None ∅
           [message_delete; logger LogUpdated;
            edit_message_text (Ordinary (VInt 10) (VInt 20))
              (TxtDetails (Medicine 1 (u "Аспирин") (u "аспирин") (u "20 шт") (u "-")
                                    (u "2026-12-02") 1))
              (Some (medicine_details_keyboard (VStr (str_of_id 1)) false))])
  /\ process_new_value_text E0 (u "10 шт") 1 w_edit
     = (inr tt,
        World [aspirin] None ∅
              [message_delete; logger LogMatchedNotModified;
               edit_message_text (Ordinary (VInt 10) (VInt 20)) (TxtDetails aspirin)
                 (Some (medicine_details_keyboard (VStr (str_of_id 1)) false))])
  /\ process_new_value_text E0 (u "Аспирин") 1
       (World [aspirin] (Some waiting_for_new_value)
              (<["field_to_edit" := VStr (u "name")]> edit_data) [])
     = (inr tt,
        World [aspirin] None ∅
              [message_delete; logger LogMatchedNotModified;
               edit_message_text (Ordinary (VInt 10) (VInt 20)) (TxtDetails aspirin)
                 (Some (medicine_details_keyboard (VStr (str_of_id 1)) false))])
  /\ process_new_value_text E0 (u "2026-12-2") 1
       (World [aspirin] (Some waiting_for_new_value)
              (<["field_to_edit" := VStr (u "exp_date")]> edit_data) [])
     = (inr tt,
        World [aspirin] None ∅
              [message_delete; logger LogMatchedNotModified;
               edit_message_text (Ordinary (VInt 10) (VInt 20)) (TxtDetails aspirin)
                 (Some (medicine_details_keyboard (VStr (str_of_id 1)) false))])
  /\ process_new_value_text E0 (u "   ") 1 w_edit
     = (inr tt,
        World [aspirin] (Some waiting_for_new_value) edit_data
              [message_reply (TxtTryAgain EmptyQuantity)]).
Proof. vm_compute. repeat split; reflexivity. Qed.

(** When the record is already gone at the lookup, the handler stops with
    [AttributeError] before it reaches [update_one]; the conversation context
    stays as it was. *)
Example save_edited_medicine_record_gone :
  _save_edited_medicine E0 1 (VStr (str_of_id 1)) (VStr (u "quantity"))
    (VStr (u "20 шт")) (quantity_update "20 шт") (VInt 10) (VInt 20) VNone
    (World [] (Some waiting_for_new_value) edit_data [])
  = (inl AttributeError, World [] (Some waiting_for_new_value) edit_data []).
Proof. vm_compute. reflexivity. Qed.


(** * Further properties *)

(** ** Transliteration there and back *)

Lemma translate_app (dic : gmap str str) (a b : str) :
  translate dic (a ++ b) = translate dic a ++ translate dic b.
Proof. unfold translate. by rewrite map_app, concat_app. Qed.

Lemma starts_with_app (p s : str) :
  starts_with p s = true -> s = p ++ drop (List.length p) s.
Proof.
  revert s. induction p as [|x p IH]; intros [|y s]; simpl; try done.
  intros [Hxy Hp]%andb_prop. apply N.eqb_eq in Hxy as ->. f_equal. by apply IH.
Qed.

(** A replacement whose two sides read the same in Latin letters does not
    change how the text reads in Latin letters. *)
Lemma translate_replace_go (dic : gmap str str) (fuel : nat) (old new s : str) :
  translate dic new = translate dic old ->
  translate dic (replace_go fuel old new s) = translate dic s.
Proof.
  intros Hsame. revert s. induction fuel as [|fuel IH]; intros s; simpl; [done|].
  destruct s as [|c s']; [done|].
  destruct (starts_with old (c :: s')) eqn:Hstart.
  - rewrite translate_app, IH, Hsame, <- translate_app.
    by rewrite <- (starts_with_app _ _ Hstart).
  - change (c :: replace_go fuel old new s') with ([c] ++ replace_go fuel old new s').
    rewrite translate_app, IH. by rewrite <- translate_app.
Qed.

Lemma translate_replace (dic : gmap str str) (old new s : str) :
  translate dic new = translate dic old ->
  translate dic (replace old new s) = translate dic s.
Proof. apply translate_replace_go. Qed.

Lemma translate_ru_digraphs (text : str) :
  translate ru_en (digraphs text) = translate ru_en text.
Proof.
  unfold digraphs. cbv zeta.
  repeat (rewrite translate_replace by (vm_compute; reflexivity)). reflexivity.
Qed.

(** Every Cyrillic letter the Latin table produces is read back by the
    Cyrillic table as the Latin letters it stands for. *)
Lemma en_ru_read_back :
  map_Forall (fun k v => translate ru_en v = translate ru_en k) en_ru.
Proof. refine (bool_decide_unpack _ _). vm_compute. exact I. Qed.

Lemma translate_ru_en_ru (text : str) :
  translate ru_en (translate en_ru text) = translate ru_en text.
Proof.
  induction text as [|c text IH]; [done|].
  change (translate en_ru (c :: text)) with (dict_get en_ru c ++ translate en_ru text).
  change (c :: text) with ([c] ++ text).
  rewrite !translate_app, IH. f_equal.
  unfold dict_get. destruct (en_ru !! [c]) as [v|] eqn:Hc; cbn [default]; [|done].
  by apply (en_ru_read_back [c]).
Qed.

Lemma translate_no_script (dic : gmap str str) (text : str) :
  existsb (in_dict dic) text = false -> translate dic text = text.
Proof.
  induction text as [|c text IH]; simpl; [done|].
  intros [Hc Ht]%orb_false_elim.
  change (translate dic (c :: text)) with (dict_get dic c ++ translate dic text).
  rewrite (IH Ht). unfold dict_get, in_dict in *.
  destruct (dic !! [c]) as [v|]; cbn [default]; [|done].
  rewrite bool_decide_eq_true_2 in Hc; [done|by eexists].
Qed.

Lemma transliterate_en (text : str) :
  is_en text = true -> is_ru text = false ->
  transliterate text = translate en_ru (digraphs text).
Proof. intros Hen Hru. unfold transliterate. rewrite Hen, Hru. reflexivity. Qed.

Lemma transliterate_ru (text : str) :
  is_ru text = true -> is_en text = false ->
  transliterate text = translate ru_en text.
Proof. intros Hru Hen. unfold transliterate. rewrite Hen, Hru. reflexivity. Qed.

Lemma translate_en_no_latin (text : str) : is_en (translate en_ru text) = false.
Proof.
  unfold is_en. apply free_of_no_script. apply translate_free. exact en_ru_values_free.
Qed.

Lemma translate_ru_no_cyrillic (text : str) :
  is_ru text = false -> translate ru_en text = text.
Proof. unfold is_ru. apply translate_no_script. Qed.

Lemma translate_en_read_back (text : str) :
  is_ru text = false -> translate ru_en (translate en_ru (digraphs text)) = text.
Proof.
  intros Hru. rewrite translate_ru_en_ru, translate_ru_digraphs.
  by apply translate_ru_no_cyrillic.
Qed.

Lemma translate_en_cyrillic (text : str) :
  is_en text = true -> is_ru text = false ->
  is_ru (translate en_ru (digraphs text)) = true.
Proof.
  intros Hen Hru.
  destruct (is_ru (translate en_ru (digraphs text))) eqn:Hr; [reflexivity|]. exfalso.
  apply (translate_en_changes text Hen).
  rewrite <- (translate_en_read_back text Hru) at 2.
  symmetry. apply translate_ru_no_cyrillic. exact Hr.
Qed.

(** X1.  A text with Latin letters of the table and no Cyrillic ones comes
    back unchanged when it is transliterated to Cyrillic and the result is
    transliterated again. *)
Theorem transliterate_latin_round_trip (text : str) :
  is_en text = true -> is_ru text = false ->
  transliterate (transliterate text) = text.
Proof.
  intros Hen Hru. rewrite (transliterate_en text Hen Hru).
  rewrite (transliterate_ru _ (translate_en_cyrillic text Hen Hru)
             (translate_en_no_latin (digraphs text))).
  exact (translate_en_read_back text Hru).
Qed.

Lemma transliterate_latin_round_trip_witness :
  is_en (u "shchuka i yozh") = true
  /\ is_ru (u "shchuka i yozh") = false
  /\ transliterate (transliterate (u "shchuka i yozh")) = u "shchuka i yozh".
Proof.
  split; [vm_compute; reflexivity|]. split; [vm_compute; reflexivity|].
  apply transliterate_latin_round_trip; vm_compute; reflexivity.
Defined.

(** The other direction loses the hard sign. *)
Example transliterate_cyrillic_not_round_trip :
  transliterate (u "подъезд") = u "podezd"
  /\ transliterate (transliterate (u "подъезд")) = u "подезд".
Proof. vm_compute. split; reflexivity. Qed.


(** ** The names read from a barcode page *)

Lemma elem_of_row_name (cols : list str) (n : str) :
  n ∈ row_name cols <-> n <> [] /\ (3 <= List.length cols)%nat /\ cols !! 2%nat = Some n.
Proof.
  unfold row_name. destruct (3 <=? List.length cols)%nat eqn:Hlen.
  - apply Nat.leb_le in Hlen. destruct (cols !! 2%nat) as [name|] eqn:Hcol.
    + simpl. case_bool_decide as Hempty; simpl.
      * split; [by intros ?%elem_of_nil|]. intros (Hn & _ & [= <-]). done.
      * rewrite list_elem_of_singleton. split; [intros ->; done|]. by intros (_ & _ & [= <-]).
    + split; [by intros ?%elem_of_nil|]. by intros (_ & _ & ?).
  - apply Nat.leb_gt in Hlen. split; [by intros ?%elem_of_nil|]. intros (_ & ? & _). lia.
Qed.

(** X2.  The parser returns exactly the non-empty texts of the third cell of
    the rows after the first one that have at least three cells; a page
    without the table, and a table with at most one row, give no name. *)
Theorem parse_barcode_html_names (page : html) (n : str) :
  (n ∈ parse_barcode_html page
   <-> n <> []
       /\ exists rows cols,
            page = Some rows /\ cols ∈ drop 1 rows
            /\ (3 <= List.length cols)%nat /\ cols !! 2%nat = Some n)
  /\ parse_barcode_html None = []
  /\ (forall rows, (List.length rows <= 1)%nat -> parse_barcode_html (Some rows) = []).
Proof.
  split; [|split].
  - unfold parse_barcode_html. destruct page as [rows|].
    + destruct (List.length rows <=? 1)%nat eqn:Hlen.
      * apply Nat.leb_le in Hlen. split; [by intros ?%elem_of_nil|].
        intros (_ & rows' & cols & [= <-] & Hin & _).
        rewrite drop_ge in Hin by lia. by apply elem_of_nil in Hin.
      * rewrite sorted_set_elem. split.
        -- intros Hn. apply list_elem_of_In, in_concat in Hn as (l & Hl & Hn).
           apply in_map_iff in Hl as (cols & <- & Hcols).
           apply list_elem_of_In, elem_of_row_name in Hn as (Hne & Hlen3 & Hcol).
           split; [done|]. exists rows, cols. by rewrite list_elem_of_In.
        -- intros (Hne & rows' & cols & [= <-] & Hin & Hlen3 & Hcol).
           apply list_elem_of_In, in_concat. exists (row_name cols). split.
           ++ apply in_map. by apply list_elem_of_In.
           ++ apply list_elem_of_In, elem_of_row_name. done.
    + split; [by intros ?%elem_of_nil|]. by intros (_ & ? & ? & ? & _).
  - reflexivity.
  - intros rows Hlen. unfold parse_barcode_html.
    by rewrite (proj2 (Nat.leb_le _ _) Hlen).
Qed.

(** ** Walking through the pages of the list *)

Lemma pages_concat {A} (l : list A) (k n : nat) :
  concat (List.map (fun p => take k (drop (k * p) l)) (seq 0 n)) = take (k * n) l.
Proof.
  induction n as [|n IH].
  - by rewrite Nat.mul_0_r, take_0.
  - rewrite seq_S, map_app, concat_app, IH. simpl. rewrite app_nil_r.
    replace (k * S n)%nat with (k * n + k)%nat by lia.
    by rewrite take_take_drop.
Qed.

Lemma elem_of_record_rows (meds : list medicine) (b : button) :
  b ∈ concat (List.map (fun med => [med_button med]) meds) -> is_view b = true.
Proof.
  induction meds as [|m meds IH]; simpl; [by intros ?%elem_of_nil|].
  intros [->|Hb]%elem_of_cons; [done|by apply IH].
Qed.

Lemma elem_of_nav_row (p total_pages : Z) (b : button) :
  b ∈ (if 1 <? p then [BtnPrev (p - 1)] else [])
      ++ (if 1 <? total_pages then [BtnPageInfo p total_pages] else [])
      ++ (if p <? total_pages then [BtnNext (p + 1)] else []) ->
  (b = BtnPrev (p - 1) /\ 1 < p) \/ b = BtnPageInfo p total_pages
  \/ (b = BtnNext (p + 1) /\ p < total_pages).
Proof.
  destruct (1 <? p) eqn:H1; destruct (1 <? total_pages) eqn:H2;
    destruct (p <? total_pages) eqn:H3; simpl;
    rewrite ?Z.ltb_lt in *; intros Hb;
    repeat (apply elem_of_cons in Hb as [->|Hb]; [tauto|]);
    by apply elem_of_nil in Hb.
Qed.

(** X3.  Going through the pages 1 to [total_pages] of the list keyboard
    shows every record of the list exactly once, in the order of the list;
    and on every page the "prev" button leads to the page before and the
    "next" button to the page after, which is still a page of the list. *)
Theorem pages_show_every_record_once (medicines : list medicine) :
  let total_pages := (Z.of_nat (List.length medicines) + 5 - 1) / 5 in
  concat (List.map
            (fun p => record_buttons
                        (get_medicine_list_keyboard medicines (Z.of_nat (S p)) MEDS_PER_PAGE))
            (seq 0 (Z.to_nat total_pages)))
  = List.map med_button medicines
  /\ forall (p q : Z), 1 <= p ->
       let rows := get_medicine_list_keyboard medicines p MEDS_PER_PAGE in
       (BtnNext q ∈ concat rows -> q = p + 1 /\ q <= total_pages)
       /\ (BtnPrev q ∈ concat rows -> q = p - 1 /\ 1 <= q).
Proof.
  cbv zeta. split.
  - erewrite map_ext; last first.
    { intros p. rewrite records_of_keyboard by lia.
      replace (Z.to_nat ((Z.of_nat (S p) - 1) * 5)) with (5 * p)%nat by lia.
      rewrite <- firstn_map, <- skipn_map. reflexivity. }
    rewrite (pages_concat (List.map med_button medicines) 5).
    apply take_ge. rewrite length_map.
    pose proof (Z.div_mod (Z.of_nat (List.length medicines) + 5 - 1) 5 ltac:(lia)).
    pose proof (Z.mod_pos_bound (Z.of_nat (List.length medicines) + 5 - 1) 5 ltac:(lia)).
    lia.
  - intros p q Hp. rewrite get_medicine_list_keyboard_shape by done. cbv zeta.
    set (nav := (if 1 <? p then [BtnPrev (p - 1)] else []) ++ _).
    assert (forall b, is_view b = false -> b <> BtnEmptyPage -> b <> BtnAdd ->
              b <> BtnMainMenu ->
              b ∈ concat ((match take 5 (drop (Z.to_nat ((p - 1) * 5)) medicines) with
                           | [] => [[BtnEmptyPage]]
                           | _ :: _ => List.map (fun med => [med_button med])
                                         (take 5 (drop (Z.to_nat ((p - 1) * 5)) medicines))
                           end)
                          ++ (match nav with _ :: _ => [nav] | [] => [] end)
                          ++ [[BtnAdd]] ++ [[BtnMainMenu]]) ->
              b ∈ nav) as Hnav.
    { intros b Hview He Ha Hm. rewrite !concat_app, !elem_of_app. simpl.
      intros [Hb|[Hb|[Hb|Hb]]].
      - exfalso. destruct (take 5 _) as [|m items].
        + simpl in Hb. apply list_elem_of_singleton in Hb. congruence.
        + apply elem_of_record_rows in Hb. congruence.
      - destruct nav; simpl in Hb; [by apply elem_of_nil in Hb|].
        by rewrite app_nil_r in Hb.
      - apply list_elem_of_singleton in Hb. congruence.
      - apply list_elem_of_singleton in Hb. congruence. }
    split; intros Hb; apply Hnav in Hb; try done;
      apply elem_of_nav_row in Hb as [[? ?]|[?|[? ?]]]; simplify_eq; lia.
Qed.


(** ** From a button of the list to the record *)

Lemma hex_val_digit (v : N) : (v < 16)%N -> hex_val (hex_digit v) = Some v.
Proof.
  intros Hv. unfold hex_val, hex_digit, in_range.
  destruct (N.ltb_spec v 10) as [Hd|Hd].
  - replace ((48 <=? 48 + v) && (48 + v <=? 57))%N with true.
    + f_equal. lia.
    + symmetry. apply andb_true_intro. split; apply N.leb_le; lia.
  - replace ((48 <=? 87 + v) && (87 + v <=? 57))%N with false.
    + replace ((97 <=? 87 + v) && (87 + v <=? 102))%N with true; [f_equal; lia|].
      symmetry. apply andb_true_intro. split; apply N.leb_le; lia.
    + symmetry. apply andb_false_intro2. apply N.leb_gt. lia.
Qed.

Lemma hex_print_length (k : nat) (n : N) (rest : str) :
  List.length (hex_print k n rest) = (k + List.length rest)%nat.
Proof.
  revert n rest. induction k as [|k IH]; intros n rest; simpl; [done|].
  rewrite IH. simpl. lia.
Qed.

Lemma hex_parse_print (k : nat) (n acc : N) (rest : str) :
  hex_parse acc (hex_print k n rest)
  = hex_parse (acc * 16 ^ N.of_nat k + n mod 16 ^ N.of_nat k)%N rest.
Proof.
  revert n acc rest. induction k as [|k IH]; intros n acc rest.
  - simpl. rewrite N.mod_1_r. f_equal. lia.
  - cbn [hex_print]. rewrite IH. cbn [hex_parse].
    rewrite hex_val_digit by (apply N.mod_lt; lia). f_equal.
    rewrite Nat2N.inj_succ, N.pow_succ_r'.
    rewrite (N.Div0.mod_mul_r n 16 (16 ^ N.of_nat k)). lia.
Qed.

(** [ObjectId(str(oid))] is [oid]: an object id has 12 bytes. *)
Lemma ObjectId_str_of_id_round_trip (oid : N) :
  (oid < 2 ^ 96)%N -> ObjectId (str_of_id oid) = Some oid.
Proof.
  intros Hoid. unfold ObjectId, str_of_id. rewrite hex_print_length.
  cbn [Nat.add List.length Nat.eqb]. rewrite hex_parse_print. cbn [hex_parse].
  f_equal. rewrite N.mul_0_l, N.add_0_l. apply N.mod_small.
  change (16 ^ N.of_nat 24)%N with (2 ^ 96)%N. exact Hoid.
Qed.

Lemma find_one_by_id (c : collection) (m : medicine) :
  NoDup (List.map _id c) -> m ∈ c -> find_one (by_id (_id m) (added_by m)) c = Some m.
Proof.
  unfold find_one. induction c as [|a c IH]; simpl; [by intros _ ?%elem_of_nil|].
  intros [Ha Hc]%NoDup_cons [->|Hm]%elem_of_cons.
  - unfold by_id. by rewrite !bool_decide_eq_true_2.
  - destruct (by_id (_id m) (added_by m) a) eqn:Hby; [|by apply IH].
    exfalso. apply Ha. unfold by_id in Hby.
    apply andb_prop in Hby as [Hid%bool_decide_eq_true _].
    rewrite Hid. by apply elem_of_map_2.
Qed.

(** X4.  Every record button of the user's list carries the id of one of the
    user's documents, and [view_medicine_details] called with the id of a
    button renders the detail view of that very document on the bound
    message. *)
Theorem list_button_opens_its_record (E : env) (user_id : Z) (p : Z)
    (chat_id message_id inline_message_id : value) (w : world) :
  reachable (med_collection w) ->
  (truthy chat_id && truthy message_id) || truthy inline_message_id = true ->
  (forall b,
     b ∈ record_buttons (get_medicine_list_keyboard
                           (_get_user_medicines user_id (med_collection w)) p MEDS_PER_PAGE) ->
     1 <= p ->
     exists m, m ∈ med_collection w /\ added_by m = user_id /\ b = med_button m)
  /\ (forall m,
        m ∈ med_collection w -> added_by m = user_id -> (_id m < 2 ^ 96)%N ->
        exists rest,
          view_medicine_details E (VStr (str_of_id (_id m))) user_id chat_id message_id
            inline_message_id w
          = (inr tt,
             add_calls
               (edit_message_text (edit_target chat_id message_id inline_message_id)
                  (TxtDetails m)
                  (Some (medicine_details_keyboard (VStr (str_of_id (_id m)))
                           (truthy inline_message_id)))
                :: rest) w)).
Proof.
  intros Hreach Hbound. apply reachable_unique in Hreach as [Hids _]. split.
  - intros b Hb Hp. rewrite records_of_keyboard in Hb by done.
    apply elem_of_map_1 in Hb as (m & -> & Hm).
    apply elem_of_take in Hm as (i & Hm & _).
    rewrite lookup_drop in Hm. apply list_elem_of_lookup_2 in Hm.
    apply elem_of_find_sorted in Hm as [Hm Hu]. unfold by_user in Hu.
    apply bool_decide_eq_true in Hu. by exists m.
  - intros m Hm Hu Hid. subst user_id.
    apply (view_medicine_details_found E _ _ _ _ _ w (_id m) m); [|by apply find_one_by_id|done].
    simpl. by apply ObjectId_str_of_id_round_trip.
Qed.

Lemma list_button_opens_its_record_witness :
  reachable [aspirin]
  /\ exists rest,
       view_medicine_details E0 (VStr (str_of_id 1)) 1 (VInt 10) (VInt 20) VNone
         (World [aspirin] None ∅ [])
       = (inr tt,
          add_calls
            (edit_message_text (Ordinary (VInt 10) (VInt 20)) (TxtDetails aspirin)
               (Some (medicine_details_keyboard (VStr (str_of_id 1)) false)) :: rest)
            (World [aspirin] None ∅ [])).
Proof.
  split; [exact reachable_aspirin|].
  destruct (list_button_opens_its_record E0 1 1 (VInt 10) (VInt 20) VNone
              (World [aspirin] None ∅ []) reachable_aspirin eq_refl) as [_ Hview].
  apply (Hview aspirin); [left|reflexivity|reflexivity].
Defined.

(** What [view_medicine_details] does in every case: calls on the gateway
    only, and no detail view but that of the user's document with the id. *)
Lemma view_medicine_details_run (E : env) (med_id : value) (user_id : Z)
    (chat_id message_id inline_message_id : value) (w : world) :
  exists cs,
    view_medicine_details E med_id user_id chat_id message_id inline_message_id w
    = (inr tt, add_calls cs w)
    /\ forall c m,
         c ∈ cs -> call_text c = Some (TxtDetails m) ->
         m ∈ med_collection w /\ added_by m = user_id /\ ObjectId_of med_id = Some (_id m).
Proof.
  destruct (view_medicine_details E med_id user_id chat_id message_id inline_message_id w)
    as [r w'] eqn:Hrun.
  unfold view_medicine_details in Hrun.
  assert (forall t cs, (forall m, t <> TxtDetails m) ->
            Forall (fun c => call_text c = None \/ call_text c = Some t) cs ->
            forall c m, c ∈ cs -> call_text c <> Some (TxtDetails m)) as Hother.
  { intros t cs Ht Hall c m Hc Hcm. rewrite Forall_forall in Hall.
    destruct (Hall c Hc) as [H|H]; rewrite H in Hcm; [done|].
    injection Hcm as ->. by apply (Ht m). }
  destruct (negb (truthy chat_id && truthy message_id) && negb (truthy inline_message_id)).
  { mrun Hrun. simplify_eq. eexists. split; [reflexivity|].
    intros c m ->%list_elem_of_singleton [=]. }
  destruct (ObjectId_of med_id) as [oid|] eqn:Hid.
  - mrun Hrun. destruct (find_one (by_id oid user_id) (med_collection w)) as [med|] eqn:Hfind.
    + mrun Hrun. run_safe_edit_in Hrun b cs Hcs. mrun Hrun. simplify_eq.
      exists cs. split; [reflexivity|]. intros c m Hc Hcm.
      rewrite Forall_forall in Htxt. destruct (Htxt c Hc) as [H|H]; rewrite H in Hcm; [done|].
      injection Hcm as <-. apply find_one_Some in Hfind as [Hin Hby].
      unfold by_id in Hby. apply andb_prop in Hby as [Hi%bool_decide_eq_true Hu%bool_decide_eq_true].
      by subst.
    + mrun Hrun. destruct (truthy inline_message_id); mrun Hrun.
      * run_safe_edit_in Hrun b cs Hcs. mrun Hrun. simplify_eq.
        eexists. split; [by rewrite add_calls_add_calls|].
        intros c m [->%list_elem_of_singleton|Hc]%elem_of_app Hcm; [done|].
        by destruct (Hother TxtMedNotFound cs ltac:(done) Htxt c m Hc Hcm).
      * destruct (truthy chat_id && truthy message_id); mrun Hrun.
        -- run_safe_edit_in Hrun b cs Hcs. mrun Hrun.
           run_show_list_in Hrun cs2. simplify_eq.
           eexists. split; [by rewrite !add_calls_add_calls|].
           intros c m Hc Hcm. rewrite Forall_forall in Hnd.
           repeat (apply elem_of_app in Hc as [Hc|Hc]).
           ++ by apply list_elem_of_singleton in Hc as ->.
           ++ by destruct (Hother TxtMedNotFound cs ltac:(done) Htxt c m Hc Hcm).
           ++ by apply list_elem_of_singleton in Hc as ->.
           ++ specialize (Hnd c Hc). unfold shows_details in Hnd. by rewrite Hcm in Hnd.
        -- mrun Hrun. simplify_eq. eexists. split; [reflexivity|].
           intros c m ->%list_elem_of_singleton [=].
  - mrun Hrun. run_safe_edit_in Hrun b cs Hcs. mrun Hrun. simplify_eq.
    eexists. split; [by rewrite add_calls_add_calls|].
    intros c m [->%list_elem_of_singleton|Hc]%elem_of_app Hcm; [done|].
    by destruct (Hother TxtInvalidId cs ltac:(done) Htxt c m Hc Hcm).
Qed.

(** X5.  [view_medicine_details] only reads: it never raises and leaves the
    collection and the conversation context as they are; and the only detail
    view it can render is that of the document with the given id that the
    requesting user owns. *)
Theorem view_medicine_details_own_record_only (E : env) (med_id : value) (user_id : Z)
    (chat_id message_id inline_message_id : value) (w : world) :
  let r := view_medicine_details E med_id user_id chat_id message_id inline_message_id w in
  r.1 = inr tt
  /\ med_collection r.2 = med_collection w /\ state r.2 = state w /\ data r.2 = data w
  /\ exists cs,
       calls r.2 = calls w ++ cs
       /\ forall c m,
            c ∈ cs -> call_text c = Some (TxtDetails m) ->
            m ∈ med_collection w /\ added_by m = user_id
            /\ ObjectId_of med_id = Some (_id m).
Proof.
  cbv zeta.
  destruct (view_medicine_details_run E med_id user_id chat_id message_id inline_message_id w)
    as (cs & -> & Hcs).
  simpl. repeat split; try done. by exists cs.
Qed.



(** ** Whom the daily reminder writes to, and about what *)

Lemma soon_not_expired (today_iso limit_iso : str) (user_id : Z) (m : medicine) :
  query_soon today_iso limit_iso user_id m = true -> query_expired today_iso user_id m = false.
Proof.
  unfold query_soon, query_expired, str_leb, str_ltb.
  rewrite (str_compare_antisym today_iso (exp_date m)).
  destruct (by_user user_id m); [|done]. simpl.
  by destruct (str_compare today_iso (exp_date m)).
Qed.

(** X6.  The daily reminder prepares at most one digest for a user and none
    that is empty; a digest for a user lists only documents of the collection
    that this user owns, and none of them in both sections; every document
    that matches one of the two queries of its owner is in the owner's
    digest.  The only failure is the overflow of [today + 30 days]. *)
Theorem daily_reminder_digests (today : date) (c : collection) :
  match daily_reminder today c with
  | inr sent =>
      exists limit,
        add_days 30 today = Some limit
        /\ NoDup (List.map fst sent)
        /\ (forall u d, (u, d) ∈ sent ->
              (expiring_soon d <> [] \/ expired d <> [])
              /\ (forall m, m ∈ expiring_soon d ++ expired d -> m ∈ c /\ added_by m = u)
              /\ (forall m, m ∈ expiring_soon d -> m ∉ expired d))
        /\ (forall m, m ∈ c ->
              (query_soon (isoformat today) (isoformat limit) (added_by m) m = true ->
               exists d, (added_by m, d) ∈ sent /\ m ∈ expiring_soon d)
              /\ (query_expired (isoformat today) (added_by m) m = true ->
                  exists d, (added_by m, d) ∈ sent /\ m ∈ expired d))
  | inl e => e = OverflowError /\ add_days 30 today = None
  end.
Proof.
  unfold daily_reminder. cbv zeta.
  destruct (add_days 30 today) as [limit|] eqn:Hlimit; [|done].
  exists limit. split; [done|].
  set (P := fun ud : Z * digest =>
              negb (bool_decide (expiring_soon ud.2 = []))
              || negb (bool_decide (expired ud.2 = []))).
  set (f := fun user_id => user_digest today limit user_id c).
  assert (forall u d, (u, d) ∈ List.filter P (List.map (fun user_id => (user_id, f user_id))
                                               (distinct_added_by c)) ->
            d = f u /\ P (u, d) = true) as Hsent.
  { intros u d Hin. apply list_elem_of_In, filter_In in Hin as [Hin HP].
    apply in_map_iff in Hin as (u' & [= <- <-] & _). done. }
  split; [|split].
  - rewrite map_fst_filter_pairs. apply NoDup_List_filter.
    unfold distinct_added_by. apply NoDup_remove_dups.
  - intros u d Hin. destruct (Hsent u d Hin) as [-> HP]. split; [|split].
    + unfold P in HP. cbn [snd] in HP. apply orb_prop in HP as [HP|HP].
      * left. intros Hnil. by rewrite bool_decide_eq_true_2 in HP.
      * right. intros Hnil. by rewrite bool_decide_eq_true_2 in HP.
    + intros m. unfold f, user_digest. simpl.
      rewrite elem_of_app, !elem_of_find_sorted. unfold query_soon, query_expired, by_user.
      intros [[Hm Hq]|[Hm Hq]]; split; try done.
      * apply andb_prop in Hq as [Hq _]. apply andb_prop in Hq as [Hq _].
        by apply bool_decide_eq_true in Hq.
      * apply andb_prop in Hq as [Hq _]. by apply bool_decide_eq_true in Hq.
    + intros m. unfold f, user_digest. simpl. rewrite !elem_of_find_sorted.
      intros [_ Hsoon] [_ Hexp]. apply soon_not_expired in Hsoon. congruence.
  - intros m Hm.
    assert (added_by m ∈ distinct_added_by c) as Hu.
    { unfold distinct_added_by. apply elem_of_remove_dups. by apply elem_of_map_2. }
    assert (forall d, d = f (added_by m) -> P (added_by m, d) = true ->
              (added_by m, d) ∈ List.filter P
                (List.map (fun user_id => (user_id, f user_id)) (distinct_added_by c))) as Hin.
    { intros d -> HP. apply list_elem_of_In, filter_In. split; [|done].
      apply in_map_iff. exists (added_by m). split; [done|]. by apply list_elem_of_In. }
    split; intros Hq; exists (f (added_by m)).
    + assert (m ∈ expiring_soon (f (added_by m))) as Hmem.
      { unfold f, user_digest. simpl. by apply elem_of_find_sorted. }
      split; [|done]. apply Hin; [done|]. unfold P. cbn [snd].
      destruct (expiring_soon (f (added_by m))); [by apply elem_of_nil in Hmem|].
      by rewrite bool_decide_eq_false_2.
    + assert (m ∈ expired (f (added_by m))) as Hmem.
      { unfold f, user_digest. simpl. by apply elem_of_find_sorted. }
      split; [|done]. apply Hin; [done|]. unfold P. cbn [snd].
      destruct (expired (f (added_by m))); [by apply elem_of_nil in Hmem|].
      rewrite (bool_decide_eq_false_2 (_ :: _ = [])) by done. by rewrite orb_true_r.
Qed.


(** ** What an edit can change *)

Ltac run_view_in H cs :=
  match type of H with
  | context [view_medicine_details ?E ?a ?b ?c ?d ?e ?w] =>
      let Hv := fresh "Hv" in
      destruct (view_medicine_details_run E a b c d e w) as (cs & Hv & _);
      rewrite Hv in H; clear Hv
  end.



(** How [_save_edited_medicine] ends, whatever its arguments: without
    reaching [update_one] and with the collection as it was; or with the
    result of [update_one] on the collection as it is then. *)
Lemma _save_edited_medicine_outcome (E : env) (user_id : Z)
    (med_id field_to_edit new_value : value) (update_data_dict : gmap str value)
    (chat_id message_id inline_message_id : value) (w : world) :
  let r := _save_edited_medicine E user_id med_id field_to_edit new_value update_data_dict
             chat_id message_id inline_message_id w in
  let c0 := concurrent E (med_collection w) in
  (med_collection r.2 = med_collection w /\ (r.1 = inr tt \/ r.1 = inl AttributeError))
  \/ (completed_update field_to_edit new_value update_data_dict = None
      /\ med_collection r.2 = c0 /\ r.1 = inl InvalidDocument)
  \/ exists oid upd,
       ObjectId_of med_id = Some oid
       /\ completed_update field_to_edit new_value update_data_dict = Some upd
       /\ match update_one (by_id oid user_id) upd c0 with
          | inl e => r.1 = inl e /\ med_collection r.2 = c0
          | inr (_, c') => r.1 = inr tt /\ med_collection r.2 = c'
          end.
Proof.
  cbv zeta.
  destruct (_save_edited_medicine E user_id med_id field_to_edit new_value update_data_dict
              chat_id message_id inline_message_id w) as [res w'] eqn:Hrun.
  cbn [fst snd]. unfold _save_edited_medicine in Hrun.
  destruct (ObjectId_of med_id) as [oid|] eqn:Hid; mrun Hrun;
    [|simplify_eq; left; split; [done|by left]].
  destruct (find_one (by_id oid user_id) (med_collection w)) as [cur|] eqn:Hcur; mrun Hrun;
    [|simplify_eq; left; split; [done|by right]].
  case_bool_decide as Hempty; mrun Hrun.
  { run_view_in Hrun cs. simplify_eq. left. split; [done|by left]. }
  destruct (completed_update field_to_edit new_value update_data_dict) as [upd|]; mrun Hrun;
    [|simplify_eq; right; by left].
  right. right. exists oid, upd. split; [done|]. split; [done|].
  unfold db_update_one in Hrun. cbn [med_collection state data calls] in Hrun.
  destruct (update_one (by_id oid user_id) upd (concurrent E (med_collection w)))
    as [e|[r c']] eqn:Hupd; mrun Hrun; [by simplify_eq|].
  destruct (matched_count r =? 0)%nat; mrun Hrun.
  - destruct (truthy inline_message_id); mrun Hrun.
    + run_safe_edit_in Hrun b cs1 Hcs1. mrun Hrun.
      run_main_menu_in Hrun cs2 Hcs2. by simplify_eq.
    + destruct (truthy chat_id && truthy message_id); mrun Hrun.
      * run_safe_edit_in Hrun b cs1 Hcs1. mrun Hrun.
        run_show_list_in Hrun cs2. by simplify_eq.
      * by simplify_eq.
  - destruct (modified_count r =? 0)%nat; mrun Hrun.
    + run_view_in Hrun cs. by simplify_eq.
    + run_view_in Hrun cs. by simplify_eq.
Qed.




(** ** New values the edit flow refuses *)

(** X8.  In the edit flow, a new value that fails the validation changes
    nothing: the handler only replies with the reason, and the state, the
    data and the collection stay as they are.  The validation fails for a
    blank name, quantity or notes, for a name that another medicine of the
    user already has (letter case ignored), for a text that is no date and
    for a date before today. *)
Theorem rejected_new_value_changes_nothing (E : env) (message_text : str) (user_id : Z)
    (w : world) :
  let d := data w in
  let field_to_edit := get d "field_to_edit" in
  let med_id := get d "med_id" in
  let message_id := py_or (get d "calendar_message_id") (get d "prompt_message_id") in
  let validated :=
    (validate_new_value E field_to_edit med_id user_id (strip message_text) w).1 in
  forallb truthy [med_id; get d "med_name"; field_to_edit] = true ->
  truthy (get d "prompt_chat_id") && truthy message_id || truthy (get d "inline_message_id")
  = true ->
  (forall why, validated = inr (inl why) ->
     process_new_value_text E message_text user_id w
     = (inr tt, add_calls [message_reply (TxtTryAgain why)] w))
  /\ (strip message_text = [] ->
      (field_to_edit = VStr (u "name") -> validated = inr (inl EmptyName))
      /\ (field_to_edit = VStr (u "quantity") -> validated = inr (inl EmptyQuantity))
      /\ (field_to_edit = VStr (u "notes") -> validated = inr (inl EmptyNotes)))
  /\ (forall oid other,
        field_to_edit = VStr (u "name") -> strip message_text <> [] ->
        ObjectId_of med_id = Some oid ->
        other ∈ med_collection w -> added_by other = user_id ->
        name_lower other = lower (strip message_text) -> _id other <> oid ->
        validated = inr (inl (NameExists (strip message_text))))
  /\ (field_to_edit = VStr (u "exp_date") ->
      (strptime (strip message_text) = None -> validated = inr (inl BadDateFormat))
      /\ (forall dt, strptime (strip message_text) = Some dt -> date_ltb dt (today E) = true ->
            validated = inr (inl DateInPast))).
Proof.
  cbv zeta. intros Hall Hbound. split; [|split; [|split]].
  - intros why Hval.
    pose proof (validate_new_value_world E (get (data w) "field_to_edit")
                  (get (data w) "med_id") user_id (strip message_text) w) as Hw.
    unfold process_new_value_text. rewrite bind_run. unfold get_data. cbv beta iota.
    rewrite Hall, Hbound. cbn [negb orb]. rewrite bind_run.
    destruct (validate_new_value E _ _ user_id (strip message_text) w) as [res w'].
    simpl in Hw, Hval. subst w' res. cbv beta iota. by rewrite emit_run.
  - intros Hblank. rewrite Hblank. unfold validate_new_value.
    split; [|split]; intros ->; reflexivity.
  - intros oid other Hfield Hne Hid Hother Hu Hname Hoid.
    unfold validate_new_value. rewrite Hfield, Hid.
    rewrite bool_decide_eq_true_2 by done.
    assert (truthy (VStr (strip message_text)) = true) as ->.
    { simpl. by rewrite bool_decide_eq_false_2. }
    cbn [negb]. rewrite bind_run. unfold db_read. cbv beta iota.
    destruct (find_one _ (med_collection w)) as [found|] eqn:Hfind; [reflexivity|].
    exfalso. apply (find_one_None _ _ other) in Hfind; [|done].
    unfold by_name_lower_ne_id in Hfind.
    by rewrite (bool_decide_eq_true_2 _ Hname), (bool_decide_eq_true_2 _ Hu),
      (bool_decide_eq_false_2 _ Hoid) in Hfind.
  - intros Hfield. unfold validate_new_value. rewrite Hfield. split.
    + intros Hparse. rewrite Hparse. reflexivity.
    + intros dt Hparse Hpast. rewrite Hparse. simpl. by rewrite Hpast.
Qed.

Lemma rejected_new_value_changes_nothing_witness :
  forallb truthy [get (data w_edit) "med_id"; get (data w_edit) "med_name";
                  get (data w_edit) "field_to_edit"] = true
  /\ process_new_value_text E0 (u "  ") 1 w_edit
     = (inr tt, add_calls [message_reply (TxtTryAgain EmptyQuantity)] w_edit).
Proof.
  split; [reflexivity|].
  destruct (rejected_new_value_changes_nothing E0 (u "  ") 1 w_edit eq_refl eq_refl)
    as [Hreply _].
  apply Hreply. reflexivity.
Defined.


(** ** The unique index under edits *)

Lemma NoDup_map_eq {A B} (g : A -> B) (l : list A) (x y : A) :
  NoDup (List.map g l) -> x ∈ l -> y ∈ l -> g x = g y -> x = y.
Proof.
  induction l as [|a l IH]; simpl; [by intros _ ?%elem_of_nil|].
  intros [Ha Hl]%NoDup_cons [->|Hx]%elem_of_cons [->|Hy]%elem_of_cons Hg; [done| | |by apply IH].
  - exfalso. apply Ha. rewrite Hg. by apply elem_of_map_2.
  - exfalso. apply Ha. rewrite <- Hg. by apply elem_of_map_2.
Qed.

Lemma update_one_alone (c : collection) (oid : N) (user_id : Z) (upd : gmap str value)
    (m m' : medicine) :
  find_one (by_id oid user_id) c = Some m -> apply_set upd m = Some m' ->
  (forall o, o ∈ c -> _id o <> _id m -> index_key o <> index_key m') ->
  update_one (by_id oid user_id) upd c <> inl DuplicateKeyError.
Proof.
  intros Hfind Hset Hfree. unfold update_one. rewrite Hfind, Hset.
  case_bool_decide; [done|]. case_bool_decide as Hex; [|done].
  apply Exists_exists in Hex as (o & Ho & Hne & Hkey). by destruct (Hfree o Ho Hne).
Qed.

(** The name fields of a document after [$set]. *)
Lemma apply_set_names (upd : gmap str value) (m m' : medicine) :
  apply_set upd m = Some m' ->
  str_of (upd !! u "name") (name m) = Some (name m')
  /\ str_of (upd !! u "name_lower") (name_lower m) = Some (name_lower m').
Proof.
  unfold apply_set. case_bool_decide; [|done].
  destruct (str_of (upd !! u "name") (name m)) as [n|]; [|done].
  destruct (str_of (upd !! u "name_lower") (name_lower m)) as [nl|]; [|done].
  destruct (str_of (upd !! u "quantity") (quantity m)) as [q|]; [|done].
  destruct (str_of (upd !! u "notes") (notes m)) as [no|]; [|done].
  destruct (str_of (upd !! u "exp_date") (exp_date m)) as [e|]; [|done].
  simpl. by intros [= <-].
Qed.

(** What the validation hands over, field by field: a new name with its
    lower-cased form, no other medicine of the user having it; or a
    dictionary that leaves both name fields alone. *)
Lemma validated_names (E : env) (field_to_edit med_id : value) (user_id : Z)
    (new_value_str : str) (w : world) (upd : gmap str value) (v : value) :
  (validate_new_value E field_to_edit med_id user_id new_value_str w).1 = inr (inr (upd, v)) ->
  (upd !! u "name" = Some (VStr new_value_str)
   /\ upd !! u "name_lower" = Some (VStr (lower new_value_str))
   /\ exists oid, ObjectId_of med_id = Some oid
        /\ find_one (by_name_lower_ne_id (lower new_value_str) user_id oid) (med_collection w)
           = None)
  \/ (upd !! u "name" = None /\ upd !! u "name_lower" = None).
Proof.
  unfold validate_new_value, ret, raise, bind, db_read.
  case_bool_decide as Hname; [|case_bool_decide as Hq; [|case_bool_decide as Hn;
    [|case_bool_decide as He]]]; subst.
  - destruct (negb _); [done|]. destruct (ObjectId_of med_id) as [oid|]; [|done].
    destruct (find_one _ _) eqn:Hfind; [done|]. simpl. intros [= <- <-]. left.
    split; [|split; [|by exists oid]].
    + rewrite lookup_insert_ne by done. by rewrite lookup_insert_eq.
    + by rewrite lookup_insert_eq.
  - destruct (negb _); [done|]. simpl. intros [= <- <-]. right.
    by rewrite !lookup_insert_ne, !lookup_empty.
  - destruct (negb _); [done|]. simpl. intros [= <- <-]. right.
    by rewrite !lookup_insert_ne, !lookup_empty.
  - destruct (strptime _) as [dt|]; [|done]. destruct (date_ltb _ _); [done|].
    simpl. intros [= <- <-]. right. by rewrite !lookup_insert_ne, !lookup_empty.
  - simpl. intros [= <- <-]. right. by rewrite !lookup_empty.
Qed.

(** How [process_new_value_text] ends: without a call of
    [_save_edited_medicine] and with the collection as it was, or as that
    call on the validated value ends. *)
Lemma process_new_value_text_cases (E : env) (message_text : str) (user_id : Z) (w : world) :
  let d := data w in
  let r := process_new_value_text E message_text user_id w in
  (med_collection r.2 = med_collection w /\ (r.1 = inr tt \/ r.1 = inl InvalidId))
  \/ exists upd v,
       (validate_new_value E (get d "field_to_edit") (get d "med_id") user_id
          (strip message_text) w).1 = inr (inr (upd, v))
       /\ r = _save_edited_medicine E user_id (get d "med_id") (get d "field_to_edit") v upd
                (get d "prompt_chat_id")
                (py_or (get d "calendar_message_id") (get d "prompt_message_id"))
                (get d "inline_message_id") (add_calls [message_delete] w).
Proof.
  cbv zeta.
  destruct (forallb truthy [get (data w) "med_id"; get (data w) "med_name";
                            get (data w) "field_to_edit"]) eqn:Hall;
    [destruct (truthy (get (data w) "prompt_chat_id")
               && truthy (py_or (get (data w) "calendar_message_id")
                                (get (data w) "prompt_message_id"))
               || truthy (get (data w) "inline_message_id")) eqn:Hbound|].
  - pose proof (validate_new_value_world E (get (data w) "field_to_edit")
                  (get (data w) "med_id") user_id (strip message_text) w) as Hw.
    destruct (validate_new_value E (get (data w) "field_to_edit") (get (data w) "med_id")
                user_id (strip message_text) w) as [[e|[why|[upd v]]] w1] eqn:Hval;
      simpl in Hw; subst w1.
    + left. unfold process_new_value_text. rewrite bind_run. unfold get_data.
      cbv beta iota. rewrite Hall, Hbound. cbn [negb orb]. rewrite bind_run, Hval.
      split; [done|]. right.
      unfold validate_new_value, ret, raise, bind, db_read in Hval.
      repeat case_bool_decide; repeat (destruct (negb _)); try done;
        try (destruct (ObjectId_of _); [destruct (find_one _ _); done|by simplify_eq]);
        destruct (strptime _); try done; by destruct (date_ltb _ _).
    + left. unfold process_new_value_text. rewrite bind_run. unfold get_data.
      cbv beta iota. rewrite Hall, Hbound. cbn [negb orb]. rewrite bind_run, Hval.
      cbv beta iota. rewrite emit_run. split; [done|by left].
    + right. exists upd, v. split; [done|].
      apply process_new_value_text_validated; [done|done|]. by rewrite Hval.
  - left.
    destruct (process_new_value_text E message_text user_id w) as [res w'] eqn:Hrun.
    unfold process_new_value_text in Hrun. mrun Hrun.
    rewrite Hall, Hbound in Hrun. cbn [negb orb] in Hrun. mrun Hrun.
    apply orb_false_elim in Hbound as [Hcm Hi]. rewrite Hi, Hcm in Hrun.
    mrun Hrun. simplify_eq. split; [done|by left].
  - left.
    destruct (process_new_value_text E message_text user_id w) as [res w'] eqn:Hrun.
    unfold process_new_value_text in Hrun. mrun Hrun.
    rewrite Hall in Hrun. cbn [negb orb] in Hrun. mrun Hrun.
    destruct (truthy (get (data w) "inline_message_id")); mrun Hrun.
    + run_main_menu_in Hrun cs Hcs. simplify_eq. split; [done|by left].
    + destruct (truthy (get (data w) "prompt_chat_id") && _); mrun Hrun.
      * run_main_menu_in Hrun cs Hcs. simplify_eq. split; [done|by left].
      * simplify_eq. split; [done|by left].
Qed.

(** X9.  When no other handler writes in between, the edit flow never runs
    into the unique index: [process_new_value_text] does not raise
    [DuplicateKeyError], the collection it leaves is again one the program
    can reach (one key, one document), and if every document had the
    lower-cased name as its [name_lower], every document still has. *)
Theorem edit_alone_keeps_the_index (E : env) (message_text : str) (user_id : Z) (w : world) :
  reachable (med_collection w) ->
  concurrent E (med_collection w) = med_collection w ->
  let r := process_new_value_text E message_text user_id w in
  r.1 <> inl DuplicateKeyError
  /\ reachable (med_collection r.2)
  /\ ((forall m, m ∈ med_collection w -> name_lower m = lower (name m)) ->
      forall m, m ∈ med_collection r.2 -> name_lower m = lower (name m)).
Proof.
  intros Hreach Hc. cbv zeta.
  destruct (process_new_value_text_cases E message_text user_id w)
    as [[-> Hres]|(upd & v & Hval & ->)].
  { split; [by destruct Hres as [-> | ->]|]. by split. }
  destruct (validated_update E _ _ _ _ _ _ _ Hval) as [Hcompl _].
  pose proof (validated_names E _ _ _ _ _ _ _ Hval) as Hnames.
  set (d := data w) in *.
  destruct (_save_edited_medicine_outcome E user_id (get d "med_id") (get d "field_to_edit")
              v upd (get d "prompt_chat_id")
              (py_or (get d "calendar_message_id") (get d "prompt_message_id"))
              (get d "inline_message_id") (add_calls [message_delete] w))
    as [[Hcoll Hres]|[(Hnone & _)|(oid & upd' & Hid & Hupd' & Hone)]];
    cbn [add_calls med_collection] in *.
  { rewrite Hcoll. split; [by destruct Hres as [-> | ->]|]. by split. }
  { congruence. }
  rewrite Hcompl in Hupd'. injection Hupd' as <-. rewrite Hc in Hone.
  pose proof (reachable_unique _ Hreach) as [Hids Hkeys].
  destruct (update_one (by_id oid user_id) upd (med_collection w)) as [e|[res c']] eqn:Hupd.
  - destruct Hone as [-> ->]. split; [|by split].
    intros [= ->]. revert Hupd. unfold update_one.
    destruct (find_one (by_id oid user_id) (med_collection w)) as [m|] eqn:Hm; [|done].
    destruct (apply_set upd m) as [m'|] eqn:Hset; [|done].
    fold (update_one (by_id oid user_id) upd (med_collection w)).
    case_bool_decide; [done|]. case_bool_decide as Hex; [|done]. intros _.
    apply Exists_exists in Hex as (o & Ho & Hne & Hkey).
    apply find_one_Some in Hm as [Hmc Hby]. unfold by_id in Hby.
    apply andb_prop in Hby as [Hmid%bool_decide_eq_true Hmu%bool_decide_eq_true].
    destruct (apply_set_names _ _ _ Hset) as [_ Hnl].
    destruct (apply_set_id _ _ _ Hset) as [_ Hu'].
    unfold index_key in Hkey. injection Hkey as Hou Honl.
    destruct Hnames as [(_ & Hl & oid' & Hid' & Hfree)|[_ Hl]]; rewrite Hl in Hnl;
      simpl in Hnl; injection Hnl as Hnl.
    + rewrite Hid in Hid'. injection Hid' as <-.
      apply (find_one_None _ _ o) in Hfree; [|done].
      unfold by_name_lower_ne_id in Hfree.
      rewrite bool_decide_eq_true_2 in Hfree by congruence.
      rewrite bool_decide_eq_true_2 in Hfree by congruence.
      rewrite bool_decide_eq_false_2 in Hfree by congruence. done.
    + apply Hne. f_equal. apply (NoDup_map_eq index_key (med_collection w)); try done.
      unfold index_key. congruence.
  - destruct Hone as [-> ->]. split; [done|].
    assert (reachable c') as Hreach'.
    { eapply rtc_r; [exact Hreach|]. by eapply write_update. }
    split; [done|]. intros Hinv.
    apply update_one_result in Hupd
      as [(_ & _ & ->)|[(m & _ & _ & _ & ->)|(m & m' & Hm & Hset & _ & _ & ->)]]; try done.
    intros x [->|Hx]%replace_first_elem; [|by apply Hinv].
    apply find_one_Some in Hm as [Hmc _].
    destruct (apply_set_names _ _ _ Hset) as [Hn Hnl].
    destruct Hnames as [(Hln & Hl & _)|[Hln Hl]]; rewrite Hl in Hnl; rewrite Hln in Hn;
      simpl in Hn, Hnl; injection Hn as Hn; injection Hnl as Hnl.
    + by rewrite <- Hn, <- Hnl.
    + rewrite <- Hn, <- Hnl. by apply Hinv.
Qed.

Lemma edit_alone_keeps_the_index_witness :
  reachable (med_collection w_edit)
  /\ concurrent E0 (med_collection w_edit) = med_collection w_edit
  /\ (process_new_value_text E0 (u "20 шт") 1 w_edit).1 <> inl DuplicateKeyError.
Proof.
  split; [exact reachable_aspirin|]. split; [reflexivity|].
  apply (edit_alone_keeps_the_index E0 (u "20 шт") 1 w_edit reachable_aspirin eq_refl).
Defined.


(** ** The expiry dates the add flow stores *)

Lemma digit_val_digit (n : Z) : digit_val (digit n) = Some (n mod 10).
Proof.
  pose proof (Z.mod_pos_bound n 10 ltac:(lia)) as Hn.
  unfold digit_val, digit, decimal_zeros. cbn [List.find].
  assert (in_range 48 (48 + 9) (Z.to_N (48 + n mod 10)) = true) as ->.
  { unfold in_range. apply andb_true_intro. split; apply N.leb_le; lia. }
  f_equal. lia.
Qed.

Lemma parse_Y_pad4 (y : Z) (r : str) :
  0 <= y <= 9999 -> parse_Y (pad4 y ++ r) = Some (y, r).
Proof.
  intros Hy. unfold pad4. cbn [app parse_Y]. rewrite !digit_val_digit.
  f_equal. f_equal. Z.to_euclidean_division_equations. lia.
Qed.

Lemma parse_m_pad2 (m : Z) (r : str) :
  1 <= m <= 12 -> parse_m (pad2 m ++ r) = Some (m, r).
Proof.
  intros Hm.
  assert (m = 1 \/ m = 2 \/ m = 3 \/ m = 4 \/ m = 5 \/ m = 6 \/ m = 7 \/ m = 8 \/ m = 9
          \/ m = 10 \/ m = 11 \/ m = 12) as Hcases by lia.
  repeat (destruct Hcases as [->|Hcases]; [reflexivity|]). by subst.
Qed.

Lemma parse_d_pad2 (d : Z) : 1 <= d <= 31 -> parse_d (pad2 d) = Some (d, []).
Proof.
  intros Hd.
  assert (Z.to_nat d ∈ seq 1 31) as Hin by (apply elem_of_seq; lia).
  replace d with (Z.of_nat (Z.to_nat d)) by lia.
  revert Hin. generalize (Z.to_nat d). intros n Hn.
  cbn [seq] in Hn.
  repeat (apply elem_of_cons in Hn as [->|Hn]; [reflexivity|]).
  by apply elem_of_nil in Hn.
Qed.

(** [strptime] reads back what [isoformat] prints. *)
Lemma strptime_isoformat (d : date) : valid_date d = true -> strptime (isoformat d) = Some d.
Proof.
  intros Hv. pose proof (valid_date_bounds d Hv) as (Hy & Hm & Hd).
  pose proof (days_in_month_le_31 (year d) (month d)).
  unfold strptime, isoformat.
  rewrite parse_Y_pad4 by lia. cbn [mbind option_bind expect_dash app N.eqb Pos.eqb].
  rewrite parse_m_pad2 by lia. cbn [mbind option_bind expect_dash app N.eqb Pos.eqb].
  rewrite parse_d_pad2 by lia. cbn [mbind option_bind].
  unfold mk_date. destruct d as [y m dd]. simpl in *. by rewrite Hv.
Qed.

Lemma strptime_valid (s : str) (d : date) : strptime s = Some d -> valid_date d = true.
Proof.
  unfold strptime.
  destruct (parse_Y s) as [[y s1]|]; [|done]. cbn [mbind option_bind].
  destruct (expect_dash s1) as [s2|]; [|done]. cbn [mbind option_bind].
  destruct (parse_m s2) as [[m s3]|]; [|done]. cbn [mbind option_bind].
  destruct (expect_dash s3) as [s4|]; [|done]. cbn [mbind option_bind].
  destruct (parse_d s4) as [[dd s5]|]; [|done]. cbn [mbind option_bind].
  destruct s5; [|done]. unfold mk_date.
  destruct (valid_date (Date y m dd)) eqn:Hv; [|done]. by intros [= <-].
Qed.

(** The commit step on a context whose expiry date has just been set. *)
Lemma _save_new_medicine_expiry (E : env) (user_id : Z) (chat_id message_id : value)
    (w : world) (iso : str) :
  get (data w) "exp_date" = VStr iso ->
  let c' := med_collection (_save_new_medicine E user_id chat_id message_id w).2 in
  c' = med_collection w
  \/ exists m, c' = med_collection w ++ [m] /\ exp_date m = iso /\ added_by m = user_id.
Proof.
  intros Hiso. cbv zeta.
  destruct (_save_new_medicine_run E user_id chat_id message_id w) as
    (cs & [(_ & ->)|[(_ & doc & c' & Hdoc & Hins & ->)
          |[(_ & doc & _ & _ & -> & _)|(_ & _ & ->)]]]); simpl; try by left.
  right. apply insert_one_inr in Hins as [-> _].
  apply med_doc_of_Some in Hdoc as (_ & _ & _ & _ & He & Hu).
  exists (with_id (fresh_id (med_collection w)) doc). split; [done|]. simpl.
  rewrite Hiso in He. by injection He as ->.
Qed.

(** X10.  Whatever is typed or selected at the expiry step of the add flow,
    the step adds at most one document, the requesting user's; its
    [exp_date] is the ISO form of the date that was typed or selected, which
    is a real calendar date not before today, and [strptime] reads the stored
    string back as that date. *)
Theorem stored_expiry_is_canonical (E : env) (message_text : str) (user_id : Z)
    (year month day : Z) (callback_message : option (Z * Z)) (w : world) :
  (let c' := med_collection (process_medicine_exp_date_text E message_text user_id w).2 in
   c' = med_collection w
   \/ exists m d,
        c' = med_collection w ++ [m] /\ added_by m = user_id
        /\ strptime (strip message_text) = Some d /\ exp_date m = isoformat d
        /\ valid_date d = true /\ date_ltb d (today E) = false
        /\ strptime (exp_date m) = Some d)
  /\ (state w = Some waiting_for_exp_date ->
      let c' := med_collection
                  (handle_date_select E year month (Some day) user_id callback_message w).2 in
      c' = med_collection w
      \/ exists m,
           c' = med_collection w ++ [m] /\ added_by m = user_id
           /\ exp_date m = isoformat (Date year month day)
           /\ valid_date (Date year month day) = true
           /\ date_ltb (Date year month day) (today E) = false
           /\ strptime (exp_date m) = Some (Date year month day)).
Proof.
  split.
  - cbv zeta. unfold process_medicine_exp_date_text. rewrite bind_run. unfold get_data.
    cbv beta iota.
    destruct (strptime (strip message_text)) as [d|] eqn:Hparse; [|by left].
    destruct (date_ltb d (today E)) eqn:Hpast; [by left|].
    rewrite bind_run. unfold update_data. cbv beta iota. cbn [foldl fst snd].
    rewrite bind_run, emit_run. cbv beta iota.
    match goal with
    | |- context [_save_new_medicine E user_id ?c ?m ?w1] =>
        destruct (_save_new_medicine_expiry E user_id c m w1 (isoformat d))
          as [Hsame|(med & Hadd & Hexp & Hu)]
    end.
    + cbn [add_calls data]. apply get_insert_eq.
    + left. exact Hsame.
    + right. exists med, d. cbn [add_calls med_collection] in Hadd.
      pose proof (strptime_valid _ _ Hparse) as Hv.
      repeat split; try done. rewrite Hexp. by apply strptime_isoformat.
  - intros Hstate. cbv zeta. unfold handle_date_select.
    destruct (mk_date year month day) as [d|] eqn:Hdate; [|by left].
    unfold mk_date in Hdate. destruct (valid_date (Date year month day)) eqn:Hv; [|done].
    injection Hdate as <-.
    destruct (date_ltb (Date year month day) (today E)) eqn:Hpast; [by left|].
    rewrite bind_run, emit_run. cbv beta iota.
    rewrite bind_run. unfold update_data. cbv beta iota. cbn [foldl fst snd].
    rewrite bind_run. unfold get_state. cbv beta iota.
    rewrite bind_run. unfold get_data. cbv beta iota.
    cbn [add_calls med_collection state data calls]. rewrite Hstate.
    destruct (truthy _ && truthy _).
    + match goal with
      | |- context [_save_new_medicine E user_id ?c ?m ?w1] =>
          destruct (_save_new_medicine_expiry E user_id c m w1
                      (isoformat (Date year month day)))
            as [Hsame|(med & Hadd & Hexp & Hu)]
      end.
      * cbn [data]. apply get_insert_eq.
      * left. exact Hsame.
      * right. exists med. cbn [med_collection] in Hadd.
        repeat split; try done. rewrite Hexp. by apply strptime_isoformat.
    + left. rewrite bind_run, emit_run. reflexivity.
Qed.

(** A date typed with a one-digit day is stored with two digits. *)
Example stored_expiry_example :
  med_collection (process_medicine_exp_date_text E0 (u "2026-12-2") 1 (w_add [])).2
  = [Medicine 1 (u "Аспирин") (u "аспирин") (u "10 шт") (u "-") (u "2026-12-02") 1].
Proof. vm_compute. reflexivity. Qed.


(** ** Finding what was added *)

Ltac bool_to_prop :=
  repeat match goal with
  | H : (_ && _)%bool = true |- _ => apply andb_prop in H as [? ?]
  | H : (_ && _)%bool = false |- _ => apply andb_false_iff in H as [?|?]
  | H : negb _ = true |- _ => apply negb_true_iff in H
  | H : negb _ = false |- _ => apply negb_false_iff in H
  | H : (_ <=? _)%N = true |- _ => apply N.leb_le in H
  | H : (_ <=? _)%N = false |- _ => apply N.leb_gt in H
  | H : (_ =? _)%N = true |- _ => apply N.eqb_eq in H
  | H : (_ =? _)%N = false |- _ => apply N.eqb_neq in H
  end.

Lemma lower_char_idemp (c : N) : lower_char (lower_char c) = lower_char c.
Proof.
  unfold lower_char.
  repeat match goal with
         | |- context [if ?b then _ else _] => destruct b eqn:?
         end; try reflexivity; bool_to_prop; lia.
Qed.

Lemma lower_idemp (s : str) : lower (lower s) = lower s.
Proof.
  unfold lower. rewrite map_map. apply map_ext. intros c. apply lower_char_idemp.
Qed.

(** The page of the results on which a matching document is listed. *)
Lemma found_on_some_page {A} (found : list A) (m : A) :
  m ∈ found -> exists offset : nat, m ∈ take 20 (drop offset found).
Proof.
  intros [i Hi]%list_elem_of_lookup_1. exists (20 * (i / 20))%nat.
  apply (list_elem_of_lookup_2 _ (i mod 20)).
  rewrite lookup_take_lt by (apply Nat.mod_upper_bound; lia).
  rewrite lookup_drop. by rewrite <- Nat.div_mod_eq.
Qed.

(** X11.  A medicine the commit step of the add flow has stored is found by
    the inline search of its owner: for every query that, stripped and
    lower-cased, is part of the lower-cased name, the document is on one of
    the pages of the answer. *)
Theorem added_medicine_is_found (E : env) (user_id : Z) (chat_id message_id : value)
    (w : world) (n query : str) :
  let c' := med_collection (_save_new_medicine E user_id chat_id message_id w).2 in
  get (data w) "name" = VStr n ->
  get (data w) "name_lower" = VStr (lower n) ->
  c' <> med_collection w ->
  strip query <> [] ->
  contains (lower (strip query)) (lower n) = true ->
  exists m offset results next_offset,
    c' = med_collection w ++ [m] /\ name m = n /\ added_by m = user_id
    /\ inline_search_handler query user_id offset c' = AnswerResults results next_offset
    /\ m ∈ results.
Proof.
  cbv zeta. intros Hn Hnl Hnew Hq Hpart.
  destruct (_save_new_medicine_run E user_id chat_id message_id w) as
    (cs & [(_ & Hrun)|[(_ & doc & c' & Hdoc & Hins & Hrun)
          |[(_ & doc & _ & _ & Hrun & _)|(_ & _ & Hrun)]]]);
    rewrite Hrun in Hnew |- *; cbn [snd med_collection] in *; try done.
  apply insert_one_inr in Hins as [-> _].
  apply med_doc_of_Some in Hdoc as (Hdn & Hdnl & _ & _ & _ & Hu).
  rewrite Hn in Hdn. rewrite Hnl in Hdnl. injection Hdn as Hdn. injection Hdnl as Hdnl.
  set (m := with_id (fresh_id (med_collection w)) doc).
  set (found := find_sorted (db_query user_id (search_conditions (lower (strip query))))
                            name_lower (med_collection w ++ [m])).
  assert (m ∈ found) as Hfound.
  { apply elem_of_find_sorted. split; [apply elem_of_app; right; left|].
    unfold db_query, by_user. apply andb_true_intro. split.
    - apply bool_decide_eq_true. by subst m.
    - apply search_conditions_match. left. unfold regex_i, casefold.
      subst m. simpl. rewrite <- Hdnl, !lower_idemp. exact Hpart. }
  destruct (found_on_some_page found m Hfound) as [offset Hpage].
  assert ((List.length (strip query) <? 1)%nat = false) as Hlen.
  { by destruct (strip query). }
  exists m, offset. eexists _, _. split; [done|]. split; [by subst m|].
  split; [by subst m|]. split; [|exact Hpage].
  unfold inline_search_handler. cbv zeta. rewrite Hlen. reflexivity.
Qed.

Lemma added_medicine_is_found_witness :
  exists m offset results next_offset,
    med_collection (_save_new_medicine E0 1 (VInt 10) (VInt 20)
                      (World [] (Some waiting_for_exp_date)
                             (<["exp_date" := VStr (u "2026-12-02")]> add_data) [])).2
    = [] ++ [m]
    /\ name m = u "Аспирин" /\ added_by m = 1
    /\ inline_search_handler (u " СПИР ") 1 offset
         (med_collection (_save_new_medicine E0 1 (VInt 10) (VInt 20)
                            (World [] (Some waiting_for_exp_date)
                                   (<["exp_date" := VStr (u "2026-12-02")]> add_data) [])).2)
       = AnswerResults results next_offset
    /\ m ∈ results.
Proof.
  apply (added_medicine_is_found E0 1 (VInt 10) (VInt 20)
           (World [] (Some waiting_for_exp_date)
                  (<["exp_date" := VStr (u "2026-12-02")]> add_data) [])
           (u "Аспирин") (u " СПИР ")).
  - reflexivity.
  - reflexivity.
  - vm_compute. discriminate.
  - vm_compute. discriminate.
  - vm_compute. reflexivity.
Defined.


(** ** A calendar day pressed out of turn *)


(** ** The calendar keyboard *)

Lemma weekday_range (year month day : Z) : 0 <= weekday year month day < 7.
Proof. unfold weekday, date_weekday. apply Z.mod_pos_bound. lia. Qed.

Lemma weekday_of_day (y m k : Z) :
  weekday y m k = (weekday y m 1 + (k - 1)) mod 7.
Proof.
  unfold weekday, date_weekday, toordinal. cbn [year month day].
  rewrite Z.add_mod_idemp_l by lia. f_equal. lia.
Qed.

Lemma month_days_length (b n a : nat) :
  List.length (replicate b 0 ++ List.map Z.of_nat (seq 1 n) ++ replicate a 0)
  = (b + n + a)%nat.
Proof. rewrite !length_app, !length_replicate, length_map, length_seq. lia. Qed.

Lemma month_days_lookup (b n a : nat) (k : nat) :
  (1 <= k <= n)%nat ->
  (replicate b 0 ++ List.map Z.of_nat (seq 1 n) ++ replicate a 0) !! (b + (k - 1))%nat
  = Some (Z.of_nat k).
Proof.
  intros Hk. rewrite lookup_app_r by (rewrite length_replicate; lia).
  rewrite length_replicate. replace (b + (k - 1) - b)%nat with (k - 1)%nat by lia.
  rewrite lookup_app_l by (rewrite length_map, length_seq; lia).
  rewrite list_lookup_fmap, lookup_seq_lt by lia. simpl. f_equal. lia.
Qed.

Lemma month_days_filter (f : Z -> cal_button) (g : Z -> cal_button) (b n a : nat) :
  (forall d, is_day (g d) = true) -> is_day (f 0) = false ->
  List.filter is_day
    (List.map (fun day => if day =? 0 then f day else g day)
       (replicate b 0 ++ List.map Z.of_nat (seq 1 n) ++ replicate a 0))
  = List.map (fun k => g (Z.of_nat k)) (seq 1 n).
Proof.
  intros Hg Hf.
  assert (forall m, List.filter is_day
            (List.map (fun day => if day =? 0 then f day else g day) (replicate m 0)) = [])
    as Hzero.
  { induction m as [|m IH]; [done|]. simpl. by rewrite Hf. }
  rewrite !map_app, !List.filter_app, !Hzero, app_nil_r. simpl.
  assert (1 <= 1)%nat as Hs by lia. revert Hs. generalize 1%nat at 2 3 4.
  induction n as [|n IH]; intros s Hs; [done|].
  simpl. destruct (Z.eqb_spec (Z.of_nat s) 0) as [H0|H0]; [lia|].
  rewrite Hg. f_equal. apply IH. lia.
Qed.

(** What [monthcalendar] returns for a month of the year. *)
Lemma monthcalendar_weeks (year month : Z) :
  1 <= month <= 12 ->
  exists (b a nweeks : nat) (days : list Z),
    Z.of_nat b = weekday year month 1 /\
    days = replicate b 0
           ++ List.map Z.of_nat (seq 1 (Z.to_nat (days_in_month year month)))
           ++ replicate a 0 /\
    List.length days = (7 * nweeks)%nat /\
    monthcalendar year month
    = Some (List.map (fun i => take 7 (drop (7 * i) days)) (seq 0 nweeks)).
Proof.
  intros Hm. unfold monthcalendar, itermonthdays, monthrange.
  destruct (Z.leb_spec 1 month); [|lia]. destruct (Z.leb_spec month 12); [|lia].
  cbn [andb mbind option_bind]. 
  pose proof (weekday_range year month 1) as Hw.
  pose proof (days_in_month_le_31 year month) as Hn.
  set (day1 := weekday year month 1) in *. set (ndays := days_in_month year month) in *.
  set (days := _ ++ _ ++ _).
  assert (exists q, 0 <= q /\ day1 + ndays + (0 - day1 - ndays) mod 7 = 7 * q) as (q & Hq0 & Hq).
  { exists ((day1 + ndays + (0 - day1 - ndays) mod 7) / 7).
    Z.to_euclidean_division_equations. lia. }
  assert (List.length days = (7 * Z.to_nat q)%nat) as Hlen.
  { unfold days. rewrite month_days_length.
    pose proof (Z.mod_pos_bound (day1 - 0) 7 ltac:(lia)).
    pose proof (Z.mod_pos_bound (0 - day1 - ndays) 7 ltac:(lia)).
    rewrite Z.sub_0_r, (Z.mod_small day1) by lia. lia. }
  exists (Z.to_nat ((day1 - 0) mod 7)), (Z.to_nat ((0 - day1 - ndays) mod 7)), (Z.to_nat q), days.
  repeat split; [|done|].
  - rewrite Z.sub_0_r, Z.mod_small by lia. lia.
  - do 3 f_equal. rewrite Hlen. replace (7 * Z.to_nat q + 6)%nat with (6 + Z.to_nat q * 7)%nat by lia.
    by rewrite Nat.div_add by lia.
Qed.


Lemma create_calendar_weeks (now : date) (yr mo : option Z) :
  let y := default (year now) yr in
  let m := default (month now) mo in
  let btn := fun day : Z => if day =? 0 then CalBlank y m else CalDay y m day in
  1 <= m <= 12 ->
  exists (b a nweeks : nat) (days : list Z),
    Z.of_nat b = weekday y m 1 /\
    days = replicate b 0
           ++ List.map Z.of_nat (seq 1 (Z.to_nat (days_in_month y m)))
           ++ replicate a 0 /\
    List.length days = (7 * nweeks)%nat /\
    create_calendar now yr mo
    = inr ([CalNav prev_year y m; CalNav prev_month y m; CalTitle y m;
            CalNav next_month y m; CalNav next_year y m]
           :: List.map (fun i => CalWeekday i y m) (seq 0 7)
           :: List.map (fun week => List.map btn week)
                (List.map (fun i => take 7 (drop (7 * i) days)) (seq 0 nweeks))
              ++ [[CalCancel]]).
Proof.
  intros y m btn Hm.
  destruct now as [now_year now_month now_day]. cbn [year month] in y, m.
  unfold create_calendar. fold y m.
  destruct (monthcalendar_weeks y m Hm) as (b & a & nweeks & days & Hb & Hdays & Hlen & Hc).
  exists b, a, nweeks, days. repeat split; [done..|].
  rewrite Hc. destruct (negb _) eqn:Hidx; [|done].
  apply negb_true_iff, andb_false_iff in Hidx. lia.
Qed.

Lemma create_calendar_error (now : date) (yr mo : option Z) (e : calendar_error) :
  create_calendar now yr mo = inl e ->
  ~ (1 <= default (month now) mo <= 12).
Proof.
  intros Hrun Hm.
  destruct (create_calendar_weeks now yr mo Hm) as (? & ? & ? & ? & _ & _ & _ & Hc).
  congruence.
Qed.

Lemma create_calendar_month (now : date) (yr mo : option Z)
    (rows : list (list cal_button)) :
  create_calendar now yr mo = inr rows ->
  1 <= default (month now) mo <= 12.
Proof.
  destruct now as [now_year now_month now_day]. unfold create_calendar.
  cbn [month]. set (m := default now_month mo).
  destruct (negb _); [done|].
  unfold monthcalendar, itermonthdays, monthrange.
  destruct (Z.leb_spec 1 m); [|done]. destruct (Z.leb_spec m 12); [|done]. lia.
Qed.

(** X13 ([create_calendar]).  For a month from 1 to 12 the keyboard is the
    navigation row, the row of weekday names, the weeks and the cancel
    row; every week has seven buttons, the day buttons read in order are
    the days 1 .. last day of that month, each exactly once, every other
    button of a week is a blank, and the button of day [k] stands in the
    column of its weekday (Monday first).  For any other month no keyboard
    is built. *)
Theorem calendar_shows_the_month (now : date) (yr mo : option Z) :
  let y := default (year now) yr in
  let m := default (month now) mo in
  match create_calendar now yr mo with
  | inr rows =>
      1 <= m <= 12 /\
      exists weeks,
        rows = [CalNav prev_year y m; CalNav prev_month y m; CalTitle y m;
                CalNav next_month y m; CalNav next_year y m]
               :: List.map (fun i => CalWeekday i y m) (seq 0 7)
               :: weeks ++ [[CalCancel]] /\
        Forall (fun row => List.length row = 7%nat) weeks /\
        List.filter is_day (concat weeks)
        = List.map (fun k => CalDay y m (Z.of_nat k)) (seq 1 (Z.to_nat (days_in_month y m))) /\
        (forall b, b ∈ concat weeks -> is_day b = false -> b = CalBlank y m) /\
        (forall k, 1 <= k <= days_in_month y m ->
           exists row, row ∈ weeks /\
                       row !! Z.to_nat (weekday y m k) = Some (CalDay y m k))
  | inl _ => ~ (1 <= m <= 12)
  end.
Proof.
  intros y m.
  destruct (create_calendar now yr mo) as [e|rows] eqn:Hrun;
    [by apply create_calendar_error in Hrun|].
  pose proof (create_calendar_month _ _ _ _ Hrun) as Hm. fold m in Hm.
  split; [done|].
  destruct (create_calendar_weeks now yr mo Hm)
    as (b & a & nweeks & days & Hb & Hdays & Hlen & Hc).
  fold y m in Hb, Hdays, Hc. rewrite Hrun in Hc. apply (inj inr) in Hc as ->.
  set (btn := fun day : Z => if day =? 0 then CalBlank y m else CalDay y m day).
  eexists. split; [reflexivity|].
  assert (concat (List.map (fun week => List.map btn week)
                    (List.map (fun i => take 7 (drop (7 * i) days)) (seq 0 nweeks)))
          = List.map btn days) as Hconcat.
  { rewrite <- concat_map, pages_concat, <- Hlen. by rewrite firstn_all. }
  split; [|split; [|split]].
  - apply Forall_forall. intros row Hrow.
    apply list_elem_of_In, in_map_iff in Hrow as (week & <- & Hweek).
    apply in_map_iff in Hweek as (i & <- & Hi). apply in_seq in Hi.
    rewrite length_map, length_take, length_drop. lia.
  - rewrite Hconcat, Hdays. unfold btn.
    by apply (month_days_filter (fun _ => CalBlank y m) (fun d => CalDay y m d)).
  - intros btn' Hin Hnot. rewrite Hconcat in Hin.
    apply list_elem_of_In, in_map_iff in Hin as (d & <- & _). unfold btn in *.
    by destruct (d =? 0).
  - intros k Hk.
    pose proof (weekday_range y m 1) as Hw1. pose proof (weekday_range y m k) as Hwk.
    pose proof (days_in_month_le_31 y m) as Hn.
    set (idx := (b + (Z.to_nat k - 1))%nat).
    assert (days !! idx = Some k) as Hday.
    { rewrite Hdays. unfold idx. rewrite month_days_lookup by lia. f_equal. lia. }
    assert (idx = 7 * (idx / 7) + Z.to_nat (weekday y m k))%nat as Hidx'.
    { rewrite weekday_of_day, <- Hb.
      replace (Z.of_nat b + (k - 1)) with (Z.of_nat idx) by (unfold idx; lia).
      change (Z.of_nat idx mod 7) with (Z.of_nat idx mod Z.of_nat 7).
      rewrite <- Nat2Z.inj_mod, Nat2Z.id. apply Nat.div_mod_eq. }
    assert (idx < 7 * nweeks)%nat as Hlt.
    { rewrite <- Hlen. by apply lookup_lt_Some in Hday. }
    exists (List.map btn (take 7 (drop (7 * (idx / 7)) days))). split.
    + apply list_elem_of_In, in_map, in_map_iff. exists (idx / 7)%nat. split; [done|].
      apply in_seq. split; [lia|]. rewrite Nat.add_0_l.
      apply Nat.Div0.div_lt_upper_bound. lia.
    + rewrite list_lookup_fmap, lookup_take_lt by lia.
      rewrite lookup_drop, <- Hidx', Hday. simpl. unfold btn.
      destruct (Z.eqb_spec k 0); [lia|done].
Qed.

Lemma update_one_error (f : medicine -> bool) (upd : gmap str value) (c : collection) (e : exn) :
  update_one f upd c = inl e -> e = InvalidDocument \/ e = DuplicateKeyError.
Proof.
  unfold update_one. destruct (find_one f c); [|done].
  destruct (apply_set upd _); [|intros [= <-]; by left].
  repeat case_bool_decide; try done. intros [= <-]. by right.
Qed.

(** Once the date of the button exists, nothing in [handle_date_select]
    raises [ValueError]. *)
Lemma handle_date_select_date_made (E : env) (year month day : Z) (user_id : Z)
    (callback_message : option (Z * Z)) (w : world) (d : date) :
  mk_date year month day = Some d ->
  (handle_date_select E year month (Some day) user_id callback_message w).1 <> inl ValueError.
Proof.
  intros Hdate.
  destruct (handle_date_select E year month (Some day) user_id callback_message w)
    as [res w'] eqn:Hrun.
  cbn [fst]. unfold handle_date_select in Hrun. rewrite Hdate in Hrun.
  destruct (date_ltb d (today E)); mrun Hrun; [by simplify_eq|].
  assert (forall (m : M unit) w1, (exists cs, m w1 = (inr tt, add_calls cs w1)) ->
            m w1 = (res, w') -> res <> inl ValueError) as Hok.
  { intros m w1 (cs & Hm) H. rewrite Hm in H. by simplify_eq. }
  assert (forall a b c w1, show_main_menu_message E a b c w1 = (res, w') ->
            res <> inl ValueError) as Hmenu.
  { intros a b c w1 H. run_main_menu_in H cs Hcs. by simplify_eq. }
  destruct callback_message as [[chat msg]|];
    (destruct (state w) as [[| | | |]|] eqn:Hstate; mrun Hrun).
  all: repeat match type of Hrun with
         | context [if ?b then _ else _] => destruct b; mrun Hrun
         end.
  all: try (by simplify_eq).
  all: try (by eapply Hmenu).
  all: try (match type of Hrun with
            | _save_new_medicine ?E ?u ?c ?m ?w0 = _ =>
                destruct (_save_new_medicine_run E u c m w0)
                  as (cs & [(_ & Hr)|[(_ & doc & c' & _ & _ & Hr)
                                     |[(_ & doc & _ & _ & Hr & _)|(_ & _ & Hr)]]])
            end; rewrite Hr in Hrun; by simplify_eq).
  all: match type of Hrun with
       | _save_edited_medicine ?E ?u ?mi ?f ?nv ?ud ?c ?m ?i ?w0 = _ =>
           pose proof (_save_edited_medicine_outcome E u mi f nv ud c m i w0) as Hout
       end.
  all: cbv zeta in Hout; rewrite Hrun in Hout; cbn [fst snd] in Hout.
  all: destruct Hout as [(_ & [->| ->])|[(_ & _ & ->)|(oid & upd & _ & _ & Hupd)]]; try done.
  all: destruct (update_one _ _ _) as [e|[? ?]] eqn:Hone;
    [destruct Hupd as [-> _]; by destruct (update_one_error _ _ _ _ Hone) as [-> | ->]
    |by destruct Hupd as [-> _]].
Qed.

(** X14 ([create_calendar], [handle_date_select]).  A day button of a
    calendar names the year and month the calendar was built for and a day
    of that month.  When the year is one [datetime.date] knows (1 to 9999),
    pressing it gives [handle_date_select] a real date and the handler does
    not raise [ValueError]; in a calendar of any other year every day
    button makes it raise [ValueError] before it has done anything. *)
Theorem calendar_day_can_be_selected (E : env) (now : date) (yr mo : option Z)
    (rows : list (list cal_button)) (row : list cal_button) (y' m' d : Z)
    (user_id : Z) (callback_message : option (Z * Z)) (w : world) :
  create_calendar now yr mo = inr rows ->
  row ∈ rows -> CalDay y' m' d ∈ row ->
  let y := default (year now) yr in
  let m := default (month now) mo in
  let r := handle_date_select E y' m' (Some d) user_id callback_message w in
  y' = y /\ m' = m /\ 1 <= d <= days_in_month y m
  /\ if (1 <=? y) && (y <=? 9999)
     then mk_date y' m' d = Some (Date y m d) /\ r.1 <> inl ValueError
     else r = (inl ValueError, w).
Proof.
  intros Hrun Hrow Hbtn y m.
  intros r.
  pose proof (create_calendar_month _ _ _ _ Hrun) as Hm. fold m in Hm.
  destruct (create_calendar_weeks now yr mo Hm)
    as (b & a & nweeks & days & Hb & Hdays & Hlen & Hc).
  fold y m in Hb, Hdays, Hc. rewrite Hrun in Hc. apply (inj inr) in Hc as ->.
  assert (y' = y /\ m' = m /\ 1 <= d <= days_in_month y m) as (-> & -> & Hd).
  { apply elem_of_cons in Hrow as [->|Hrow].
    { repeat (apply elem_of_cons in Hbtn as [?|Hbtn]; [done|]). by apply elem_of_nil in Hbtn. }
    apply elem_of_cons in Hrow as [->|Hrow].
    { apply list_elem_of_In, in_map_iff in Hbtn as (? & ? & _). done. }
    apply elem_of_app in Hrow as [Hrow|Hrow].
    2:{ apply list_elem_of_singleton in Hrow as ->.
        by apply list_elem_of_singleton in Hbtn. }
    apply list_elem_of_In, in_map_iff in Hrow as (week & <- & Hweek).
    apply in_map_iff in Hweek as (i & <- & _).
    apply list_elem_of_In, in_map_iff in Hbtn as (day & Hday & Hin).
    destruct (Z.eqb_spec day 0) as [|Hday0]; [done|]. injection Hday as <- <- <-.
    apply list_elem_of_In, elem_of_take in Hin as (j & Hin & _).
    rewrite lookup_drop in Hin. apply list_elem_of_lookup_2 in Hin.
    rewrite Hdays in Hin.
    pose proof (days_in_month_le_31 y m) as Hn.
    split; [done|]. split; [done|].
    apply elem_of_app in Hin as [Hin|Hin];
      [by apply elem_of_replicate in Hin as [? _]|].
    apply elem_of_app in Hin as [Hin|Hin];
      [|by apply elem_of_replicate in Hin as [? _]].
    apply list_elem_of_In, in_map_iff in Hin as (k & <- & Hk). apply in_seq in Hk. lia. }
  split; [done|]. split; [done|]. split; [done|].
  pose proof (days_in_month_le_31 y m) as Hn.
  destruct (Z.leb_spec 1 y); [destruct (Z.leb_spec y 9999)|]; cbn [andb].
  - assert (mk_date y m d = Some (Date y m d)) as Hdate.
    { unfold mk_date, valid_date. cbn [year month day].
      repeat match goal with
             | |- context [?a <=? ?b] => destruct (Z.leb_spec a b); [|lia]
             end.
      done. }
    split; [done|]. by apply (handle_date_select_date_made _ _ _ _ _ _ _ _ Hdate).
  - unfold r, handle_date_select, mk_date, valid_date.
    cbn [year month day].
    destruct (Z.leb_spec y 9999); [lia|]. by rewrite andb_false_r.
  - unfold r, handle_date_select, mk_date, valid_date.
    cbn [year month day].
    destruct (Z.leb_spec 1 y); [lia|]. done.
Qed.

Lemma calendar_day_can_be_selected_witness :
  let rows := match create_calendar (Date 2026 11 4) None None with
              | inr rows => rows
              | inl _ => []
              end in
  let r := handle_date_select E0 2026 11 (Some 30) 1 (Some (10, 20)) (w_add []) in
  2026 = 2026 /\ 11 = 11 /\ 1 <= 30 <= days_in_month 2026 11
  /\ mk_date 2026 11 30 = Some (Date 2026 11 30) /\ r.1 <> inl ValueError.
Proof.
  intros rows r.
  apply (calendar_day_can_be_selected E0 (Date 2026 11 4) None None rows
           (default [] (rows !! 7%nat)) 2026 11 30 1 (Some (10, 20)) (w_add [])).
  - reflexivity.
  - vm_compute. set_solver.
  - vm_compute. set_solver.
Defined.

(** ** Running the other handlers *)

Lemma bind_x_run {A B} (m : MX A) (k : A -> MX B) (w : world_x) :
  bind_x m k w = match m w with
                 | (inr a, w') => k a w'
                 | (inl e, w') => (inl e, w')
                 end.
Proof. reflexivity. Qed.

Lemma emit_x_run (c : call_x) (w : world_x) : emit_x c w = (inr tt, add_calls_x [c] w).
Proof. reflexivity. Qed.

Lemma add_calls_x_nil (w : world_x) : add_calls_x [] w = w.
Proof. destruct w. unfold add_calls_x. simpl. by rewrite app_nil_r. Qed.

Lemma add_calls_x_add_calls_x (a b : list call_x) (w : world_x) :
  add_calls_x b (add_calls_x a w) = add_calls_x (a ++ b) w.
Proof. unfold add_calls_x. simpl. by rewrite app_assoc. Qed.

Lemma lift_get_data (w : world_x) : lift get_data w = (inr (data_x w), w).
Proof. destruct w. unfold lift, get_data. simpl. by rewrite app_nil_r. Qed.

Lemma lift_get_state (w : world_x) : lift get_state w = (inr (state_x w), w).
Proof. destruct w. unfold lift, get_state. simpl. by rewrite app_nil_r. Qed.

Lemma lift_set_state (s : fsm_state) (w : world_x) :
  lift (set_state s) w
  = (inr tt, WorldX (med_collection_x w) (Some s) (data_x w) (calls_x w)).
Proof. unfold lift, set_state. simpl. by rewrite app_nil_r. Qed.

Lemma lift_update_data (kvs : list (string * value)) (w : world_x) :
  lift (update_data kvs) w
  = (inr tt, WorldX (med_collection_x w) (state_x w)
                    (foldl (fun d kv => <[kv.1 := kv.2]> d) (data_x w) kvs) (calls_x w)).
Proof. unfold lift, update_data. simpl. by rewrite app_nil_r. Qed.

Lemma lift_clear (w : world_x) :
  lift clear w = (inr tt, WorldX (med_collection_x w) None ∅ (calls_x w)).
Proof. unfold lift, clear. simpl. by rewrite app_nil_r. Qed.

Lemma lift_db_read {A} (q : collection -> A) (w : world_x) :
  lift (db_read q) w = (inr (q (med_collection_x w)), w).
Proof. destruct w. unfold lift, db_read. simpl. by rewrite app_nil_r. Qed.

Lemma lift_emit (c : call) (w : world_x) :
  lift (emit c) w = (inr tt, add_calls_x [earlier c] w).
Proof. reflexivity. Qed.

Lemma lift_db_delete_one (f : medicine -> bool) (w : world_x) :
  lift (db_delete_one f) w
  = (inr (delete_one f (med_collection_x w)).1,
     WorldX (delete_one f (med_collection_x w)).2 (state_x w) (data_x w) (calls_x w)).
Proof.
  unfold lift, db_delete_one. simpl. destruct (delete_one f _). simpl. by rewrite app_nil_r.
Qed.


Ltac xrun H :=
  repeat first
    [ rewrite bind_x_run in H
    | rewrite emit_x_run in H
    | rewrite lift_get_data in H
    | rewrite lift_get_state in H
    | rewrite lift_set_state in H
    | rewrite lift_update_data in H
    | rewrite lift_clear in H
    | rewrite lift_db_read in H
    | rewrite lift_emit in H
    | rewrite lift_db_delete_one in H
    | progress (unfold ret_x, raise_x, negb in H)
    | progress (cbv beta iota in H)
    | progress (cbn [add_calls_x med_collection_x state_x data_x calls_x foldl fst snd] in H) ].

Lemma safe_edit_message_x_run (E : env) (t : text_x)
    (chat_id message_id inline_message_id : value) (kb : option keyboard_x) (w : world_x) :
  exists b cs,
    safe_edit_message_x E t chat_id message_id inline_message_id kb w
    = (inr b, add_calls_x cs w)
    /\ ((truthy chat_id && truthy message_id) || truthy inline_message_id = true ->
        exists rest,
          cs = edit_message_text_x (edit_target chat_id message_id inline_message_id) t kb
               :: rest)
    /\ Forall (fun c => call_text_x c = None \/ call_text_x c = Some t) cs.
Proof.
  unfold safe_edit_message_x.
  destruct (truthy chat_id && truthy message_id) eqn:Hcm;
    destruct (truthy inline_message_id) eqn:Hi; cbn [negb andb orb].
  4:{ rewrite bind_x_run, lift_emit. eexists _, _. split; [reflexivity|].
      split; [done|]. repeat constructor. }
  all: rewrite bind_x_run, emit_x_run; cbv beta iota;
    destruct (edit_reply E _); try destruct (truthy chat_id);
    rewrite ?bind_x_run, ?emit_x_run; unfold ret_x; cbv beta iota;
    rewrite ?add_calls_x_add_calls_x;
    eexists _, _; (split; [reflexivity|]);
    (split; [intros _; eexists; reflexivity|]);
    repeat (constructor; [by right|]); constructor.
Qed.

Ltac run_safe_edit_x_in H b cs Hcs :=
  match type of H with
  | context [safe_edit_message_x ?E ?t ?c ?m ?i ?k ?w] =>
      let Hr := fresh "Hr" in
      let Ht := fresh "Htxt" in
      destruct (safe_edit_message_x_run E t c m i k w) as (b & cs & Hr & Hcs & Ht);
      rewrite Hr in H; clear Hr
  end.




(** The end of a run: the result and the world are known. *)
Ltac xend :=
  simplify_eq; cbn [add_calls_x state_x data_x med_collection_x calls_x fst snd];
  rewrite <- ?app_assoc.

Lemma not_elem_of_earlier (c : call_x) (cs : list call) :
  match c with earlier _ => False | _ => True end -> c ∉ List.map earlier cs.
Proof.
  intros Hc Hin. apply list_elem_of_In, in_map_iff in Hin as (? & <- & _). done.
Qed.

(** ** Deleting a medicine *)





Example delete_examples :
  (* the owner confirms: the document is gone and the list is shown *)
  med_collection_x
    (after (delete_medicine_confirm E0 (Some (str_of_id 1)) 1 (Some (10, 20)) None)
           (w_start [aspirin])) = []
  (* another user confirms with the same id: nothing is deleted *)
  /\ delete_medicine_confirm E0 (Some (str_of_id 1)) 2 None (Some (u "token"))
       (w_start [aspirin])
     = (inr tt,
        WorldX [aspirin] None ∅
          [logger_x LogNameBeforeDeleteFailed; logger_x LogNotFoundForDelete;
           callback_answer_x TxtDeleteFailed true;
           earlier (logger LogDetailsNotFound);
           earlier (edit_message_text (InlineToken (VStr (u "token"))) TxtMedNotFound
                      (Some main_menu_keyboard))]).
Proof. vm_compute. split; reflexivity. Qed.







(** ** The add flow, step by step *)

Ltac solve_get :=
  repeat first
    [ rewrite get_insert_eq
    | rewrite get_insert_ne by (first [done | congruence]) ];
  try done.

Lemma truthy_VStr_ne (s : str) : s <> [] -> truthy (VStr s) = true.
Proof. intros Hs. simpl. by rewrite bool_decide_eq_false_2. Qed.

Lemma add_medicine_command_after (E : env) (message_chat_id : Z) (w : world_x) (id : Z) :
  send_reply E (VInt message_chat_id) = Some id ->
  let w' := after (add_medicine_command E message_chat_id) w in
  state_x w' = Some waiting_for_name
  /\ med_collection_x w' = med_collection_x w
  /\ get (data_x w') "prompt_chat_id" = VInt message_chat_id
  /\ get (data_x w') "prompt_message_id" = VInt id.
Proof.
  intros Hsend. unfold after.
  destruct (add_medicine_command E message_chat_id w) as [res w'] eqn:Hrun.
  unfold add_medicine_command, message_answer_sent in Hrun. xrun Hrun.
  rewrite Hsend in Hrun. xrun Hrun. xend. repeat split; solve_get.
Qed.

Lemma process_medicine_name_text_after (E : env) (message_text : str) (user_id : Z)
    (w : world_x) :
  truthy (get (data_x w) "prompt_chat_id") = true ->
  truthy (get (data_x w) "prompt_message_id") = true ->
  strip message_text <> [] ->
  find_one (by_name_lower (lower (strip message_text)) user_id) (med_collection_x w) = None ->
  let w' := after (process_medicine_name_text E message_text user_id) w in
  state_x w' = Some waiting_for_quantity
  /\ med_collection_x w' = med_collection_x w
  /\ get (data_x w') "name" = VStr (strip message_text)
  /\ get (data_x w') "name_lower" = VStr (lower (strip message_text)).
Proof.
  intros Hchat Hmsg Hname Hfind. unfold after.
  destruct (process_medicine_name_text E message_text user_id w) as [res w'] eqn:Hrun.
  unfold process_medicine_name_text in Hrun. xrun Hrun.
  rewrite Hchat, Hmsg, (truthy_VStr_ne _ Hname) in Hrun. cbn [orb] in Hrun. xrun Hrun.
  rewrite Hfind in Hrun. xrun Hrun.
  run_safe_edit_x_in Hrun b cs Hcs. xrun Hrun.
  destruct b; xrun Hrun.
  - xend. repeat split; solve_get.
  - unfold bot_send_message_x in Hrun. xrun Hrun.
    destruct (send_reply E _); xrun Hrun; xend; repeat split; solve_get.
Qed.

Lemma process_medicine_quantity_after (E : env) (message_text : str) (message_chat_id : Z)
    (w : world_x) :
  strip message_text <> [] ->
  let w' := after (process_medicine_quantity E message_text message_chat_id) w in
  state_x w' = Some waiting_for_notes
  /\ med_collection_x w' = med_collection_x w
  /\ get (data_x w') "quantity" = VStr (strip message_text)
  /\ forall k, k <> "quantity" -> k <> "prompt_chat_id" -> k <> "prompt_message_id" ->
               get (data_x w') k = get (data_x w) k.
Proof.
  intros Hq. unfold after.
  destruct (process_medicine_quantity E message_text message_chat_id w) as [res w'] eqn:Hrun.
  unfold process_medicine_quantity in Hrun. xrun Hrun.
  rewrite (truthy_VStr_ne _ Hq) in Hrun. xrun Hrun.
  destruct (truthy (get (data_x w) "prompt_chat_id") && _); xrun Hrun.
  - run_safe_edit_x_in Hrun b cs Hcs. xrun Hrun. destruct b; xrun Hrun.
    + xend. repeat split; solve_get. intros. solve_get.
    + unfold bot_send_message_x in Hrun. xrun Hrun.
      destruct (send_reply E _); xrun Hrun; xend; repeat split; solve_get;
        intros; solve_get.
  - unfold bot_send_message_x in Hrun. xrun Hrun.
    destruct (send_reply E _); xrun Hrun; xend; repeat split; solve_get;
      intros; solve_get.
Qed.

Lemma process_medicine_notes_after (E : env) (message_text : str) (message_chat_id : Z)
    (w : world_x) :
  strip message_text <> [] ->
  let w' := after (process_medicine_notes E message_text message_chat_id) w in
  state_x w' = Some waiting_for_exp_date
  /\ med_collection_x w' = med_collection_x w
  /\ get (data_x w') "notes" = VStr (strip message_text)
  /\ forall k, k <> "notes" -> k <> "prompt_chat_id" -> k <> "prompt_message_id" ->
               k <> "calendar_message_id" -> k <> "calendar_year" -> k <> "calendar_month" ->
               get (data_x w') k = get (data_x w) k.
Proof.
  intros Hn. unfold after.
  destruct (process_medicine_notes E message_text message_chat_id w) as [res w'] eqn:Hrun.
  unfold process_medicine_notes in Hrun. xrun Hrun.
  rewrite (truthy_VStr_ne _ Hn) in Hrun. xrun Hrun.
  destruct (today E) as [today_year today_month today_day]. xrun Hrun.
  unfold create_calendar_x in Hrun.
  destruct (create_calendar _ _ _) as [e|rows]; xrun Hrun.
  { xend. repeat split; solve_get. intros. solve_get. }
  destruct (truthy (get (data_x w) "prompt_chat_id") && _); xrun Hrun.
  - run_safe_edit_x_in Hrun b cs Hcs. xrun Hrun. destruct b; xrun Hrun.
    + xend. repeat split; solve_get. intros. solve_get.
    + unfold bot_send_message_x in Hrun. xrun Hrun.
      destruct (send_reply E _); xrun Hrun; xend; repeat split; solve_get;
        intros; solve_get.
  - unfold bot_send_message_x in Hrun. xrun Hrun.
    destruct (send_reply E _); xrun Hrun; xend; repeat split; solve_get;
      intros; solve_get.
Qed.

Lemma after_lift {A} (m : M A) (w : world_x) :
  med_collection_x (after (lift m) w) = med_collection (m (world_of w)).2
  /\ state_x (after (lift m) w) = state (m (world_of w)).2
  /\ data_x (after (lift m) w) = data (m (world_of w)).2.
Proof. unfold after, lift, world_of. by destruct (m _) as [r w']. Qed.

Lemma insert_one_free (doc : med_doc) (c : collection) :
  find_one (by_name_lower (doc_name_lower doc) (doc_added_by doc)) c = None ->
  insert_one doc c = inr (c ++ [with_id (fresh_id c) doc]).
Proof.
  intros Hfind. unfold insert_one. rewrite bool_decide_eq_false_2; [done|].
  intros (m & Hm & Hkey)%Exists_exists.
  pose proof (find_one_None _ _ m Hfind Hm) as Hby. unfold by_name_lower in Hby.
  unfold index_key in Hkey. injection Hkey as Hu Hn.
  by rewrite !bool_decide_eq_true_2 in Hby.
Qed.

(** X17 (the add flow: [add_medicine_command], [process_medicine_name_text],
    [process_medicine_quantity], [process_medicine_notes],
    [process_medicine_exp_date_text]).  After /add, whose prompt was
    delivered, a name the user has no medicine of, a quantity, notes and a
    date not before today, each typed as a message and none of them blank,
    the collection has exactly one more document: the stripped texts, the
    lower-cased name, the date in ISO form and the user as owner.  Each
    handler leaves the state the next one is registered for, and the last
    one clears the conversation.  This holds whatever the gateway answers
    after the first prompt. *)
Theorem typed_add_flow_stores_the_record (E : env) (chat_id message_id user_id : Z)
    (name_text quantity_text notes_text date_text : str) (d : date) (w0 : world_x) :
  chat_id <> 0 -> message_id <> 0 ->
  send_reply E (VInt chat_id) = Some message_id ->
  strip name_text <> [] ->
  find_one (by_name_lower (lower (strip name_text)) user_id) (med_collection_x w0) = None ->
  strip quantity_text <> [] ->
  strip notes_text <> [] ->
  strptime (strip date_text) = Some d ->
  date_ltb d (today E) = false ->
  let w1 := after (add_medicine_command E chat_id) w0 in
  let w2 := after (process_medicine_name_text E name_text user_id) w1 in
  let w3 := after (process_medicine_quantity E quantity_text chat_id) w2 in
  let w4 := after (process_medicine_notes E notes_text chat_id) w3 in
  let w5 := after (lift (process_medicine_exp_date_text E date_text user_id)) w4 in
  state_x w1 = Some waiting_for_name
  /\ state_x w2 = Some waiting_for_quantity
  /\ state_x w3 = Some waiting_for_notes
  /\ state_x w4 = Some waiting_for_exp_date
  /\ state_x w5 = None /\ data_x w5 = ∅
  /\ med_collection_x w5
     = med_collection_x w0
       ++ [Medicine (fresh_id (med_collection_x w0)) (strip name_text)
             (lower (strip name_text)) (strip quantity_text) (strip notes_text)
             (isoformat d) user_id].
Proof.
  intros Hchat Hmsg Hsend Hname Hfree Hq Hn Hdate Hpast. cbv zeta.
  destruct (add_medicine_command_after E chat_id w0 message_id Hsend)
    as (Hs1 & Hc1 & Hpc & Hpm).
  set (w1 := after (add_medicine_command E chat_id) w0) in *.
  destruct (process_medicine_name_text_after E name_text user_id w1)
    as (Hs2 & Hc2 & Hname2 & Hlower2).
  { rewrite Hpc. simpl. by destruct (Z.eqb_spec chat_id 0). }
  { rewrite Hpm. simpl. by destruct (Z.eqb_spec message_id 0). }
  { done. }
  { by rewrite Hc1. }
  set (w2 := after (process_medicine_name_text E name_text user_id) w1) in *.
  destruct (process_medicine_quantity_after E quantity_text chat_id w2 Hq)
    as (Hs3 & Hc3 & Hq3 & Hkeep3).
  set (w3 := after (process_medicine_quantity E quantity_text chat_id) w2) in *.
  destruct (process_medicine_notes_after E notes_text chat_id w3 Hn)
    as (Hs4 & Hc4 & Hn4 & Hkeep4).
  set (w4 := after (process_medicine_notes E notes_text chat_id) w3) in *.
  destruct (after_lift (process_medicine_exp_date_text E date_text user_id) w4)
    as (-> & -> & ->).
  do 4 (split; [done|]).
  destruct (process_medicine_exp_date_text E date_text user_id (world_of w4))
    as [res w5] eqn:Hrun.
  cbn [snd]. unfold process_medicine_exp_date_text in Hrun. mrun Hrun.
  rewrite Hdate in Hrun. mrun Hrun. rewrite Hpast in Hrun. mrun Hrun.
  unfold world_of in Hrun. cbn [add_calls med_collection state data calls app] in Hrun.
  match type of Hrun with
  | _save_new_medicine ?E ?u ?c ?m ?w = _ => set (W := w) in *
  end.
  assert (med_collection W = med_collection_x w0) as HcW.
  { unfold W, add_calls. cbn [med_collection]. by rewrite Hc4, Hc3, Hc2, Hc1. }
  assert (get (data W) "name" = VStr (strip name_text)
          /\ get (data W) "name_lower" = VStr (lower (strip name_text))
          /\ get (data W) "quantity" = VStr (strip quantity_text)
          /\ get (data W) "notes" = VStr (strip notes_text)
          /\ get (data W) "exp_date" = VStr (isoformat d)) as (H1 & H2 & H3 & H4 & H5).
  { unfold W, add_calls. cbn [data].
    rewrite get_insert_eq, !get_insert_ne by done.
    rewrite Hn4, !Hkeep4, Hq3, !Hkeep3, Hname2, Hlower2 by done. done. }
  assert (lower (strip name_text) <> []) as Hlower.
  { unfold lower. by destruct (strip name_text). }
  assert (isoformat d <> []) as Hiso by done.
  pose proof (insert_one_free
                (MedDoc (strip name_text) (lower (strip name_text)) (strip quantity_text)
                        (strip notes_text) (isoformat d) user_id)
                (med_collection_x w0) Hfree) as Hins.
  destruct (_save_new_medicine_run E user_id (get (data_x w4) "prompt_chat_id")
              (get (data_x w4) "calendar_message_id") W) as (cs & Hcases).
  unfold add_doc, add_values in Hcases. rewrite HcW, H1, H2, H3, H4, H5 in Hcases.
  cbn [forallb] in Hcases.
  rewrite !truthy_VStr_ne in Hcases by done. cbn [andb med_doc_of] in Hcases.
  destruct Hcases as [(Hno & _)|[(_ & doc & c' & [= <-] & Hi & Hr)
                     |[(_ & doc & [= <-] & Hi & _)|(_ & Hnone & _)]]]; try done.
  - rewrite Hins in Hi. injection Hi as <-. rewrite Hr in Hrun.
    injection Hrun as <- <-. done.
  - congruence.
Qed.

Lemma typed_add_flow_stores_the_record_witness :
  let w1 := after (add_medicine_command E0 10) (w_start [aspirin]) in
  let w2 := after (process_medicine_name_text E0 (u " Ибупрофен ") 1) w1 in
  let w3 := after (process_medicine_quantity E0 (u "20 шт") 10) w2 in
  let w4 := after (process_medicine_notes E0 (u " - ") 10) w3 in
  let w5 := after (lift (process_medicine_exp_date_text E0 (u "2027-01-15") 1)) w4 in
  med_collection_x w5
  = [aspirin; Medicine 2 (u "Ибупрофен") (u "ибупрофен") (u "20 шт") (u "-")
                (u "2027-01-15") 1].
Proof.
  intros w1 w2 w3 w4 w5.
  destruct (typed_add_flow_stores_the_record E0 10 100 1 (u " Ибупрофен ") (u "20 шт")
              (u " - ") (u "2027-01-15") (Date 2027 1 15) (w_start [aspirin]))
    as (_ & _ & _ & _ & _ & _ & H);
    [done|done|reflexivity|by vm_compute|reflexivity|by vm_compute|by vm_compute
    |reflexivity|reflexivity|].
  exact H.
Defined.


(** ** Turning the calendar *)



(** ** An edit from the button to the stored value *)

Lemma replace_first_same (f : medicine -> bool) (c : collection) (m : medicine) :
  find_one f c = Some m -> replace_first f m c = c.
Proof.
  unfold find_one. induction c as [|a c IH]; simpl; [done|].
  destruct (f a); [by intros [= ->]|]. intros H. by rewrite IH.
Qed.

Lemma apply_set_field (field new_value : str) (m : medicine) :
  field = u "quantity" \/ field = u "notes" ->
  apply_set (<[field := VStr new_value]> ∅) m = Some (with_field field new_value m).
Proof.
  intros [-> | ->]; unfold apply_set, with_field.
  - rewrite bool_decide_eq_true_2.
    2:{ rewrite dom_insert_L, dom_empty_L. unfold set_keys. set_solver. }
    rewrite !lookup_insert_ne by done. rewrite lookup_insert_eq, lookup_empty.
    by rewrite bool_decide_eq_true_2.
  - rewrite bool_decide_eq_true_2.
    2:{ rewrite dom_insert_L, dom_empty_L. unfold set_keys. set_solver. }
    rewrite !lookup_insert_ne by done. rewrite lookup_insert_eq, lookup_empty.
    rewrite bool_decide_eq_false_2 by done. by rewrite bool_decide_eq_true_2.
Qed.

Lemma update_one_field (f : medicine -> bool) (field new_value : str) (c : collection)
    (m : medicine) :
  field = u "quantity" \/ field = u "notes" ->
  NoDup (List.map index_key c) ->
  find_one f c = Some m ->
  exists r,
    update_one f (<[field := VStr new_value]> ∅) c
    = inr (r, replace_first f (with_field field new_value m) c).
Proof.
  intros Hfield Hkeys Hfind. unfold update_one.
  rewrite Hfind, (apply_set_field field new_value m Hfield).
  case_bool_decide as Hsame.
  - eexists. rewrite Hsame. by rewrite (replace_first_same f c m Hfind).
  - rewrite bool_decide_eq_false_2; [by eexists|].
    intros (o & Ho & Hne & Hkey)%Exists_exists. apply Hne.
    assert (index_key (with_field field new_value m) = index_key m) as Hk.
    { unfold with_field. by repeat case_bool_decide. }
    rewrite Hk in Hkey. apply find_one_Some in Hfind as [Hm _].
    by rewrite (NoDup_map_eq index_key c o m Hkeys Ho Hm Hkey).
Qed.

Lemma edit_medicine_field_start_after (E : env) (med_id field : str) (user_id : Z)
    (callback_message : option (Z * Z)) (callback_inline_message_id : option str)
    (w : world_x) (object_id : N) (m : medicine) :
  let chat_id := callback_chat_id callback_message in
  let message_id := callback_message_id callback_message in
  let inline_message_id := str_value callback_inline_message_id in
  (truthy chat_id && truthy message_id) || truthy inline_message_id = true ->
  ObjectId med_id = Some object_id ->
  find_one (by_id object_id user_id) (med_collection_x w) = Some m ->
  field <> [] -> field <> u "exp_date" ->
  edit_reply E (edit_target chat_id message_id inline_message_id) = Edited ->
  let w' := after (edit_medicine_field_start E (Some med_id) (Some field) user_id
                     callback_message callback_inline_message_id) w in
  state_x w' = Some waiting_for_new_value
  /\ med_collection_x w' = med_collection_x w
  /\ get (data_x w') "med_id" = VStr med_id
  /\ get (data_x w') "med_name" = VStr (name m)
  /\ get (data_x w') "field_to_edit" = VStr field
  /\ get (data_x w') "prompt_chat_id" = chat_id
  /\ get (data_x w') "prompt_message_id" = message_id
  /\ get (data_x w') "inline_message_id" = inline_message_id
  /\ get (data_x w') "calendar_message_id"
     = (if truthy message_id then message_id else inline_message_id).
Proof.
  cbv zeta. intros Hbound Hid Hfind Hfield Hnodate Hedit. unfold after.
  destruct (edit_medicine_field_start E (Some med_id) (Some field) user_id
              callback_message callback_inline_message_id w) as [res w'] eqn:Hrun.
  cbn [snd]. unfold edit_medicine_field_start in Hrun.
  set (chat_id := callback_chat_id callback_message) in *.
  set (message_id := callback_message_id callback_message) in *.
  set (inline_message_id := str_value callback_inline_message_id) in *.
  assert (med_id <> []) as Hmed.
  { intros ->. by vm_compute in Hid. }
  cbn [str_value] in Hrun.
  rewrite !truthy_VStr_ne in Hrun by done. cbn [negb orb] in Hrun.
  rewrite Hbound in Hrun. cbn [negb] in Hrun.
  cbn [ObjectId_of] in Hrun. rewrite Hid in Hrun. xrun Hrun.
  rewrite Hfind in Hrun. destruct m as [mid mname mlower mq mn me mu].
  xrun Hrun. destruct (today E) as [ty tm td]. xrun Hrun.
  change (default [] (Some field)) with field in Hrun.
  rewrite (bool_decide_eq_false_2 (field = u "exp_date")) in Hrun by done.
  xrun Hrun. unfold safe_edit_message_x in Hrun.
  assert (negb (truthy chat_id && truthy message_id) && negb (truthy inline_message_id)
          = false) as Hguard.
  { by destruct (truthy chat_id && truthy message_id), (truthy inline_message_id). }
  rewrite Hguard, Hedit in Hrun. xrun Hrun. xend.
  cbn [name]. repeat split; solve_get.
Qed.

(** X19 ([edit_medicine_field_start], [process_new_value_text],
    [_save_edited_medicine]).  Pressing "edit quantity" or "edit notes" on
    a medicine of one's own, whose message the gateway lets the bot edit,
    starts the edit conversation; the text typed next, if it is not blank,
    becomes the quantity (the notes) of that document, stripped; no other
    field and no other document changes, and the conversation is over.
    No other handler writes in between. *)
Theorem edit_from_button_to_stored_value (E : env) (med_id field : str) (user_id : Z)
    (callback_message : option (Z * Z)) (callback_inline_message_id : option str)
    (message_text : str) (w : world_x) (object_id : N) (m : medicine) :
  let c := med_collection_x w in
  let chat_id := callback_chat_id callback_message in
  let message_id := callback_message_id callback_message in
  let inline_message_id := str_value callback_inline_message_id in
  field = u "quantity" \/ field = u "notes" ->
  reachable c ->
  concurrent E c = c ->
  (truthy chat_id && truthy message_id) || truthy inline_message_id = true ->
  ObjectId med_id = Some object_id ->
  find_one (by_id object_id user_id) c = Some m ->
  name m <> [] ->
  edit_reply E (edit_target chat_id message_id inline_message_id) = Edited ->
  strip message_text <> [] ->
  let w1 := after (edit_medicine_field_start E (Some med_id) (Some field) user_id
                     callback_message callback_inline_message_id) w in
  let w2 := after (lift (process_new_value_text E message_text user_id)) w1 in
  state_x w1 = Some waiting_for_new_value
  /\ med_collection_x w1 = c
  /\ state_x w2 = None /\ data_x w2 = ∅
  /\ med_collection_x w2
     = replace_first (by_id object_id user_id) (with_field field (strip message_text) m) c.
Proof.
  cbv zeta. intros Hfield Hreach Halone Hbound Hid Hfind Hname Hedit Htext.
  assert (field <> [] /\ field <> u "exp_date" /\ field <> u "name") as (Hf1 & Hf2 & Hf3).
  { by destruct Hfield as [-> | ->]. }
  destruct (edit_medicine_field_start_after E med_id field user_id callback_message
              callback_inline_message_id w object_id m Hbound Hid Hfind Hf1 Hf2 Hedit)
    as (Hs1 & Hc1 & Hmed & Hmname & Hfld & Hpc & Hpm & Hin & Hcal).
  set (w1 := after _ w) in *.
  split; [done|]. split; [done|].
  destruct (after_lift (process_new_value_text E message_text user_id) w1) as (-> & -> & ->).
  set (chat_id := callback_chat_id callback_message) in *.
  set (message_id := callback_message_id callback_message) in *.
  set (inline_message_id := str_value callback_inline_message_id) in *.
  assert (med_id <> []) as Hmedne.
  { intros ->. by vm_compute in Hid. }
  assert (py_or (get (data_x w1) "calendar_message_id") (get (data_x w1) "prompt_message_id")
          = (if truthy message_id then message_id else inline_message_id)) as Hmsg'.
  { unfold py_or. rewrite Hcal, Hpm. destruct (truthy message_id) eqn:Hm; cbv iota.
    - by rewrite Hm.
    - rewrite andb_false_r in Hbound. cbn [orb] in Hbound. by rewrite Hbound. }
  assert (truthy (get (data_x w1) "prompt_chat_id")
          && truthy (py_or (get (data_x w1) "calendar_message_id")
                           (get (data_x w1) "prompt_message_id"))
          || truthy (get (data_x w1) "inline_message_id") = true) as Hbound'.
  { rewrite Hmsg', Hpc, Hin. destruct (truthy message_id) eqn:Hm; cbv iota.
    - by rewrite Hm.
    - rewrite andb_false_r in Hbound. cbn [orb] in Hbound. rewrite Hbound. apply orb_true_r. }
  set (upd := <[field := VStr (strip message_text)]> (∅ : gmap str value)).
  assert ((validate_new_value E (get (data (world_of w1)) "field_to_edit")
             (get (data (world_of w1)) "med_id") user_id (strip message_text)
             (world_of w1)).1 = inr (inr (upd, VStr (strip message_text)))) as Hval.
  { cbn [world_of data]. rewrite Hfld, Hmed. unfold validate_new_value.
    rewrite (bool_decide_eq_false_2 (VStr field = VStr (u "name"))) by congruence.
    rewrite (truthy_VStr_ne _ Htext). cbn [negb].
    destruct Hfield as [-> | ->].
    - by rewrite bool_decide_eq_true_2.
    - rewrite bool_decide_eq_false_2 by done. by rewrite bool_decide_eq_true_2. }
  rewrite (process_new_value_text_validated E message_text user_id (world_of w1) upd
             (VStr (strip message_text))); [|
    cbn [world_of data forallb]; rewrite Hmed, Hmname, Hfld, !truthy_VStr_ne; done
    |exact Hbound'|exact Hval].
  destruct (validated_update _ _ _ _ _ _ _ _ Hval) as [Hcompl _].
  destruct (update_one_field (by_id object_id user_id) field (strip message_text)
              (med_collection_x w) m Hfield (proj2 (reachable_unique _ Hreach)) Hfind)
    as (r & Hupd).
  cbn [world_of data] in Hcompl |- *. rewrite Hfld, Hmed, Hpc, Hin, Hmsg' in *.
  destruct (_save_edited_medicine_run E user_id (VStr med_id) (VStr field)
              (VStr (strip message_text)) upd upd chat_id
              (if truthy message_id then message_id else inline_message_id)
              inline_message_id
              (add_calls [message_delete]
                 (World (med_collection_x w1) (state_x w1) (data_x w1) []))
              object_id m r
              (replace_first (by_id object_id user_id)
                 (with_field field (strip message_text) m) (med_collection_x w)))
    as (cs & Hrun & _).
  - exact Hid.
  - cbn [add_calls med_collection]. by rewrite Hc1.
  - exact Hcompl.
  - apply insert_non_empty.
  - cbn [add_calls med_collection]. by rewrite Hc1, Halone.
  - destruct (truthy message_id) eqn:Hm; cbv iota.
    + by rewrite Hm.
    + rewrite andb_false_r in Hbound. cbn [orb] in Hbound. rewrite Hbound. apply orb_true_r.
  - unfold world_of. rewrite Hrun. done.
Qed.

Lemma edit_from_button_to_stored_value_witness :
  let w1 := after (edit_medicine_field_start E0 (Some (str_of_id 1)) (Some (u "quantity")) 1
                     (Some (10, 20)) None) (w_start [aspirin]) in
  let w2 := after (lift (process_new_value_text E0 (u " 20 шт ") 1)) w1 in
  state_x w1 = Some waiting_for_new_value
  /\ med_collection_x w1 = [aspirin]
  /\ state_x w2 = None /\ data_x w2 = ∅
  /\ med_collection_x w2
     = replace_first (by_id 1 1) (with_field (u "quantity") (strip (u " 20 шт ")) aspirin)
         [aspirin].
Proof.
  apply (edit_from_button_to_stored_value E0 (str_of_id 1) (u "quantity") 1 (Some (10, 20))
           None (u " 20 шт ") (w_start [aspirin]) 1 aspirin).
  - by left.
  - exact reachable_aspirin.
  - reflexivity.
  - reflexivity.
  - by vm_compute.
  - reflexivity.
  - by vm_compute.
  - reflexivity.
  - by vm_compute.
Defined.
